(** * Strategy engines of the Binance futures bot: grid, OCO and TWAP

    A shallow embedding of [src/basic_bot.py], [src/advanced/grid_orders.py],
    [src/advanced/oco.py], [src/advanced/twap.py] and
    [src/advanced/stop_limit.py], with the two grid entry points of the
    facade in [src/main.py].

    Python [float]s are IEEE-754 binary64 numbers and are modelled by Rocq's
    primitive floats, which are the same format with the same rounding.
    Python exceptions become the left summand of a [result]; the exchange
    client ([bot.client]) is an oracle that answers every call from the
    history of the calls made so far. *)

From Stdlib Require Import ZArith QArith List String Ascii Bool Lia Floats DecimalString.
Import ListNotations.

Set Warnings "-inexact-float".

Local Open Scope string_scope.
Local Open Scope list_scope.
Local Open Scope Z_scope.

(* ===================================================================== *)
(** ** Python values and built-ins used by the bot                        *)
(* ===================================================================== *)

Module Py.

(** The exceptions the modelled code can raise.  [BinanceAPIException]
    stands for whatever the exchange client raises; [OverflowError] is
    what the date arithmetic raises past the year 9999, and [math.exp]
    on a result too large for a float. *)
Inductive exn : Type :=
| ValueError (msg : string)
| ZeroDivisionError (msg : string)
| KeyError (key : string)
| OverflowError (msg : string)
| BinanceAPIException (msg : string).

Definition result (A : Type) : Type := (exn + A)%type.

Definition ret {A} (a : A) : result A := inr a.
Definition raise {A} (e : exn) : result A := inl e.

Definition bind {A B} (c : result A) (k : A -> result B) : result B :=
  match c with
  | inl e => inl e
  | inr a => k a
  end.

Definition is_ValueError {A} (r : result A) : bool :=
  match r with
  | inl (ValueError _) => true
  | _ => false
  end.

(** *** Floats *)

(** [float(z)] for a Python [int]: the nearest binary64 number (for the
    integers that have one; Python raises on the others). *)
Definition float_of_int (z : Z) : float :=
  SF2Prim (binary_normalize prec emax z 0 false).

(** [x / n] with [n] an [int]: it raises exactly when [n] is 0, and
    divides by [float(n)] otherwise. *)
Definition truediv_int (x : float) (n : Z) : result float :=
  if n =? 0
  then raise (ZeroDivisionError "float division by zero")
  else ret (PrimFloat.div x (float_of_int n)).

(** An integer as an unrounded binary number [m * 2^0]. *)
Definition SF_of_Z (z : Z) : spec_float :=
  match z with
  | Z0 => S754_zero false
  | Zpos p => S754_finite false p 0
  | Zneg p => S754_finite true p 0
  end.

(** The float nearest to the exact quotient [a / b] of two integers. *)
Definition nearest_quotient (a b : Z) : float :=
  SF2Prim (SFdiv prec emax (SF_of_Z a) (SF_of_Z b)).

(** [a / b] on two [int]s: the correctly rounded quotient. *)
Definition int_truediv (a b : Z) : result float :=
  if b =? 0
  then raise (ZeroDivisionError "division by zero")
  else ret (nearest_quotient a b).

(** The integer nearest to [num / den], ties to even ([den > 0]). *)
Definition round_half_even (num den : Z) : Z :=
  let q := num / den in
  let r := num mod den in
  match (2 * r ?= den) with
  | Lt => q
  | Gt => q + 1
  | Eq => if Z.even q then q else q + 1
  end.

(** The integer nearest to [|x| * 10^k], ties to even, for a finite
    non-zero float given by its mantissa and exponent. *)
Definition scaled_mantissa (k : Z) (m : positive) (e : Z) : Z :=
  if 0 <=? e
  then Z.pos m * 2 ^ e * 10 ^ k
  else round_half_even (Z.pos m * 10 ^ k) (2 ^ (- e)).

(** [round(x, 8)]: the decimal with 8 fractional digits nearest to [x]
    (ties to even), read back as the nearest float.  Zeros, infinities
    and NaN are returned unchanged. *)
Definition round8 (x : float) : float :=
  match Prim2SF x with
  | S754_finite s m e =>
      let n := scaled_mantissa 8 m e in
      match n with
      | Z0 => if s then neg_zero else zero
      | _ => nearest_quotient (if s then - n else n) (10 ^ 8)
      end
  | _ => x
  end.

(** [int(x)] on a float: truncation towards zero (finite [x] only; the
    clock never reads an infinity or a NaN). *)
Definition int_of_float (x : float) : Z :=
  match Prim2SF x with
  | S754_finite s m e =>
      let a := if 0 <=? e then Z.pos m * 2 ^ e else Z.pos m / 2 ^ (- e) in
      if s then - a else a
  | _ => 0
  end.

(** *** Strings *)

Definition upper_ascii (c : ascii) : ascii :=
  let n := nat_of_ascii c in
  if ((97 <=? n) && (n <=? 122))%nat then ascii_of_nat (n - 32) else c.

(** [s.upper()], on ASCII text. *)
Fixpoint upper (s : string) : string :=
  match s with
  | EmptyString => EmptyString
  | String c s' => String (upper_ascii c) (upper s')
  end.

(** [str(z)] for an [int]. *)
Definition str_of_int (z : Z) : string :=
  NilZero.string_of_int (Z.to_int z).

(** *** Dates and pauses *)

(** A [datetime] is modelled by the clock reading it stands for, in
    seconds since the epoch (the clock is read in UTC).  Datetimes span
    the years 1 to 9999. *)
Definition datetime_min : float := (-62135596800)%float.
Definition datetime_end : float := 253402300800%float.

(** [t + timedelta(minutes=m)] for an [int] [m].  A [timedelta] holds at
    most 999999999 days, counted in a C [int], and the sum must be a
    datetime: the expression raises [OverflowError] otherwise. *)
Definition datetime_add_minutes (t : float) (m : Z) : result float :=
  let days := m / 1440 in
  if (days <? - 2147483648) || (2147483647 <? days)
  then raise (OverflowError "Python int too large to convert to C int")
  else if (days <? - 999999999) || (999999999 <? days)
  then raise (OverflowError ("days=" ++ str_of_int days
                               ++ "; must have magnitude <= 999999999"))
  else
    let r := PrimFloat.add t (float_of_int (m * 60)) in
    if PrimFloat.leb datetime_min r && PrimFloat.ltb r datetime_end
    then ret r
    else raise (OverflowError "date value out of range").

(** The pauses [time.sleep] takes.  It raises on a NaN, on a negative
    pause and on one that is too long; how long that is depends on the
    interpreter and the platform (some 49 days where the pause is counted
    in milliseconds in 32 bits, some 292 years, less the time the machine
    has been up, where it is counted in nanoseconds in 64 bits).  A pause
    of at most 4294967 seconds is taken everywhere. *)
Definition sleep_accepts (d : float) : bool :=
  PrimFloat.leb 0 d && PrimFloat.leb d 4294967.

End Py.


(* ===================================================================== *)
(** ** The exchange client and the program state                          *)
(* ===================================================================== *)

(** An order as the exchange reports it (the fields the bot reads). *)
Record Order : Type := mkOrder {
  orderId : Z;
  ord_status : string;
  avgPrice : option float
}.

(** The keyword arguments of [client.futures_create_order]. *)
Record OrderRequest : Type := mkRequest {
  req_symbol : string;
  req_side : string;
  req_type : string;
  req_quantity : float;
  req_price : option float;
  req_stopPrice : option float;
  req_timeInForce : option string
}.

(** One call to the exchange client, with the reply it got. *)
Inductive Event : Type :=
| EvExchangeInfo (reply : Py.result (list string))
| EvCreateOrder (req : OrderRequest) (reply : Py.result Order)
| EvCancelOrder (symbol : string) (order_id : Z) (reply : Py.result Order)
| EvGetOrder (symbol : string) (order_id : Z) (reply : Py.result Order).

(** [bot.client]: the exchange answers a call knowing every call made
    before it.  Nothing else is assumed about it. *)
Record Client : Type := mkClient {
  cl_exchange_info : list Event -> Py.result (list string);
  cl_create_order : list Event -> OrderRequest -> Py.result Order;
  cl_cancel_order : list Event -> string -> Z -> Py.result Order;
  cl_get_order : list Event -> string -> Z -> Py.result Order
}.

(** *** Strategy records (the dicts kept in the registries) *)

Record GridLevel : Type := mkLevel {
  level : Z;
  level_price : float;
  level_side : string;
  level_quantity : float
}.

(** An entry of [grid_data['placed_orders']]. *)
Record OrderInfo : Type := mkOrderInfo {
  oi_grid_level : Z;
  oi_price : float;
  oi_side : string;
  oi_quantity : float;
  oi_order : Order;
  oi_timestamp : float
}.

(** An entry of the [failed_orders] list of [execute_grid_orders]. *)
Record FailedLevel : Type := mkFailedLevel {
  fl_grid_level : Z;
  fl_price : float;
  fl_side : string;
  fl_quantity : float;
  fl_error : string;
  fl_timestamp : float
}.

Record GridData : Type := mkGrid {
  grid_symbol : string;
  grid_side : string;
  grid_quantity_per_order : float;
  grid_lower_price : float;
  grid_upper_price : float;
  grid_num_orders : Z;
  grid_type : string;
  grid_price_step : float;
  grid_levels : list GridLevel;
  grid_status : string;
  placed_orders : list OrderInfo;
  filled_orders : list OrderInfo;
  grid_created_time : float
}.

Record OCOData : Type := mkOCO {
  oco_symbol : string;
  oco_side : string;
  take_profit_order : Order;
  stop_loss_order : Order;
  oco_status : string
}.

(** An entry of [twap_data['executed_orders']]. *)
Record ExecutedSlice : Type := mkExecuted {
  ex_slice_num : Z;
  ex_quantity : float;
  ex_order : Order;
  ex_timestamp : float
}.

(** An entry of [twap_data['failed_orders']]. *)
Record FailedSlice : Type := mkFailed {
  fs_slice_num : Z;
  fs_quantity : float;
  fs_error : string;
  fs_timestamp : float
}.

Record TwapData : Type := mkTwap {
  twap_symbol : string;
  twap_side : string;
  total_quantity : float;
  remaining_quantity : float;
  num_slices : Z;
  slice_quantity : float;
  slice_interval : float;
  twap_order_type : string;
  twap_price : option float;
  twap_time_in_force : string;
  start_time : float;
  end_time : float;
  twap_status : string;
  executed_orders : list ExecutedSlice;
  failed_orders : list FailedSlice
}.

(** *** Dicts keyed by strings, in insertion order *)

Section Dict.
Context {V : Type}.

Definition dict : Type := list (string * V).

Fixpoint dict_get (k : string) (d : dict) : option V :=
  match d with
  | [] => None
  | (k', v) :: d' => if String.eqb k k' then Some v else dict_get k d'
  end.

(** [d[k] = v] *)
Fixpoint dict_set (k : string) (v : V) (d : dict) : dict :=
  match d with
  | [] => [(k, v)]
  | (k', v') :: d' =>
      if String.eqb k k' then (k, v) :: d' else (k', v') :: dict_set k v d'
  end.

End Dict.

Arguments dict V : clear implicits.

(** *** The state of the running program

    The exchange with the calls made so far, the wall clock in seconds
    since the epoch (what [time.time()] and [datetime.now()] read; it moves
    when the program sleeps), and the registries of the three strategy
    engines. *)
Record State : Type := mkState {
  client : Client;
  history : list Event;
  clock : float;
  active_grids : dict GridData;
  active_oco_orders : dict OCOData;
  monitoring_threads : list string;
  active_twap_orders : dict TwapData
}.

Definition with_history (h : list Event) (s : State) : State :=
  mkState (client s) h (clock s) (active_grids s) (active_oco_orders s)
          (monitoring_threads s) (active_twap_orders s).

Definition with_clock (t : float) (s : State) : State :=
  mkState (client s) (history s) t (active_grids s) (active_oco_orders s)
          (monitoring_threads s) (active_twap_orders s).

Definition with_grids (g : dict GridData) (s : State) : State :=
  mkState (client s) (history s) (clock s) g (active_oco_orders s)
          (monitoring_threads s) (active_twap_orders s).

Definition with_oco (o : dict OCOData) (s : State) : State :=
  mkState (client s) (history s) (clock s) (active_grids s) o
          (monitoring_threads s) (active_twap_orders s).

Definition with_threads (t : list string) (s : State) : State :=
  mkState (client s) (history s) (clock s) (active_grids s)
          (active_oco_orders s) t (active_twap_orders s).

Definition with_twaps (t : dict TwapData) (s : State) : State :=
  mkState (client s) (history s) (clock s) (active_grids s)
          (active_oco_orders s) (monitoring_threads s) t.

(** *** Computations that change the state and may raise *)

Definition M (A : Type) : Type := State -> Py.result A * State.

Definition ret {A} (a : A) : M A := fun s => (inr a, s).

Definition raise {A} (e : Py.exn) : M A := fun s => (inl e, s).

Definition bind {A B} (c : M A) (k : A -> M B) : M B :=
  fun s =>
    match c s with
    | (inl e, s') => (inl e, s')
    | (inr a, s') => k a s'
    end.

(** [try: c  except Exception as e: h e] *)
Definition try_except {A} (c : M A) (h : Py.exn -> M A) : M A :=
  fun s =>
    match c s with
    | (inl e, s') => h e s'
    | (inr a, s') => (inr a, s')
    end.

Definition lift {A} (r : Py.result A) : M A := fun s => (r, s).

Definition gets {A} (f : State -> A) : M A := fun s => (inr (f s), s).

Definition modify (f : State -> State) : M unit := fun s => (inr tt, f s).

Notation "x <- c ;; k" := (bind c (fun x => k))
  (at level 61, c at next level, right associativity).
Notation "c ;; k" := (bind c (fun _ => k))
  (at level 61, right associativity).

(** [time.time()] / [datetime.now()] *)
Definition now : M float := gets clock.

(** [time.sleep(d)], for a pause [time.sleep] takes ([Py.sleep_accepts]):
    the clock moves on by [d].  The grid and OCO engines pause for 0.1, 1
    and 5 seconds, the TWAP engine for the slice interval of the order. *)
Definition sleep (d : float) : M unit :=
  modify (fun s => with_clock (PrimFloat.add (clock s) d) s).

(** [str(e)] *)
Definition str_of_exn (e : Py.exn) : string :=
  match e with
  | Py.ValueError m => m
  | Py.ZeroDivisionError m => m
  | Py.KeyError k => k
  | Py.OverflowError m => m
  | Py.BinanceAPIException m => m
  end.

(** [for i in range(n)] *)
Definition range (n : Z) : list Z := map Z.of_nat (seq 0 (Z.to_nat n)).

(** A loop body either falls through to the next iteration or breaks. *)
Inductive flow : Type := Next | Break.

(** [for x in xs: body x], where the body may [break]: the loop runs
    the body on each element in turn and stops at the first [break]. *)
Fixpoint for_loop {X} (body : X -> M flow) (xs : list X) : M flow :=
  match xs with
  | [] => ret Next
  | x :: rest =>
      f <- body x ;;
      match f with
      | Break => ret Break
      | Next => for_loop body rest
      end
  end.

Definition for_each {X} (body : X -> M flow) (xs : list X) : M unit :=
  for_loop body xs ;; ret tt.

(** The four calls the bot makes on [self.client]; each is recorded. *)
Definition futures_exchange_info : M (list string) :=
  fun s =>
    let r := cl_exchange_info (client s) (history s) in
    (r, with_history (history s ++ [EvExchangeInfo r]) s).

Definition futures_create_order (req : OrderRequest) : M Order :=
  fun s =>
    let r := cl_create_order (client s) (history s) req in
    (r, with_history (history s ++ [EvCreateOrder req r]) s).

Definition futures_cancel_order (symbol : string) (order_id : Z) : M Order :=
  fun s =>
    let r := cl_cancel_order (client s) (history s) symbol order_id in
    (r, with_history (history s ++ [EvCancelOrder symbol order_id r]) s).

Definition futures_get_order (symbol : string) (order_id : Z) : M Order :=
  fun s =>
    let r := cl_get_order (client s) (history s) symbol order_id in
    (r, with_history (history s ++ [EvGetOrder symbol order_id r]) s).

(* ===================================================================== *)
(** ** [basic_bot.py]: validation and primitive orders                    *)
(* ===================================================================== *)

Module BasicBot.

(** The symbol must be a string of at least 3 characters.  The exchange
    is then asked for its symbols, but the [except Exception] around that
    lookup also catches the "not found" error raised inside it, so the
    lookup only logs: it never rejects. *)
Definition validate_symbol (symbol : string) : M string :=
  if (String.length symbol <? 3)%nat
  then raise (Py.ValueError "Invalid symbol format")
  else
    let symbol := Py.upper symbol in
    try_except
      (valid_symbols <- futures_exchange_info ;;
       if negb (existsb (String.eqb symbol) valid_symbols)
       then raise (Py.ValueError "Symbol not found on Binance Futures")
       else ret tt)
      (fun _ => ret tt) ;;
    ret symbol.

Definition validate_side (side : string) : Py.result string :=
  let side := Py.upper side in
  if negb (String.eqb side "BUY" || String.eqb side "SELL")
  then Py.raise (Py.ValueError "Side must be BUY or SELL")
  else Py.ret side.

Definition validate_quantity (quantity : float) : Py.result float :=
  let q := quantity in
  if PrimFloat.leb q 0
  then Py.raise (Py.ValueError "Quantity must be > 0")
  else Py.ret q.

Definition validate_price (price : float) : Py.result float :=
  let p := price in
  if PrimFloat.leb p 0
  then Py.raise (Py.ValueError "Price must be > 0")
  else Py.ret p.

(** The entry of the exchange's symbol list whose name is [symbol] (the
    entries are modelled by their names).  Here the "not found" error is
    logged and raised again. *)
Definition get_symbol_info (symbol : string) : M string :=
  try_except
    (symbols <- futures_exchange_info ;;
     match find (fun s => String.eqb s symbol) symbols with
     | Some s => ret s
     | None => raise (Py.ValueError ("Symbol " ++ symbol ++ " not found"))
     end)
    (fun e => raise e).

Definition valid_time_in_force (tif : string) : bool :=
  String.eqb tif "GTC" || String.eqb tif "IOC" || String.eqb tif "FOK".

Definition place_market_order (symbol side : string) (quantity : float)
  : M Order :=
  symbol <- validate_symbol symbol ;;
  side <- lift (validate_side side) ;;
  quantity <- lift (validate_quantity quantity) ;;
  try_except
    (futures_create_order
       (mkRequest symbol side "MARKET" quantity None None None))
    (fun e => raise e).

Definition place_limit_order (symbol side : string) (quantity price : float)
  (time_in_force : string) : M Order :=
  symbol <- validate_symbol symbol ;;
  side <- lift (validate_side side) ;;
  quantity <- lift (validate_quantity quantity) ;;
  price <- lift (validate_price price) ;;
  if negb (valid_time_in_force time_in_force)
  then raise (Py.ValueError "time_in_force must be GTC, IOC, or FOK")
  else
    try_except
      (futures_create_order
         (mkRequest symbol side "LIMIT" quantity (Some price) None
                    (Some time_in_force)))
      (fun e => raise e).

Definition cancel_order (symbol : string) (order_id : Z) : M Order :=
  try_except (futures_cancel_order symbol order_id) (fun e => raise e).

Definition get_order_status (symbol : string) (order_id : Z) : M Order :=
  try_except (futures_get_order symbol order_id) (fun e => raise e).

End BasicBot.

(* ===================================================================== *)
(** ** [advanced/grid_orders.py]                                          *)
(* ===================================================================== *)

(** *** Python's [==] on the dicts stored in the order lists

    [x in xs] holds when some element is [x] itself or compares equal to
    it.  Dicts compare key by key; floats compare by IEEE equality, except
    that one and the same float object equals itself even when it is NaN.
    The floats of an order entry are the objects of its grid level, so
    "IEEE-equal or both NaN" is what the membership test computes. *)

Definition float_same (x y : float) : bool :=
  PrimFloat.eqb x y || (PrimFloat.is_nan x && PrimFloat.is_nan y).

Definition option_same {A} (eqb : A -> A -> bool) (x y : option A) : bool :=
  match x, y with
  | None, None => true
  | Some a, Some b => eqb a b
  | _, _ => false
  end.

Definition order_eqb (a b : Order) : bool :=
  (orderId a =? orderId b)
  && String.eqb (ord_status a) (ord_status b)
  && option_same float_same (avgPrice a) (avgPrice b).

Definition order_info_eqb (a b : OrderInfo) : bool :=
  (oi_grid_level a =? oi_grid_level b)
  && float_same (oi_price a) (oi_price b)
  && String.eqb (oi_side a) (oi_side b)
  && float_same (oi_quantity a) (oi_quantity b)
  && order_eqb (oi_order a) (oi_order b)
  && float_same (oi_timestamp a) (oi_timestamp b).

(** [x in xs] *)
Definition py_in (x : OrderInfo) (xs : list OrderInfo) : bool :=
  existsb (order_info_eqb x) xs.

(** [for x in xs: acc = body acc x], for loops that build local lists or
    counters and never [break]. *)
Fixpoint for_fold {X Acc} (body : Acc -> X -> M Acc) (acc : Acc) (xs : list X)
  : M Acc :=
  match xs with
  | [] => ret acc
  | x :: rest => acc' <- body acc x ;; for_fold body acc' rest
  end.

(** The same for a loop that touches no state but may raise. *)
Fixpoint map_result {X Y} (f : X -> Py.result Y) (xs : list X)
  : Py.result (list Y) :=
  match xs with
  | [] => Py.ret []
  | x :: rest =>
      Py.bind (f x) (fun y =>
      Py.bind (map_result f rest) (fun ys => Py.ret (y :: ys)))
  end.

Module GridOrders.

(** What [create_grid_strategy] returns. *)
Record Created : Type := mkCreated {
  cr_grid_id : string;
  cr_symbol : string;
  cr_side : string;
  cr_num_orders : Z;
  cr_grid_levels : list GridLevel;
  cr_status : string
}.

(** What [execute_grid_orders] returns. *)
Record Executed : Type := mkExecuted {
  er_grid_id : string;
  er_status : string;
  er_placed_orders : Z;
  er_failed_orders : Z;
  er_orders : list OrderInfo
}.

(** What [get_grid_status] returns (the counters and the status). *)
Record Status : Type := mkStatus {
  sr_grid_id : string;
  sr_status : string;
  sr_num_orders : Z;
  sr_active_orders : Z;
  sr_filled_orders : Z;
  sr_canceled_orders : Z
}.

(** What [cancel_grid_orders] returns. *)
Record Canceled : Type := mkCanceled {
  cc_grid_id : string;
  cc_status : string;
  cc_canceled_orders : Z;
  cc_failed_cancellations : Z
}.

(** [grid_data[...] = ...] on the grid registered under [grid_id]. *)
Definition update_grid (grid_id : string) (f : GridData -> GridData)
  : M unit :=
  modify (fun s =>
    match dict_get grid_id (active_grids s) with
    | Some g => with_grids (dict_set grid_id (f g) (active_grids s)) s
    | None => s
    end).

Definition set_status (st : string) (g : GridData) : GridData :=
  mkGrid (grid_symbol g) (grid_side g) (grid_quantity_per_order g)
         (grid_lower_price g) (grid_upper_price g) (grid_num_orders g)
         (grid_type g) (grid_price_step g) (grid_levels g) st
         (placed_orders g) (filled_orders g) (grid_created_time g).

Definition append_placed (oi : OrderInfo) (g : GridData) : GridData :=
  mkGrid (grid_symbol g) (grid_side g) (grid_quantity_per_order g)
         (grid_lower_price g) (grid_upper_price g) (grid_num_orders g)
         (grid_type g) (grid_price_step g) (grid_levels g) (grid_status g)
         (placed_orders g ++ [oi]) (filled_orders g) (grid_created_time g).

Definition append_filled (oi : OrderInfo) (g : GridData) : GridData :=
  mkGrid (grid_symbol g) (grid_side g) (grid_quantity_per_order g)
         (grid_lower_price g) (grid_upper_price g) (grid_num_orders g)
         (grid_type g) (grid_price_step g) (grid_levels g) (grid_status g)
         (placed_orders g) (filled_orders g ++ [oi]) (grid_created_time g).

Section WithMath.

(** [math.log] and [math.exp], which may raise. *)
Variable math_log : float -> Py.result float.
Variable math_exp : float -> Py.result float.

(** The step between levels when the caller gives none. *)
Definition default_price_step (grid_type : string)
  (lower_price upper_price : float) (num_orders : Z) : Py.result float :=
  if String.eqb grid_type "LINEAR"
  then Py.truediv_int (PrimFloat.sub upper_price lower_price)
                      (num_orders - 1)
  else
    Py.bind (math_log upper_price) (fun lu =>
    Py.bind (math_log lower_price) (fun ll =>
    Py.truediv_int (PrimFloat.sub lu ll) (num_orders - 1))).

(** The price of level [i] before rounding. *)
Definition level_raw_price (grid_type : string) (lower_price price_step : float)
  (i : Z) : Py.result float :=
  if String.eqb grid_type "LINEAR"
  then Py.ret (PrimFloat.add lower_price
                 (PrimFloat.mul (Py.float_of_int i) price_step))
  else
    Py.bind (math_exp (PrimFloat.mul (Py.float_of_int i) price_step))
            (fun x => Py.ret (PrimFloat.mul lower_price x)).

Definition level_order_side (side : string) (num_orders i : Z) : string :=
  if String.eqb side "BUY"
  then (if i <? num_orders / 2 then "BUY" else "SELL")
  else (if i <? num_orders / 2 then "SELL" else "BUY").

(** One turn of the loop that generates the levels. *)
Definition make_level (grid_type side : string)
  (quantity_per_order lower_price price_step : float) (num_orders i : Z)
  : Py.result GridLevel :=
  Py.bind (level_raw_price grid_type lower_price price_step i) (fun price =>
  Py.ret (mkLevel (i + 1) (Py.round8 price)
                  (level_order_side side num_orders i)
                  quantity_per_order)).

Definition create_grid_strategy (symbol side : string)
  (quantity_per_order lower_price upper_price : float) (num_orders : Z)
  (grid_type : string) (price_step : option float) : M Created :=
  symbol <- BasicBot.validate_symbol symbol ;;
  side <- lift (BasicBot.validate_side side) ;;
  quantity_per_order <- lift (BasicBot.validate_quantity quantity_per_order) ;;
  lower_price <- lift (BasicBot.validate_price lower_price) ;;
  upper_price <- lift (BasicBot.validate_price upper_price) ;;
  if PrimFloat.leb upper_price lower_price
  then raise (Py.ValueError "lower_price must be < upper_price")
  else if num_orders <=? 0
  then raise (Py.ValueError "num_orders must be > 0")
  else if negb (String.eqb grid_type "LINEAR"
                || String.eqb grid_type "LOGARITHMIC")
  then raise (Py.ValueError "grid_type must be LINEAR or LOGARITHMIC")
  else
    price_step <-
      lift (match price_step with
            | None => default_price_step grid_type lower_price upper_price
                                         num_orders
            | Some ps => BasicBot.validate_price ps
            end) ;;
    grid_levels <-
      lift (map_result
              (make_level grid_type side quantity_per_order lower_price
                          price_step num_orders)
              (range num_orders)) ;;
    t <- now ;;
    let grid_id :=
      ("GRID_" ++ symbol ++ "_" ++ Py.str_of_int (Py.int_of_float t))%string in
    created <- now ;;
    modify (fun s =>
      with_grids
        (dict_set grid_id
           (mkGrid symbol side quantity_per_order lower_price upper_price
                   num_orders grid_type price_step grid_levels
                   "CONFIGURED" [] [] created)
           (active_grids s)) s) ;;
    ret (mkCreated grid_id symbol side num_orders grid_levels "CONFIGURED").

Definition create_dca_grid (symbol side : string)
  (total_quantity start_price price_decrement : float) (num_orders : Z)
  : M Created :=
  symbol <- BasicBot.validate_symbol symbol ;;
  side <- lift (BasicBot.validate_side side) ;;
  total_quantity <- lift (BasicBot.validate_quantity total_quantity) ;;
  start_price <- lift (BasicBot.validate_price start_price) ;;
  price_decrement <- lift (BasicBot.validate_price price_decrement) ;;
  if num_orders <=? 0
  then raise (Py.ValueError "num_orders must be > 0")
  else
    quantity_per_order <- lift (Py.truediv_int total_quantity num_orders) ;;
    let lower_price :=
      PrimFloat.sub start_price
        (PrimFloat.mul (Py.float_of_int (num_orders - 1)) price_decrement) in
    let upper_price := start_price in
    if PrimFloat.leb lower_price 0
    then raise (Py.ValueError "Calculated lower_price is <= 0")
    else
      create_grid_strategy symbol side quantity_per_order lower_price
                           upper_price num_orders "LINEAR"
                           (Some price_decrement).

End WithMath.

(** The body of the placement loop: one limit order for one level, the
    outcome appended to the local [placed_orders] or [failed_orders]
    list, and a placed order also to the grid's own list. *)
Definition place_level (grid_id symbol : string)
  (acc : list OrderInfo * list FailedLevel) (lv : GridLevel)
  : M (list OrderInfo * list FailedLevel) :=
  let '(placed, failed) := acc in
  try_except
    (order <- BasicBot.place_limit_order symbol (level_side lv)
                (level_quantity lv) (level_price lv) "GTC" ;;
     t <- now ;;
     let order_info :=
       mkOrderInfo (level lv) (level_price lv) (level_side lv)
                   (level_quantity lv) order t in
     update_grid grid_id (append_placed order_info) ;;
     sleep 0.1 ;;
     ret (placed ++ [order_info], failed))
    (fun e =>
       t <- now ;;
       ret (placed,
            failed ++ [mkFailedLevel (level lv) (level_price lv)
                         (level_side lv) (level_quantity lv)
                         (str_of_exn e) t])).

Definition execute_grid_orders (grid_id : string) : M Executed :=
  grids <- gets active_grids ;;
  match dict_get grid_id grids with
  | None => raise (Py.ValueError "Grid not found")
  | Some grid_data =>
      update_grid grid_id (set_status "EXECUTING") ;;
      try_except
        (acc <- for_fold (place_level grid_id (grid_symbol grid_data))
                         ([], []) (grid_levels grid_data) ;;
         let '(placed, failed) := acc in
         update_grid grid_id (set_status "ACTIVE") ;;
         ret (mkExecuted grid_id "ACTIVE" (Z.of_nat (List.length placed))
                         (Z.of_nat (List.length failed)) placed))
        (fun e =>
           update_grid grid_id (set_status "ERROR") ;;
           raise e)
  end.

(** The body of the cancellation loop (the counters of the two lists). *)
Definition cancel_level (symbol : string) (acc : Z * Z) (oi : OrderInfo)
  : M (Z * Z) :=
  let '(canceled, failed) := acc in
  try_except
    (BasicBot.cancel_order symbol (orderId (oi_order oi)) ;;
     ret (canceled + 1, failed))
    (fun _ => ret (canceled, failed + 1)).

Definition cancel_grid_orders (grid_id : string) : M Canceled :=
  grids <- gets active_grids ;;
  match dict_get grid_id grids with
  | None => raise (Py.ValueError "Grid not found")
  | Some grid_data =>
      try_except
        (acc <- for_fold (cancel_level (grid_symbol grid_data)) (0, 0)
                         (placed_orders grid_data) ;;
         let '(canceled, failed) := acc in
         update_grid grid_id (set_status "CANCELED") ;;
         ret (mkCanceled grid_id "CANCELED" canceled failed))
        (fun e => raise e)
  end.

(** The body of the refresh loop: the counters are local, the filled
    list is the grid's. *)
Definition refresh_order (grid_id symbol : string) (acc : Z * Z * Z)
  (order_info : OrderInfo) : M (Z * Z * Z) :=
  let '(active, filled, canceled) := acc in
  try_except
    (order_status <- BasicBot.get_order_status symbol
                       (orderId (oi_order order_info)) ;;
     if String.eqb (ord_status order_status) "FILLED"
     then
       grids <- gets active_grids ;;
       match dict_get grid_id grids with
       | Some g =>
           (if negb (py_in order_info (filled_orders g))
            then update_grid grid_id (append_filled order_info)
            else ret tt) ;;
           ret (active, filled + 1, canceled)
       | None => ret (active, filled + 1, canceled)
       end
     else if String.eqb (ord_status order_status) "CANCELED"
             || String.eqb (ord_status order_status) "EXPIRED"
     then ret (active, filled, canceled + 1)
     else ret (active + 1, filled, canceled))
    (fun _ => ret acc).

Definition get_grid_status (grid_id : string) : M Status :=
  grids <- gets active_grids ;;
  match dict_get grid_id grids with
  | None => raise (Py.ValueError "Grid not found")
  | Some grid_data =>
      acc <- for_fold (refresh_order grid_id (grid_symbol grid_data))
                      (0, 0, 0) (placed_orders grid_data) ;;
      let '(active, filled, canceled) := acc in
      grids <- gets active_grids ;;
      let status :=
        match dict_get grid_id grids with
        | Some g => grid_status g
        | None => grid_status grid_data
        end in
      ret (mkStatus grid_id status (grid_num_orders grid_data)
                    active filled canceled)
  end.

End GridOrders.

(* ===================================================================== *)
(** ** [advanced/oco.py]                                                  *)
(* ===================================================================== *)

Module OCOOrders.

(** What [place_oco_order] returns. *)
Record Placed : Type := mkPlaced {
  pl_oco_id : string;
  pl_take_profit_order : Order;
  pl_stop_loss_order : Order;
  pl_status : string
}.

(** The monitor thread of an OCO pair is started and remembered under
    the pair's id.  (What the thread then does is [monitor_oco], below;
    it is not run by this call.) *)
Definition _start_oco_monitoring (oco_id : string) : M unit :=
  modify (fun s => with_threads (monitoring_threads s ++ [oco_id]) s).

Definition place_oco_order (symbol side : string)
  (quantity take_profit_price stop_loss_price : float)
  (time_in_force : string) : M Placed :=
  symbol <- BasicBot.validate_symbol symbol ;;
  side <- lift (BasicBot.validate_side side) ;;
  quantity <- lift (BasicBot.validate_quantity quantity) ;;
  take_profit_price <- lift (BasicBot.validate_price take_profit_price) ;;
  stop_loss_price <- lift (BasicBot.validate_price stop_loss_price) ;;
  if negb (BasicBot.valid_time_in_force time_in_force)
  then raise (Py.ValueError "time_in_force must be GTC, IOC, or FOK")
  else if (if String.eqb side "BUY"
           then PrimFloat.leb take_profit_price stop_loss_price
           else PrimFloat.leb stop_loss_price take_profit_price)
  then raise (Py.ValueError
                (if String.eqb side "BUY"
                 then "For BUY orders: take_profit_price must be > stop_loss_price"
                 else "For SELL orders: take_profit_price must be < stop_loss_price"))
  else
    try_except
      (take_profit_order <-
         futures_create_order
           (mkRequest symbol side "LIMIT" quantity (Some take_profit_price)
                      None (Some time_in_force)) ;;
       stop_loss_order <-
         futures_create_order
           (mkRequest symbol side "STOP_MARKET" quantity None
                      (Some stop_loss_price) None) ;;
       t <- now ;;
       let oco_id := (symbol ++ "_" ++ Py.str_of_int (Py.int_of_float t))%string in
       modify (fun s =>
         with_oco
           (dict_set oco_id
              (mkOCO symbol side take_profit_order stop_loss_order "ACTIVE")
              (active_oco_orders s)) s) ;;
       _start_oco_monitoring oco_id ;;
       ret (mkPlaced oco_id take_profit_order stop_loss_order "PLACED"))
      (fun e => raise e).

Definition get_oco_status (oco_id : string) : M OCOData :=
  ocos <- gets active_oco_orders ;;
  match dict_get oco_id ocos with
  | None => raise (Py.ValueError "OCO order not found")
  | Some oco_data => ret oco_data
  end.

(** [self.active_oco_orders[oco_id]] *)
Definition oco_data_of (oco_id : string) : M OCOData :=
  ocos <- gets active_oco_orders ;;
  match dict_get oco_id ocos with
  | Some d => ret d
  | None => raise (Py.KeyError oco_id)
  end.

Definition with_oco_status (st : string) (d : OCOData) : OCOData :=
  mkOCO (oco_symbol d) (oco_side d) (take_profit_order d) (stop_loss_order d)
        st.

(** [self.active_oco_orders[oco_id]['status'] = st] *)
Definition set_oco_status (oco_id st : string) : M unit :=
  d <- oco_data_of oco_id ;;
  modify (fun s =>
    with_oco (dict_set oco_id (with_oco_status st d) (active_oco_orders s)) s).

(** One entry of the [cancellations] list: which leg, and the exchange's
    answer or the text of the error. *)
Record Cancellation : Type := mkCancellation {
  cx_order : string;
  cx_outcome : string + Order
}.

(** What [cancel_oco_order] returns. *)
Record CanceledOCO : Type := mkCanceledOCO {
  co_oco_id : string;
  co_cancellations : list Cancellation
}.

(** One leg of the cancellation: the error of the exchange is kept as
    text and not raised. *)
Definition cancel_leg (name symbol : string) (order_id : Z)
  : M Cancellation :=
  try_except
    (result <- BasicBot.cancel_order symbol order_id ;;
     ret (mkCancellation name (inr result)))
    (fun e => ret (mkCancellation name (inl (str_of_exn e)))).

Definition cancel_oco_order (oco_id : string) : M CanceledOCO :=
  ocos <- gets active_oco_orders ;;
  match dict_get oco_id ocos with
  | None => raise (Py.ValueError ("OCO order " ++ oco_id ++ " not found"))
  | Some oco_data =>
      let symbol := oco_symbol oco_data in
      try_except
        (let tp_order_id := orderId (take_profit_order oco_data) in
         tp <- cancel_leg "take_profit" symbol tp_order_id ;;
         let sl_order_id := orderId (stop_loss_order oco_data) in
         sl <- cancel_leg "stop_loss" symbol sl_order_id ;;
         set_oco_status oco_id "CANCELED" ;;
         ret (mkCanceledOCO oco_id [tp; sl]))
        (fun e => raise e)
  end.

(** *** The monitor thread of an OCO pair *)

Definition canceled_or_expired (st : string) : bool :=
  String.eqb st "CANCELED" || String.eqb st "EXPIRED".

(** [try: self.bot.cancel_order(...)  except Exception: (log)] *)
Definition try_cancel (symbol : string) (order_id : Z) : M unit :=
  try_except (BasicBot.cancel_order symbol order_id ;; ret tt)
             (fun _ => ret tt).

(** The body of the [while] loop of [monitor_oco]: both legs are queried;
    a filled leg cancels the other and ends the loop, as do two legs that
    are canceled or expired; otherwise the thread sleeps a second.  Any
    error makes it sleep five seconds and go round again. *)
Definition monitor_poll (oco_id : string) : M flow :=
  try_except
    (oco_data <- oco_data_of oco_id ;;
     let symbol := oco_symbol oco_data in
     let tp_order_id := orderId (take_profit_order oco_data) in
     tp_status <- BasicBot.get_order_status symbol tp_order_id ;;
     let sl_order_id := orderId (stop_loss_order oco_data) in
     sl_status <- BasicBot.get_order_status symbol sl_order_id ;;
     if String.eqb (ord_status tp_status) "FILLED"
     then
       try_cancel symbol sl_order_id ;;
       set_oco_status oco_id "TAKE_PROFIT_FILLED" ;;
       ret Break
     else if String.eqb (ord_status sl_status) "FILLED"
     then
       try_cancel symbol tp_order_id ;;
       set_oco_status oco_id "STOP_LOSS_FILLED" ;;
       ret Break
     else if canceled_or_expired (ord_status tp_status)
             && canceled_or_expired (ord_status sl_status)
     then
       set_oco_status oco_id "CANCELED" ;;
       ret Break
     else
       sleep 1 ;;
       ret Next)
    (fun _ => sleep 5 ;; ret Next).

(** [while oco_id in self.active_oco_orders: ...], for at most [fuel]
    rounds: [true] when the loop has ended, [false] when the rounds ran
    out first. *)
Fixpoint monitor_loop (fuel : nat) (oco_id : string) : M bool :=
  ocos <- gets active_oco_orders ;;
  match dict_get oco_id ocos with
  | None => ret true
  | Some _ =>
      match fuel with
      | O => ret false
      | S fuel' =>
          f <- monitor_poll oco_id ;;
          match f with
          | Break => ret true
          | Next => monitor_loop fuel' oco_id
          end
      end
  end.

(** [del d[k]] guarded by [if k in d] *)
Definition dict_discard {V} (k : string) (d : dict V) : dict V :=
  filter (fun kv => negb (String.eqb k (fst kv))) d.

(** The clean-up at the end of the thread. *)
Definition monitor_cleanup (oco_id : string) : M unit :=
  modify (fun s => with_oco (dict_discard oco_id (active_oco_orders s)) s) ;;
  modify (fun s =>
    with_threads
      (filter (fun k => negb (String.eqb oco_id k)) (monitoring_threads s)) s).

(** The thread function, run on its own for at most [fuel] rounds of
    polling; it cleans up only when its loop has ended. *)
Definition monitor_oco (fuel : nat) (oco_id : string) : M bool :=
  ended <- monitor_loop fuel oco_id ;;
  if ended
  then monitor_cleanup oco_id ;; ret true
  else ret false.

End OCOOrders.

(* ===================================================================== *)
(** ** [advanced/twap.py]                                                 *)
(* ===================================================================== *)

Module TWAPStrategy.

(** What [execute_twap_order] returns. *)
Record Started : Type := mkStarted {
  st_twap_id : string;
  st_symbol : string;
  st_side : string;
  st_total_quantity : float;
  st_num_slices : Z;
  st_duration_minutes : Z;
  st_status : string
}.

(** What [cancel_twap_order] returns. *)
Record Canceled : Type := mkCanceled {
  cn_twap_id : string;
  cn_status : string;
  cn_executed_slices : Z;
  cn_failed_slices : Z;
  cn_remaining_quantity : float
}.

(** What [get_twap_status] returns (the computed fields). *)
Record Status : Type := mkStatus {
  sr_twap_id : string;
  sr_status : string;
  sr_total_quantity : float;
  sr_executed_quantity : float;
  sr_remaining_quantity : float;
  sr_num_slices : Z;
  sr_executed_slices : Z;
  sr_failed_slices : Z;
  sr_avg_price : float;
  sr_end_time : float
}.

Definition set_remaining (r : float) (d : TwapData) : TwapData :=
  mkTwap (twap_symbol d) (twap_side d) (total_quantity d) r (num_slices d)
         (slice_quantity d) (slice_interval d) (twap_order_type d)
         (twap_price d) (twap_time_in_force d) (start_time d) (end_time d)
         (twap_status d) (executed_orders d) (failed_orders d).

Definition append_executed (e : ExecutedSlice) (d : TwapData) : TwapData :=
  mkTwap (twap_symbol d) (twap_side d) (total_quantity d)
         (remaining_quantity d) (num_slices d) (slice_quantity d)
         (slice_interval d) (twap_order_type d) (twap_price d)
         (twap_time_in_force d) (start_time d) (end_time d) (twap_status d)
         (executed_orders d ++ [e]) (failed_orders d).

Definition append_failed (f : FailedSlice) (d : TwapData) : TwapData :=
  mkTwap (twap_symbol d) (twap_side d) (total_quantity d)
         (remaining_quantity d) (num_slices d) (slice_quantity d)
         (slice_interval d) (twap_order_type d) (twap_price d)
         (twap_time_in_force d) (start_time d) (end_time d) (twap_status d)
         (executed_orders d) (failed_orders d ++ [f]).

(** [twap_data['status'] = st; twap_data['end_time'] = t] *)
Definition set_status_end (st : string) (t : float) (d : TwapData)
  : TwapData :=
  mkTwap (twap_symbol d) (twap_side d) (total_quantity d)
         (remaining_quantity d) (num_slices d) (slice_quantity d)
         (slice_interval d) (twap_order_type d) (twap_price d)
         (twap_time_in_force d) (start_time d) t st
         (executed_orders d) (failed_orders d).

(** [twap_data[...] = ...] on the order registered under [twap_id]. *)
Definition update_twap (twap_id : string) (f : TwapData -> TwapData)
  : M unit :=
  modify (fun s =>
    match dict_get twap_id (active_twap_orders s) with
    | Some d => with_twaps (dict_set twap_id (f d) (active_twap_orders s)) s
    | None => s
    end).

(** [self.active_twap_orders[twap_id]] *)
Definition twap_data_of (twap_id : string) : M TwapData :=
  twaps <- gets active_twap_orders ;;
  match dict_get twap_id twaps with
  | Some d => ret d
  | None => raise (Py.KeyError twap_id)
  end.

Definition cancel_twap_order (twap_id : string) : M Canceled :=
  twaps <- gets active_twap_orders ;;
  match dict_get twap_id twaps with
  | None => raise (Py.ValueError "TWAP order not found")
  | Some _ =>
      t <- now ;;
      update_twap twap_id (set_status_end "CANCELED" t) ;;
      twap_data <- twap_data_of twap_id ;;
      ret (mkCanceled twap_id "CANCELED"
             (Z.of_nat (List.length (executed_orders twap_data)))
             (Z.of_nat (List.length (failed_orders twap_data)))
             (remaining_quantity twap_data))
  end.

(** The call blocks in the exchange request and in [time.sleep], and
    other threads run meanwhile.  The only thing another thread can do to
    a TWAP order is [cancel_twap_order]; [interrupted] says whether one
    does so while the loop is busy with a slice.  What that call returns
    or raises stays in the other thread. *)
Definition other_threads (interrupted : bool) (twap_id : string) : M unit :=
  if interrupted
  then try_except (cancel_twap_order twap_id ;; ret tt) (fun _ => ret tt)
  else ret tt.

(** The quantity of a slice: the nominal one, except for the last slice,
    which takes what remains. *)
Definition slice_size (twap_data : TwapData) (slice_num : Z) : float :=
  if slice_num =? num_slices twap_data - 1
  then remaining_quantity twap_data
  else slice_quantity twap_data.

(** The order of one slice: a market order, or else a limit order at the
    configured price. *)
Definition place_slice (twap_data : TwapData) (slice_quantity : float)
  : M Order :=
  if String.eqb (twap_order_type twap_data) "MARKET"
  then BasicBot.place_market_order (twap_symbol twap_data)
         (twap_side twap_data) slice_quantity
  else
    match twap_price twap_data with
    | Some price =>
        BasicBot.place_limit_order (twap_symbol twap_data)
          (twap_side twap_data) slice_quantity price
          (twap_time_in_force twap_data)
    | None => raise (Py.ValueError "Price must be numeric")
    end.

(** The body of the slicing loop, for the 0-based [slice_num]. *)
Definition twap_slice (cancels : Z -> bool) (twap_id : string)
  (slice_num : Z) : M flow :=
  twap_data <- twap_data_of twap_id ;;
  if negb (String.eqb (twap_status twap_data) "ACTIVE")
  then ret Break
  else
    let slice_quantity := slice_size twap_data slice_num in
    if PrimFloat.leb slice_quantity 0
    then ret Break
    else
      try_except
        (order <- place_slice twap_data slice_quantity ;;
         t <- now ;;
         update_twap twap_id
           (append_executed (mkExecuted (slice_num + 1) slice_quantity order t)) ;;
         update_twap twap_id
           (fun d => set_remaining
                       (PrimFloat.sub (remaining_quantity d) slice_quantity) d) ;;
         (if slice_num <? num_slices twap_data - 1
          then sleep (slice_interval twap_data)
          else ret tt) ;;
         ret Next)
        (fun e =>
           t <- now ;;
           update_twap twap_id
             (append_failed (mkFailed (slice_num + 1) slice_quantity
                                      (str_of_exn e) t)) ;;
           (if slice_num <? num_slices twap_data - 1
            then sleep (slice_interval twap_data)
            else ret tt) ;;
           ret Next) ;;
      other_threads (cancels slice_num) twap_id ;;
      ret Next.

Definition _execute_twap_slices (cancels : Z -> bool) (twap_id : string)
  : M unit :=
  twap_data <- twap_data_of twap_id ;;
  for_each (twap_slice cancels twap_id) (range (num_slices twap_data)) ;;
  t <- now ;;
  update_twap twap_id (set_status_end "COMPLETED" t).

Definition execute_twap_order (cancels : Z -> bool) (symbol side : string)
  (total_quantity : float) (duration_minutes : Z) (num_slices : option Z)
  (order_type : string) (price : option float) (time_in_force : string)
  : M Started :=
  symbol <- BasicBot.validate_symbol symbol ;;
  side <- lift (BasicBot.validate_side side) ;;
  total_quantity <- lift (BasicBot.validate_quantity total_quantity) ;;
  if duration_minutes <=? 0
  then raise (Py.ValueError "Duration must be > 0 minutes")
  else if negb (String.eqb order_type "MARKET" || String.eqb order_type "LIMIT")
  then raise (Py.ValueError "order_type must be MARKET or LIMIT")
  else
    price <-
      (if String.eqb order_type "LIMIT"
       then match price with
            | None => raise (Py.ValueError "Price is required for LIMIT orders")
            | Some p => p' <- lift (BasicBot.validate_price p) ;; ret (Some p')
            end
       else ret price) ;;
    let num_slices :=
      match num_slices with
      | None => Z.max 1 (Z.min duration_minutes 60)
      | Some n => n
      end in
    if num_slices <=? 0
    then raise (Py.ValueError "Number of slices must be > 0")
    else
      slice_quantity <- lift (Py.truediv_int total_quantity num_slices) ;;
      slice_interval <- lift (Py.int_truediv (duration_minutes * 60) num_slices) ;;
      t <- now ;;
      let twap_id := ("TWAP_" ++ symbol ++ "_" ++ Py.str_of_int (Py.int_of_float t))%string in
      start <- now ;;
      finish <- lift (Py.datetime_add_minutes start duration_minutes) ;;
      modify (fun s =>
        with_twaps
          (dict_set twap_id
             (mkTwap symbol side total_quantity total_quantity num_slices
                     slice_quantity slice_interval order_type price
                     time_in_force start finish "ACTIVE" [] [])
             (active_twap_orders s)) s) ;;
      _execute_twap_slices cancels twap_id ;;
      ret (mkStarted twap_id symbol side total_quantity num_slices
                     duration_minutes "STARTED").

(** The loop of [sum] over floats in CPython 3.12 and later (Neumaier's
    algorithm): [f] is the running sum and [c] collects the rounding
    errors of the additions; [c] is added at the end unless it is zero or
    not finite. *)
Fixpoint sum_compensated (f c : float) (xs : list float) : float :=
  match xs with
  | [] =>
      if negb (PrimFloat.eqb c 0) && PrimFloat.is_finite c
      then PrimFloat.add f c
      else f
  | x :: rest =>
      let t := PrimFloat.add f x in
      let c' :=
        if PrimFloat.leb (PrimFloat.abs x) (PrimFloat.abs f)
        then PrimFloat.add c (PrimFloat.add (PrimFloat.sub f t) x)
        else PrimFloat.add c (PrimFloat.add (PrimFloat.sub x t) f) in
      sum_compensated t c' rest
  end.

(** [sum(...)] over floats.  The interpreter adds the items to 0 from
    left to right; from CPython 3.12 on it also compensates for the
    rounding errors of these additions.  [compensated] says which of the
    two interpreters runs the bot. *)
Definition py_sum (compensated : bool) (xs : list float) : float :=
  if compensated
  then match xs with
       | [] => 0%float
       | x :: rest => sum_compensated (PrimFloat.add 0 x) 0 rest
       end
  else fold_left PrimFloat.add xs 0%float.

(** [sum(order['quantity'] for order in twap_data['executed_orders'])] *)
Definition executed_quantity (compensated : bool) (d : TwapData) : float :=
  py_sum compensated (map ex_quantity (executed_orders d)).

(** The loop that adds up [avgPrice * quantity] over the executed slices
    whose order carries a (non-zero) average price. *)
Definition total_executed_value (d : TwapData) : float :=
  fold_left
    (fun acc e =>
       match avgPrice (ex_order e) with
       | Some p => PrimFloat.add acc (PrimFloat.mul p (ex_quantity e))
       | None => acc
       end)
    (executed_orders d) 0%float.

Definition get_twap_status (compensated : bool) (twap_id : string)
  : M Status :=
  twaps <- gets active_twap_orders ;;
  match dict_get twap_id twaps with
  | None => raise (Py.ValueError "TWAP order not found")
  | Some twap_data =>
      let executed_quantity := executed_quantity compensated twap_data in
      let avg_price :=
        if PrimFloat.ltb 0 executed_quantity
        then PrimFloat.div (total_executed_value twap_data) executed_quantity
        else 0%float in
      ret (mkStatus twap_id (twap_status twap_data)
             (total_quantity twap_data) executed_quantity
             (remaining_quantity twap_data) (num_slices twap_data)
             (Z.of_nat (List.length (executed_orders twap_data)))
             (Z.of_nat (List.length (failed_orders twap_data)))
             avg_price (end_time twap_data))
  end.

Definition execute_adaptive_twap (cancels : Z -> bool) (symbol side : string)
  (total_quantity : float) (duration_minutes : Z) : M Started :=
  symbol <- BasicBot.validate_symbol symbol ;;
  side <- lift (BasicBot.validate_side side) ;;
  total_quantity <- lift (BasicBot.validate_quantity total_quantity) ;;
  let base_slices := Z.max 5 duration_minutes in
  let adaptive_slices := Z.min (base_slices * 2) 100 in
  execute_twap_order cancels symbol side total_quantity duration_minutes
                     (Some adaptive_slices) "MARKET" None "GTC".

End TWAPStrategy.

(* ===================================================================== *)
(** ** [advanced/stop_limit.py]                                           *)
(* ===================================================================== *)

Module StopLimitOrders.

Definition place_stop_limit_order (symbol side : string)
  (quantity stop_price limit_price : float) (time_in_force : string)
  : M Order :=
  symbol <- BasicBot.validate_symbol symbol ;;
  side <- lift (BasicBot.validate_side side) ;;
  quantity <- lift (BasicBot.validate_quantity quantity) ;;
  stop_price <- lift (BasicBot.validate_price stop_price) ;;
  limit_price <- lift (BasicBot.validate_price limit_price) ;;
  if negb (BasicBot.valid_time_in_force time_in_force)
  then raise (Py.ValueError "time_in_force must be GTC, IOC, or FOK")
  else if String.eqb side "BUY" && PrimFloat.leb stop_price limit_price
  then raise (Py.ValueError "For BUY orders: stop_price must be > limit_price")
  else if String.eqb side "SELL" && PrimFloat.leb limit_price stop_price
  then raise (Py.ValueError "For SELL orders: stop_price must be < limit_price")
  else
    try_except
      (futures_create_order
         (mkRequest symbol side "STOP" quantity (Some limit_price)
                    (Some stop_price) (Some time_in_force)))
      (fun e => raise e).

Definition place_stop_market_order (symbol side : string)
  (quantity stop_price : float) : M Order :=
  symbol <- BasicBot.validate_symbol symbol ;;
  side <- lift (BasicBot.validate_side side) ;;
  quantity <- lift (BasicBot.validate_quantity quantity) ;;
  stop_price <- lift (BasicBot.validate_price stop_price) ;;
  try_except
    (futures_create_order
       (mkRequest symbol side "STOP_MARKET" quantity None (Some stop_price)
                  None))
    (fun e => raise e).

Definition place_take_profit_order (symbol side : string)
  (quantity stop_price : float) : M Order :=
  symbol <- BasicBot.validate_symbol symbol ;;
  side <- lift (BasicBot.validate_side side) ;;
  quantity <- lift (BasicBot.validate_quantity quantity) ;;
  stop_price <- lift (BasicBot.validate_price stop_price) ;;
  try_except
    (futures_create_order
       (mkRequest symbol side "TAKE_PROFIT" quantity None (Some stop_price)
                  None))
    (fun e => raise e).

Definition place_take_profit_limit_order (symbol side : string)
  (quantity stop_price limit_price : float) (time_in_force : string)
  : M Order :=
  symbol <- BasicBot.validate_symbol symbol ;;
  side <- lift (BasicBot.validate_side side) ;;
  quantity <- lift (BasicBot.validate_quantity quantity) ;;
  stop_price <- lift (BasicBot.validate_price stop_price) ;;
  limit_price <- lift (BasicBot.validate_price limit_price) ;;
  if negb (BasicBot.valid_time_in_force time_in_force)
  then raise (Py.ValueError "time_in_force must be GTC, IOC, or FOK")
  else if String.eqb side "BUY" && PrimFloat.leb limit_price stop_price
  then raise (Py.ValueError "For BUY orders: stop_price must be < limit_price")
  else if String.eqb side "SELL" && PrimFloat.leb stop_price limit_price
  then raise (Py.ValueError "For SELL orders: stop_price must be > limit_price")
  else
    try_except
      (futures_create_order
         (mkRequest symbol side "TAKE_PROFIT_LIMIT" quantity (Some limit_price)
                    (Some stop_price) (Some time_in_force)))
      (fun e => raise e).

End StopLimitOrders.

(* ===================================================================== *)
(** ** [main.py]: the facade over the engines                             *)
(* ===================================================================== *)

Module BinanceTradingBot.

Section WithMath.

Variable math_log : float -> Py.result float.
Variable math_exp : float -> Py.result float.

(** Create a grid and place its orders at once. *)
Definition grid_strategy (symbol side : string)
  (quantity_per_order lower_price upper_price : float) (num_orders : Z)
  (grid_type : string) : M GridOrders.Executed :=
  grid_config <- GridOrders.create_grid_strategy math_log math_exp symbol side
                   quantity_per_order lower_price upper_price num_orders
                   grid_type None ;;
  GridOrders.execute_grid_orders (GridOrders.cr_grid_id grid_config).

Definition dca_grid (symbol side : string)
  (total_quantity start_price price_decrement : float) (num_orders : Z)
  : M GridOrders.Executed :=
  grid_config <- GridOrders.create_dca_grid math_log math_exp symbol side
                   total_quantity start_price price_decrement num_orders ;;
  GridOrders.execute_grid_orders (GridOrders.cr_grid_id grid_config).

End WithMath.

End BinanceTradingBot.

(* ===================================================================== *)
(** ** A simulated exchange, for running the engines on concrete inputs   *)
(* ===================================================================== *)

Module Sim.

Definition count_creates (h : list Event) : nat :=
  List.length (filter (fun ev => match ev with
                                 | EvCreateOrder _ _ => true
                                 | _ => false
                                 end) h).

(** The exchange lists two symbols, accepts the [k]-th order request
    (counted from 0) when [accept k] holds and numbers the orders from
    1000 on, cancels whatever it is asked to, and reports the status
    [status_of] gives for an order id (an error when it gives none). *)
Definition exchange (accept : nat -> bool) (status_of : Z -> option string)
  : Client :=
  mkClient
    (fun _ => inr ["BTCUSDT"; "ETHUSDT"])
    (fun h _ =>
       let k := count_creates h in
       if accept k
       then inr (mkOrder (1000 + Z.of_nat k) "NEW" None)
       else inl (Py.BinanceAPIException "Order rejected"))
    (fun _ _ order_id => inr (mkOrder order_id "CANCELED" None))
    (fun _ _ order_id =>
       match status_of order_id with
       | Some st => inr (mkOrder order_id st None)
       | None => inl (Py.BinanceAPIException "Order does not exist")
       end).

(** A fresh program on that exchange, started at the given time. *)
Definition start (accept : nat -> bool) (status_of : Z -> option string)
  (t : float) : State :=
  mkState (exchange accept status_of) [] t [] [] [] [].

(** A program in which a TWAP order of 1 BTC in two market slices, one
    minute apart, has just been registered. *)
Definition twap_id : string := "TWAP_BTCUSDT_1700000000".

Definition with_twap_registered (s : State) : State :=
  with_twaps
    [(twap_id,
      mkTwap "BTCUSDT" "BUY" 1 1 2 0.5 60 "MARKET" None "GTC"
             (clock s) (PrimFloat.add (clock s) 120) "ACTIVE" [] [])] s.

(** [math.log] and [math.exp] are not evaluated by LINEAR grids. *)
Definition no_log (_ : float) : Py.result float :=
  inl (Py.ValueError "math domain error").



End Sim.

(* ===================================================================== *)
(** ** Vocabulary of the properties                                       *)
(* ===================================================================== *)

(** The order requests sent to the exchange, in order. *)
Definition order_requests (h : list Event) : list OrderRequest :=
  flat_map (fun ev => match ev with
                      | EvCreateOrder req _ => [req]
                      | _ => []
                      end) h.

(** The orders the exchange accepted. *)
Definition accepted_orders (h : list Event) : list Order :=
  flat_map (fun ev => match ev with
                      | EvCreateOrder _ (inr o) => [o]
                      | _ => []
                      end) h.

(** The ids the exchange agreed to cancel. *)
Definition canceled_ids (h : list Event) : list Z :=
  flat_map (fun ev => match ev with
                      | EvCancelOrder _ id (inr _) => [id]
                      | _ => []
                      end) h.


(** A call that only reads the exchange's list of symbols. *)
Definition is_symbol_lookup (ev : Event) : bool :=
  match ev with
  | EvExchangeInfo _ => true
  | _ => false
  end.



(** The rational number a finite float stands for (0 for the others). *)
Definition exact (x : float) : Q :=
  match Prim2SF x with
  | S754_finite s m e =>
      Qmult (inject_Z (if s then Z.neg m else Z.pos m)) (Qpower (inject_Z 2) e)
  | _ => inject_Z 0
  end.




(** [s'] differs from [s] in the history of exchange calls at most. *)
Definition only_history (s s' : State) : Prop :=
  with_history (history s') s = s'.

(** The grid record after [ois] were appended to its placed orders. *)
Definition extend_placed (ois : list OrderInfo) (g : GridData) : GridData :=
  mkGrid (grid_symbol g) (grid_side g) (grid_quantity_per_order g)
         (grid_lower_price g) (grid_upper_price g) (grid_num_orders g)
         (grid_type g) (grid_price_step g) (grid_levels g) (grid_status g)
         (placed_orders g ++ ois) (filled_orders g) (grid_created_time g).

(** The exchange reports the same status for an order whenever it is
    asked: nothing changes on the exchange between two refreshes. *)
Definition stable_order_statuses (c : Client) : Prop :=
  forall h h' symbol order_id,
    cl_get_order c h symbol order_id = cl_get_order c h' symbol order_id.

Definition reports_filled (r : Py.result Order) : bool :=
  match r with
  | inr o => String.eqb (ord_status o) "FILLED"
  | inl _ => false
  end.

(** The grid record with another list of filled orders. *)
Definition with_filled (l : list OrderInfo) (g : GridData) : GridData :=
  mkGrid (grid_symbol g) (grid_side g) (grid_quantity_per_order g)
         (grid_lower_price g) (grid_upper_price g) (grid_num_orders g)
         (grid_type g) (grid_price_step g) (grid_levels g) (grid_status g)
         (placed_orders g) l (grid_created_time g).

(** What the refresh loop does to the filled list, given which placed
    orders the exchange reports as FILLED. *)
Fixpoint refresh_filled (filled_now : OrderInfo -> bool)
  (placed filled : list OrderInfo) : list OrderInfo :=
  match placed with
  | [] => filled
  | oi :: rest =>
      refresh_filled filled_now rest
        (if filled_now oi && negb (py_in oi filled)
         then filled ++ [oi] else filled)
  end.

(** Every entry of [added] was absent from the list it was appended to. *)
Fixpoint all_fresh (base added : list OrderInfo) : bool :=
  match added with
  | [] => true
  | x :: rest => negb (py_in x base) && all_fresh (base ++ [x]) rest
  end.

(** *** TWAP: what one slice does to the order's record *)

(** A slice that was placed: recorded as executed, and taken off the
    remaining quantity. *)
Definition slice_done (k : Z) (q : float) (order : Order) (t : float)
  (d : TwapData) : TwapData :=
  TWAPStrategy.set_remaining (PrimFloat.sub (remaining_quantity d) q)
    (TWAPStrategy.append_executed (mkExecuted (k + 1) q order t) d).

(** A slice whose placement raised: recorded as failed. *)
Definition slice_failed (k : Z) (q : float) (e : Py.exn) (t : float)
  (d : TwapData) : TwapData :=
  TWAPStrategy.append_failed (mkFailed (k + 1) q (str_of_exn e) t) d.

Definition slice_recorded (res : Py.result Order) (k : Z) (q t : float)
  (d : TwapData) : TwapData :=
  match res with
  | inr order => slice_done k q order t d
  | inl e => slice_failed k q e t d
  end.

(** The clock after the pause that follows every slice but the last. *)
Definition after_pause (d : TwapData) (k : Z) (t : float) : float :=
  if k <? num_slices d - 1 then PrimFloat.add t (slice_interval d) else t.

(** The record after another thread may have cancelled the order. *)
Definition after_interrupt (interrupted : bool) (t : float) (d : TwapData)
  : TwapData :=
  if interrupted then TWAPStrategy.set_status_end "CANCELED" t d else d.

(** Slice number [k] (1-based) was attempted: it is on record, as executed
    or as failed. *)
Definition slice_attempted (d : TwapData) (k : Z) : bool :=
  existsb (fun e => ex_slice_num e =? k) (executed_orders d)
  || existsb (fun f => fs_slice_num f =? k) (failed_orders d).

(** The remaining quantity after [k] nominal slices were taken off. *)
Definition after_slices (total slice : float) (k : nat) : float :=
  fold_left PrimFloat.sub (repeat slice k) total.

(** The exchange accepts every order request. *)
Definition accepts_all (c : Client) : Prop :=
  forall h req, exists o, cl_create_order c h req = inr o.

(** [d'] is the record [d] after slices among [ks] (0-based) were run:
    the plan is unchanged, entries were appended for those slices only,
    and the remaining quantity went down by the executed quantities, in
    order. *)
Definition slices_recorded (ks : list Z) (d d' : TwapData) : Prop :=
  exists ex fl st t,
    d' = mkTwap (twap_symbol d) (twap_side d) (total_quantity d)
           (fold_left PrimFloat.sub (map ex_quantity ex) (remaining_quantity d))
           (num_slices d) (slice_quantity d) (slice_interval d)
           (twap_order_type d) (twap_price d) (twap_time_in_force d)
           (start_time d) t st
           (executed_orders d ++ ex) (failed_orders d ++ fl)
    /\ Forall (fun e => In (ex_slice_num e - 1) ks) ex
    /\ Forall (fun f => In (fs_slice_num f - 1) ks) fl.

(** A TWAP order whose slices pass the checks of the primitive orders:
    a market order, or a limit order with a price and a time in force. *)
Definition placeable (order_type : string) (price : option float)
  (time_in_force : string) : Prop :=
  order_type = "MARKET"
  \/ (order_type = "LIMIT"
      /\ exists p, price = Some p
                   /\ PrimFloat.leb p 0 = false
                   /\ BasicBot.valid_time_in_force time_in_force = true).

(** The record of a TWAP order after its first [a] slices were all
    executed at the nominal quantity. *)
Definition twap_in_progress (symbol side : string) (total : float) (n : Z)
  (slice interval : float) (order_type : string) (price : option float)
  (time_in_force : string) (start finish : float) (a : nat)
  (executed : list ExecutedSlice) : TwapData :=
  mkTwap symbol side total (after_slices total slice a) n slice interval
         order_type price time_in_force start finish "ACTIVE" executed [].

(** A TWAP order of [n] slices over [duration_minutes] from the time
    [t] can be planned: its end time is a datetime, and the pause between
    two slices is one [time.sleep] takes (an order of one slice never
    pauses). *)
Definition twap_plannable (t : float) (duration_minutes n : Z) : Prop :=
  (exists finish, Py.datetime_add_minutes t duration_minutes = inr finish)
  /\ (1 < n ->
      Py.sleep_accepts (Py.nearest_quotient (duration_minutes * 60) n) = true).

(** The sum of the numbers a list of finite floats stands for. *)
Definition exact_sum (xs : list float) : Q :=
  fold_left Qplus (map exact xs) (inject_Z 0).


(** *** Further vocabulary: requests, registries, the OCO monitor *)

(** The symbol lookup made from state [s], with the exchange's answer. *)
Definition symbol_lookup (s : State) : Event :=
  EvExchangeInfo (cl_exchange_info (client s) (history s)).

(** The cancellation requests sent to the exchange, in order. *)
Definition cancel_requests (h : list Event) : list (string * Z) :=
  flat_map (fun ev => match ev with
                      | EvCancelOrder symbol id _ => [(symbol, id)]
                      | _ => []
                      end) h.

(** The status queries sent to the exchange, in order. *)
Definition status_queries (h : list Event) : list (string * Z) :=
  flat_map (fun ev => match ev with
                      | EvGetOrder symbol id _ => [(symbol, id)]
                      | _ => []
                      end) h.

(** A request as the checks of the primitive orders let it through: a
    symbol of three characters or more, an upper-case side, and a quantity
    that is not [<= 0]. *)
Definition checked_request (req : OrderRequest) : Prop :=
  (3 <= String.length (req_symbol req))%nat
  /\ (req_side req = "BUY" \/ req_side req = "SELL")
  /\ PrimFloat.leb (req_quantity req) 0 = false.

(** The same for a limit order: a price that is not [<= 0] and one of
    the three times in force. *)
Definition checked_limit_request (req : OrderRequest) : Prop :=
  checked_request req
  /\ req_type req = "LIMIT"
  /\ (exists p, req_price req = Some p /\ PrimFloat.leb p 0 = false)
  /\ req_stopPrice req = None
  /\ (exists tif, req_timeInForce req = Some tif
                  /\ BasicBot.valid_time_in_force tif = true).

(** [s'] has the registries that [s] has, except for the grids. *)
Definition same_but_grids (s s' : State) : Prop :=
  client s' = client s
  /\ clock s' = clock s
  /\ active_oco_orders s' = active_oco_orders s
  /\ monitoring_threads s' = monitoring_threads s
  /\ active_twap_orders s' = active_twap_orders s.

(** The identifier [create_grid_strategy] gives a grid made in state [s]. *)
Definition grid_id_of (symbol : string) (s : State) : string :=
  ("GRID_" ++ Py.upper symbol ++ "_"
     ++ Py.str_of_int (Py.int_of_float (clock s)))%string.

(** The limit order [execute_grid_orders] asks for at a level. *)
Definition level_request (symbol : string) (lv : GridLevel) : OrderRequest :=
  mkRequest (Py.upper symbol) (Py.upper (level_side lv)) "LIMIT"
            (level_quantity lv) (Some (level_price lv)) None (Some "GTC").

(** The status queries the exchange answered (without an error). *)
Definition answered_queries (h : list Event) : list Order :=
  flat_map (fun ev => match ev with
                      | EvGetOrder _ _ (inr o) => [o]
                      | _ => []
                      end) h.

(** The exchange answers every status query. *)
Definition answers_all_queries (c : Client) : Prop :=
  forall h symbol order_id, exists o, cl_get_order c h symbol order_id = inr o.

(** The checks of [place_limit_order], in its order. *)
Definition limit_checks (symbol side : string) (quantity price : float)
  (tif : string) : bool :=
  negb (String.length symbol <? 3)%nat
  && (String.eqb (Py.upper side) "BUY" || String.eqb (Py.upper side) "SELL")
  && negb (PrimFloat.leb quantity 0)
  && negb (PrimFloat.leb price 0)
  && BasicBot.valid_time_in_force tif.

(** A level whose order passes the checks of [place_limit_order]. *)
Definition level_passes_checks (symbol : string) (lv : GridLevel) : bool :=
  limit_checks symbol (level_side lv) (level_quantity lv) (level_price lv)
               "GTC".

(** The status tests of [get_grid_status]. *)
Definition is_filled (st : string) : bool := String.eqb st "FILLED".

Definition is_canceled (st : string) : bool :=
  String.eqb st "CANCELED" || String.eqb st "EXPIRED".

Definition is_open (st : string) : bool :=
  negb (is_filled st) && negb (is_canceled st).

(** How many of the orders have a status that [p] holds of. *)
Definition count_status (p : string -> bool) (os : list Order) : Z :=
  Z.of_nat (List.length (filter (fun o => p (ord_status o)) os)).

(** The cancellation request for an order of a grid. *)
Definition cancel_request_of (symbol : string) (oi : OrderInfo)
  : string * Z :=
  (symbol, orderId (oi_order oi)).

(** *** The OCO pair *)

(** What the [cancellations] list keeps of an answer of the exchange. *)
Definition cancel_outcome (r : Py.result Order) : string + Order :=
  match r with
  | inl e => inl (str_of_exn e)
  | inr o => inr o
  end.

(** The two status queries of one round of the monitor. *)
Definition poll_queries (d : OCOData) : list (string * Z) :=
  [(oco_symbol d, orderId (take_profit_order d));
   (oco_symbol d, orderId (stop_loss_order d))].

(** The clock after [n] sleeps of [d] seconds. *)
Definition after_sleeps (n : nat) (d t : float) : float :=
  Nat.iter n (fun t => PrimFloat.add t d) t.

(** An exchange on which every order is NEW until [n] status queries
    were made, and order [filled] is FILLED from then on. *)
Definition filling_exchange (n : nat) (filled : Z) : Client :=
  mkClient
    (fun _ => inr ["BTCUSDT"; "ETHUSDT"])
    (fun h _ => inr (mkOrder (1000 + Z.of_nat (Sim.count_creates h)) "NEW" None))
    (fun _ _ order_id => inr (mkOrder order_id "CANCELED" None))
    (fun h _ order_id =>
       inr (mkOrder order_id
              (if (n <=? List.length (status_queries h))%nat
                  && (order_id =? filled)
               then "FILLED" else "NEW")
              None)).

(** An exchange that refuses every cancellation and answers no status
    query. *)
Definition deaf_exchange : Client :=
  mkClient
    (fun _ => inr ["BTCUSDT"; "ETHUSDT"])
    (fun h _ => inr (mkOrder (1000 + Z.of_nat (Sim.count_creates h)) "NEW" None))
    (fun _ _ _ => inl (Py.BinanceAPIException "Unknown order sent."))
    (fun _ _ _ => inl (Py.BinanceAPIException "Order does not exist.")).

(** A program in which one OCO pair (orders 1000 and 1001) is registered
    and monitored. *)
Definition oco_id : string := "BTCUSDT_1700000000".

Definition with_oco_registered (c : Client) : State :=
  mkState c [] 1700000000.5 []
          [(oco_id,
            mkOCO "BTCUSDT" "SELL" (mkOrder 1000 "NEW" None)
                  (mkOrder 1001 "NEW" None) "ACTIVE")]
          [oco_id] [].
(* ===================================================================== *)
(** ** Basic facts about the state and the validators                     *)
(* ===================================================================== *)

Lemma with_history_same s : with_history (history s) s = s.
Proof. destruct s; reflexivity. Qed.

Lemma upper_length s : String.length (Py.upper s) = String.length s.
Proof. induction s as [|c s IH]; simpl; [reflexivity | now rewrite IH]. Qed.


(** The lookup behind [validate_symbol] never rejects: a symbol of three
    characters or more comes back in upper case, and the only trace is one
    read of the exchange's symbols. *)
Lemma validate_symbol_ok symbol s :
  (3 <= String.length symbol)%nat ->
  BasicBot.validate_symbol symbol s =
    (inr (Py.upper symbol),
     with_history
       (history s ++ [EvExchangeInfo (cl_exchange_info (client s) (history s))]) s).
Proof.
  intros Hlen. unfold BasicBot.validate_symbol.
  destruct (Nat.ltb_spec (String.length symbol) 3) as [Hlt | _]; [lia |].
  unfold bind, try_except, futures_exchange_info, ret, raise.
  destruct (cl_exchange_info (client s) (history s)) as [e | syms]; [reflexivity |].
  destruct (negb (existsb (String.eqb (Py.upper symbol)) syms)); reflexivity.
Qed.

Lemma validate_symbol_short symbol s :
  (String.length symbol < 3)%nat ->
  BasicBot.validate_symbol symbol s =
    (inl (Py.ValueError "Invalid symbol format"), s).
Proof.
  intros Hlen. unfold BasicBot.validate_symbol.
  destruct (Nat.ltb_spec (String.length symbol) 3) as [_ | Hge]; [reflexivity | lia].
Qed.

(** Either way the validator adds at most symbol lookups to the history
    and touches nothing else. *)
Lemma validate_symbol_cases symbol s :
  (BasicBot.validate_symbol symbol s =
     (inl (Py.ValueError "Invalid symbol format"), s))
  \/ (exists ev, is_symbol_lookup ev = true /\
        BasicBot.validate_symbol symbol s =
          (inr (Py.upper symbol), with_history (history s ++ [ev]) s)).
Proof.
  destruct (Nat.ltb_spec (String.length symbol) 3) as [Hlt | Hge].
  - left. now apply validate_symbol_short.
  - right. eexists. split; [| now apply validate_symbol_ok]. reflexivity.
Qed.

Lemma validate_side_ok side :
  Py.upper side = "BUY" \/ Py.upper side = "SELL" ->
  BasicBot.validate_side side = inr (Py.upper side).
Proof.
  unfold BasicBot.validate_side. intros [-> | ->]; reflexivity.
Qed.


Lemma only_history_refl s : only_history s s.
Proof. apply with_history_same. Qed.

Lemma only_history_with h s : only_history s (with_history h s).
Proof. reflexivity. Qed.

(** The primitive orders of [basic_bot.py] change nothing in the program
    but the history of calls. *)
Lemma place_limit_order_only_history symbol side quantity price tif s :
  only_history s
    (snd (BasicBot.place_limit_order symbol side quantity price tif s)).
Proof.
  unfold BasicBot.place_limit_order, bind at 1.
  destruct (validate_symbol_cases symbol s) as [-> | (ev & _ & ->)];
    [apply only_history_refl |].
  unfold bind, lift, raise, try_except, futures_create_order.
  destruct (BasicBot.validate_side side); [reflexivity |].
  destruct (BasicBot.validate_quantity quantity); [reflexivity |].
  destruct (BasicBot.validate_price price); [reflexivity |].
  destruct (negb _); [reflexivity |].
  cbn [history client with_history].
  destruct (cl_create_order _ _ _); reflexivity.
Qed.

Lemma place_market_order_only_history symbol side quantity s :
  only_history s (snd (BasicBot.place_market_order symbol side quantity s)).
Proof.
  unfold BasicBot.place_market_order, bind at 1.
  destruct (validate_symbol_cases symbol s) as [-> | (ev & _ & ->)];
    [apply only_history_refl |].
  unfold bind, lift, raise, try_except, futures_create_order.
  destruct (BasicBot.validate_side side); [reflexivity |].
  destruct (BasicBot.validate_quantity quantity); [reflexivity |].
  cbn [history client with_history].
  destruct (cl_create_order _ _ _); reflexivity.
Qed.

(** *** Two facts about binary64 subtraction *)

Lemma Prim2SF_finite_cases x :
  PrimFloat.is_finite x = true ->
  (exists s, Prim2SF x = S754_zero s)
  \/ (exists s m e, Prim2SF x = S754_finite s m e).
Proof.
  unfold PrimFloat.is_finite, Prim2SF. intros H.
  apply negb_true_iff, orb_false_iff in H as [-> ->].
  destruct (is_zero x); [left; eauto |].
  destruct (FloatOps.Z.frexp x) as [r ex].
  destruct (shr_fexp _ _ _ _ _) as [sh e'].
  destruct (shr_m sh); [left | right | left]; eauto.
Qed.

(** A finite float minus itself is [+0.0]. *)
Lemma sub_self_finite x :
  PrimFloat.is_finite x = true -> PrimFloat.sub x x = 0%float.
Proof.
  intros H. rewrite <- (SF2Prim_Prim2SF (PrimFloat.sub x x)), sub_spec.
  destruct (Prim2SF_finite_cases x H) as [[s ->] | (s & m & e & ->)].
  - destruct s; reflexivity.
  - unfold SF64sub, SFsub. rewrite Z.min_id.
    cbv zeta. rewrite Z.sub_diag. reflexivity.
Qed.
(* ===================================================================== *)
(** ** OCO: the bracket check                                             *)
(* ===================================================================== *)

(** C5.  [place_oco_order] raises [ValueError] on every BUY input whose
    take-profit price is at most the stop-loss price and on every SELL
    input whose take-profit price is at least the stop-loss price.  At that
    point no order has been requested: the only calls made to the exchange
    are the symbol lookups of [validate_symbol], and neither an OCO record
    nor a monitor thread has been added. *)
Theorem place_oco_order_rejects_inverted_bracket :
  forall (symbol side : string) (quantity take_profit_price stop_loss_price : float)
         (time_in_force : string) (s : State),
    (Py.upper side = "BUY"
       /\ PrimFloat.leb take_profit_price stop_loss_price = true)
    \/ (Py.upper side = "SELL"
          /\ PrimFloat.leb stop_loss_price take_profit_price = true) ->
    let r := OCOOrders.place_oco_order symbol side quantity take_profit_price
               stop_loss_price time_in_force s in
    Py.is_ValueError (fst r) = true
    /\ (exists new, history (snd r) = history s ++ new
                    /\ forallb is_symbol_lookup new = true)
    /\ order_requests (history (snd r)) = order_requests (history s)
    /\ active_oco_orders (snd r) = active_oco_orders s
    /\ monitoring_threads (snd r) = monitoring_threads s.
Proof.
  intros symbol side quantity tp sl tif s Hbad r.
  assert (Hside : BasicBot.validate_side side = inr (Py.upper side)).
  { apply validate_side_ok. destruct Hbad as [[H _] | [H _]]; auto. }
  assert (Hbracket :
    (if String.eqb (Py.upper side) "BUY"
     then PrimFloat.leb tp sl else PrimFloat.leb sl tp) = true).
  { destruct Hbad as [[-> H] | [-> H]]; exact H. }
  assert (Hr : exists msg new,
             forallb is_symbol_lookup new = true
             /\ r = (inl (Py.ValueError msg), with_history (history s ++ new) s)).
  { subst r. unfold OCOOrders.place_oco_order, bind at 1.
    destruct (validate_symbol_cases symbol s) as [-> | [ev [Hev ->]]].
    - exists "Invalid symbol format", []. split; [reflexivity |].
      now rewrite app_nil_r, with_history_same.
    - assert (Hnew : forallb is_symbol_lookup [ev] = true) by (simpl; now rewrite Hev).
      unfold bind, lift. rewrite Hside.
      unfold BasicBot.validate_quantity, BasicBot.validate_price, Py.raise, Py.ret, raise.
      destruct (PrimFloat.leb quantity 0);
        [do 2 eexists; split; [exact Hnew | reflexivity] |].
      destruct (PrimFloat.leb tp 0);
        [do 2 eexists; split; [exact Hnew | reflexivity] |].
      destruct (PrimFloat.leb sl 0);
        [do 2 eexists; split; [exact Hnew | reflexivity] |].
      destruct (negb (BasicBot.valid_time_in_force tif));
        [do 2 eexists; split; [exact Hnew | reflexivity] |].
      rewrite Hbracket. do 2 eexists; split; [exact Hnew | reflexivity]. }
  destruct Hr as (msg & new & Hnew & ->). simpl.
  split; [reflexivity |]. split; [now exists new |].
  split; [| now split].
  unfold order_requests. rewrite flat_map_app.
  rewrite <- app_nil_r. f_equal.
  clear - Hnew. induction new as [| ev new IH]; [reflexivity |].
  simpl in Hnew. apply andb_true_iff in Hnew as [Hev Hnew].
  destruct ev; try discriminate Hev. simpl. now apply IH.
Qed.

(* ===================================================================== *)
(** ** OCO: what a placement leaves behind                                *)
(* ===================================================================== *)



(** The rejection at work on the SELL pair with take-profit 120 above
    stop-loss 110. *)
Lemma place_oco_order_rejects_inverted_bracket_witness :
  let s := Sim.start (fun _ => true) (fun _ => Some "NEW") 1700000000.5 in
  let r := OCOOrders.place_oco_order "BTCUSDT" "SELL" 1 120 110 "GTC" s in
  (Py.upper "SELL" = "SELL" /\ PrimFloat.leb 110 120 = true)
  /\ Py.is_ValueError (fst r) = true
  /\ order_requests (history (snd r)) = order_requests (history s).
Proof.
  split; [split; reflexivity |].
  pose proof (place_oco_order_rejects_inverted_bracket
                "BTCUSDT" "SELL" 1 120 110 "GTC"
                (Sim.start (fun _ => true) (fun _ => Some "NEW") 1700000000.5)
                (or_intror (conj eq_refl eq_refl))) as H.
  cbv zeta in H. destruct H as (H1 & _ & H3 & _). split; [exact H1 | exact H3].
Defined.



(* ===================================================================== *)
(** ** Grid: creation                                                     *)
(* ===================================================================== *)

Lemma dict_get_set_same {V} k (v : V) d : dict_get k (dict_set k v d) = Some v.
Proof.
  induction d as [| [k' v'] d IH]; simpl.
  - now rewrite String.eqb_refl.
  - destruct (String.eqb k k') eqn:E; simpl; rewrite ?E, ?String.eqb_refl; auto.
Qed.

Lemma range_length n : List.length (range n) = Z.to_nat n.
Proof. unfold range. now rewrite length_map, length_seq. Qed.






Section GridCreation.

Variable math_log : float -> Py.result float.
Variable math_exp : float -> Py.result float.

(** What a call with well-formed arguments computes: the step, then the
    levels, then the registration; the only exchange call is the symbol
    lookup. *)
Lemma create_grid_strategy_valid
  (symbol side : string) (quantity_per_order lower_price upper_price : float)
  (num_orders : Z) (grid_type : string) (s : State) :
  (3 <= String.length symbol)%nat ->
  Py.upper side = "BUY" \/ Py.upper side = "SELL" ->
  PrimFloat.leb quantity_per_order 0 = false ->
  PrimFloat.leb lower_price 0 = false ->
  PrimFloat.leb upper_price 0 = false ->
  PrimFloat.leb upper_price lower_price = false ->
  0 < num_orders ->
  grid_type = "LINEAR" \/ grid_type = "LOGARITHMIC" ->
  let s1 :=
    with_history
      (history s ++ [EvExchangeInfo (cl_exchange_info (client s) (history s))]) s in
  let grid_id :=
    ("GRID_" ++ Py.upper symbol ++ "_"
       ++ Py.str_of_int (Py.int_of_float (clock s)))%string in
  GridOrders.create_grid_strategy math_log math_exp symbol side
    quantity_per_order lower_price upper_price num_orders grid_type None s =
  match GridOrders.default_price_step math_log grid_type lower_price
          upper_price num_orders with
  | inl e => (inl e, s1)
  | inr price_step =>
      match map_result
              (GridOrders.make_level math_exp grid_type (Py.upper side)
                 quantity_per_order lower_price price_step num_orders)
              (range num_orders) with
      | inl e => (inl e, s1)
      | inr grid_levels =>
          (inr (GridOrders.mkCreated grid_id (Py.upper symbol) (Py.upper side)
                  num_orders grid_levels "CONFIGURED"),
           with_grids
             (dict_set grid_id
                (mkGrid (Py.upper symbol) (Py.upper side) quantity_per_order
                        lower_price upper_price num_orders grid_type
                        price_step grid_levels "CONFIGURED" [] [] (clock s))
                (active_grids s)) s1)
      end
  end.
Proof.
  intros Hsym Hside Hq Hlo Hup Hlt Hn Hty s1 grid_id.
  unfold GridOrders.create_grid_strategy, bind at 1.
  rewrite (validate_symbol_ok symbol s Hsym). fold s1.
  unfold bind, lift. rewrite (validate_side_ok side Hside).
  unfold BasicBot.validate_quantity, BasicBot.validate_price, Py.raise, Py.ret.
  rewrite Hq, Hlo, Hup, Hlt.
  destruct (Z.leb_spec num_orders 0) as [Hle | _]; [lia |].
  assert (Hgt : negb (String.eqb grid_type "LINEAR"
                      || String.eqb grid_type "LOGARITHMIC") = false).
  { destruct Hty as [-> | ->]; reflexivity. }
  rewrite Hgt.
  destruct (GridOrders.default_price_step _ _ _ _ _) as [e | price_step];
    [reflexivity |].
  destruct (map_result _ _) as [e | grid_levels]; reflexivity.
Qed.

End GridCreation.


(** C6.  The division that computes the default step is not guarded:
    with one order and no step given, a call whose arguments pass every
    check raises [ZeroDivisionError], for LINEAR and for LOGARITHMIC grids
    alike, and registers nothing. *)
Theorem create_grid_strategy_single_order_raises :
  forall (ln ex : float -> float) (symbol side : string)
         (quantity_per_order lower_price upper_price : float)
         (grid_type : string) (s : State),
    (3 <= String.length symbol)%nat ->
    Py.upper side = "BUY" \/ Py.upper side = "SELL" ->
    PrimFloat.leb quantity_per_order 0 = false ->
    PrimFloat.leb lower_price 0 = false ->
    PrimFloat.leb upper_price 0 = false ->
    PrimFloat.leb upper_price lower_price = false ->
    grid_type = "LINEAR" \/ grid_type = "LOGARITHMIC" ->
    let r := GridOrders.create_grid_strategy
               (fun x => inr (ln x)) (fun x => inr (ex x)) symbol side
               quantity_per_order lower_price upper_price 1 grid_type None s in
    fst r = inl (Py.ZeroDivisionError "float division by zero")
    /\ active_grids (snd r) = active_grids s.
Proof.
  intros ln ex symbol side q lo up gt s Hsym Hside Hq Hlo Hup Hlt Hty r.
  subst r.
  rewrite (create_grid_strategy_valid _ _ symbol side q lo up 1 gt s
             Hsym Hside Hq Hlo Hup Hlt eq_refl Hty).
  destruct Hty as [-> | ->]; split; reflexivity.
Qed.

(** The one-order grid between 95 and 105. *)
Lemma create_grid_strategy_single_order_raises_witness :
  let s := Sim.start (fun _ => true) (fun _ => Some "NEW") 1700000000.5 in
  let r := GridOrders.create_grid_strategy Sim.no_log Sim.no_log
             "BTCUSDT" "BUY" 0.01 95 105 1 "LINEAR" None s in
  fst r = inl (Py.ZeroDivisionError "float division by zero")
  /\ active_grids (snd r) = active_grids s.
Proof.
  cbv zeta.
  pose proof (create_grid_strategy_single_order_raises
                (fun x => x) (fun x => x) "BTCUSDT" "BUY" 0.01 95 105 "LINEAR"
                (Sim.start (fun _ => true) (fun _ => Some "NEW") 1700000000.5)
                ltac:(simpl; lia) (or_introl eq_refl) eq_refl eq_refl eq_refl
                eq_refl (or_introl eq_refl)) as H.
  cbv zeta in H. destruct H as [H1 H2].
  split; [vm_compute; reflexivity | exact H2].
Defined.






(* ===================================================================== *)
(** ** Grid: execution                                                    *)
(* ===================================================================== *)

Lemma extend_placed_nil g : extend_placed [] g = g.
Proof. destruct g. unfold extend_placed. cbn. now rewrite app_nil_r. Qed.

(** One turn of the placement loop never raises: the level ends in
    exactly one of the two local lists, and a placed level is appended to
    the grid's own list as well. *)
Lemma place_level_spec grid_id symbol placed failed lv s g :
  dict_get grid_id (active_grids s) = Some g ->
  exists s',
    (exists oi,
       oi_grid_level oi = level lv
       /\ GridOrders.place_level grid_id symbol (placed, failed) lv s
          = (inr (placed ++ [oi], failed), s')
       /\ dict_get grid_id (active_grids s')
          = Some (GridOrders.append_placed oi g))
    \/ (exists f,
          GridOrders.place_level grid_id symbol (placed, failed) lv s
          = (inr (placed, failed ++ [f]), s')
          /\ dict_get grid_id (active_grids s') = Some g).
Proof.
  intros Hg. unfold GridOrders.place_level, try_except, bind.
  pose proof (place_limit_order_only_history symbol (level_side lv)
                (level_quantity lv) (level_price lv) "GTC" s) as Hframe.
  destruct (BasicBot.place_limit_order _ _ _ _ _ s) as [[e | order] s1].
  - cbn [snd] in Hframe. exists s1. right. eexists. split.
    + unfold now, gets, ret. reflexivity.
    + rewrite <- Hframe. exact Hg.
  - cbn [snd] in Hframe.
    unfold now, gets, ret, GridOrders.update_grid, modify, sleep.
    rewrite <- Hframe. cbn [active_grids with_history]. rewrite Hg.
    eexists. left. eexists.
    split; [| split; [reflexivity |]].
    + reflexivity.
    + cbn [active_grids with_grids with_clock]. apply dict_get_set_same.
Qed.

(** The whole loop: every level is attempted once, and what was placed
    is appended to the grid's list after what was there before. *)
Lemma place_levels_spec grid_id symbol levels :
  forall placed failed s g,
    dict_get grid_id (active_grids s) = Some g ->
    exists placed' failed' s',
      for_fold (GridOrders.place_level grid_id symbol) (placed, failed) levels s
      = (inr (placed ++ placed', failed ++ failed'), s')
      /\ dict_get grid_id (active_grids s') = Some (extend_placed placed' g)
      /\ (List.length placed' + List.length failed' = List.length levels)%nat
      /\ incl (map oi_grid_level placed') (map level levels).
Proof.
  induction levels as [| lv levels IH]; intros placed failed s g Hg.
  - exists [], [], s. cbn. rewrite !app_nil_r, extend_placed_nil.
    split; [reflexivity |]. split; [exact Hg |]. split; [reflexivity |].
    apply incl_nil_l.
  - cbn [for_fold]. unfold bind at 1.
    destruct (place_level_spec grid_id symbol placed failed lv s g Hg)
      as (s1 & [(oi & Hlv & -> & Hg1) | (f & -> & Hg1)]).
    + destruct (IH (placed ++ [oi]) failed s1 _ Hg1)
        as (placed' & failed' & s' & -> & Hg' & Hlen & Hincl).
      exists (oi :: placed'), failed', s'.
      rewrite <- app_assoc. split; [reflexivity |].
      split; [| split].
      * rewrite Hg'. f_equal. unfold extend_placed, GridOrders.append_placed.
        cbn. now rewrite <- app_assoc.
      * cbn. lia.
      * cbn. rewrite Hlv. intros x [<- | Hx]; [now left | right; now apply Hincl].
    + destruct (IH placed (failed ++ [f]) s1 _ Hg1)
        as (placed' & failed' & s' & -> & Hg' & Hlen & Hincl).
      exists placed', (f :: failed'), s'.
      rewrite <- app_assoc. split; [reflexivity |].
      split; [exact Hg' |]. split; [cbn; lia |].
      cbn. intros x Hx. right. now apply Hincl.
Qed.

Lemma update_grid_spec grid_id f s g :
  dict_get grid_id (active_grids s) = Some g ->
  GridOrders.update_grid grid_id f s
  = (inr tt, with_grids (dict_set grid_id (f g) (active_grids s)) s).
Proof. intros Hg. unfold GridOrders.update_grid, modify. now rewrite Hg. Qed.

(* ===================================================================== *)
(** ** Grid: status refresh                                               *)
(* ===================================================================== *)

Lemma float_same_refl x : float_same x x = true.
Proof.
  unfold float_same, PrimFloat.is_nan.
  destruct (PrimFloat.eqb x x); reflexivity.
Qed.

Lemma order_eqb_refl o : order_eqb o o = true.
Proof.
  unfold order_eqb. rewrite Z.eqb_refl, String.eqb_refl.
  destruct (avgPrice o); simpl; [apply float_same_refl | reflexivity].
Qed.

Lemma order_info_eqb_refl oi : order_info_eqb oi oi = true.
Proof.
  unfold order_info_eqb.
  now rewrite Z.eqb_refl, !float_same_refl, String.eqb_refl, order_eqb_refl.
Qed.

Lemma py_in_app x l1 l2 : py_in x (l1 ++ l2) = py_in x l1 || py_in x l2.
Proof. apply existsb_app. Qed.

Lemma py_in_last x l : py_in x (l ++ [x]) = true.
Proof.
  rewrite py_in_app. simpl. rewrite order_info_eqb_refl.
  now rewrite orb_true_r.
Qed.

Section RefreshFilled.

Variable filled_now : OrderInfo -> bool.

Lemma refresh_filled_appends placed :
  forall filled,
    exists added,
      refresh_filled filled_now placed filled = filled ++ added
      /\ all_fresh filled added = true.
Proof.
  induction placed as [| oi placed IH]; intros filled; simpl.
  - exists []. now rewrite app_nil_r.
  - destruct (filled_now oi && negb (py_in oi filled)) eqn:E.
    + destruct (IH (filled ++ [oi])) as (added & -> & Hfresh).
      exists (oi :: added). rewrite <- app_assoc. split; [reflexivity |].
      simpl. apply andb_true_iff in E as [_ ->]. exact Hfresh.
    + apply IH.
Qed.

Lemma refresh_filled_keeps placed x :
  forall filled,
    py_in x filled = true ->
    py_in x (refresh_filled filled_now placed filled) = true.
Proof.
  intros filled Hx.
  destruct (refresh_filled_appends placed filled) as (added & -> & _).
  now rewrite py_in_app, Hx.
Qed.

(** After a refresh, every placed order reported FILLED is in the list. *)
Lemma refresh_filled_covers placed :
  forall filled oi,
    In oi placed -> filled_now oi = true ->
    py_in oi (refresh_filled filled_now placed filled) = true.
Proof.
  induction placed as [| x placed IH]; intros filled oi Hin Hnow;
    [destruct Hin |].
  simpl. destruct Hin as [-> | Hin]; [| now apply IH].
  apply refresh_filled_keeps. rewrite Hnow. simpl.
  destruct (py_in oi filled) eqn:E; simpl; [exact E | apply py_in_last].
Qed.

(** A refresh of a list that already holds them changes nothing. *)
Lemma refresh_filled_fixed placed :
  forall filled,
    (forall oi, In oi placed -> filled_now oi = true -> py_in oi filled = true) ->
    refresh_filled filled_now placed filled = filled.
Proof.
  induction placed as [| x placed IH]; intros filled Hall; [reflexivity |].
  simpl. destruct (filled_now x) eqn:Hx; simpl.
  - rewrite (Hall x (or_introl eq_refl) Hx). simpl.
    apply IH. intros oi Hin. apply Hall. now right.
  - apply IH. intros oi Hin. apply Hall. now right.
Qed.

Lemma refresh_filled_idempotent placed filled :
  refresh_filled filled_now placed (refresh_filled filled_now placed filled)
  = refresh_filled filled_now placed filled.
Proof.
  apply refresh_filled_fixed. intros oi Hin Hnow.
  now apply refresh_filled_covers.
Qed.

End RefreshFilled.

Lemma with_filled_same g : with_filled (filled_orders g) g = g.
Proof. destruct g; reflexivity. Qed.

(** One turn of the refresh loop never raises, leaves the exchange client
    as it is, and does to the grid's filled list what [refresh_filled]
    says. *)
Lemma refresh_order_spec grid_id acc oi s g :
  dict_get grid_id (active_grids s) = Some g ->
  exists acc' s',
    GridOrders.refresh_order grid_id (grid_symbol g) acc oi s = (inr acc', s')
    /\ client s' = client s
    /\ dict_get grid_id (active_grids s')
       = Some (with_filled
                 (if reports_filled
                       (cl_get_order (client s) (history s) (grid_symbol g)
                          (orderId (oi_order oi)))
                     && negb (py_in oi (filled_orders g))
                  then filled_orders g ++ [oi] else filled_orders g) g).
Proof.
  intros Hg. destruct acc as [[active filled] canceled].
  unfold GridOrders.refresh_order, try_except, bind,
    BasicBot.get_order_status, try_except, futures_get_order, raise.
  destruct (cl_get_order (client s) (history s) (grid_symbol g)
              (orderId (oi_order oi))) as [e | o]; cbn [reports_filled].
  - do 2 eexists. split; [reflexivity |]. split; [reflexivity |].
    cbn [andb active_grids with_history]. now rewrite with_filled_same.
  - destruct (String.eqb (ord_status o) "FILLED").
    + unfold gets. cbn [active_grids with_history]. rewrite Hg.
      destruct (py_in oi (filled_orders g)); cbn [negb andb].
      * do 2 eexists. split; [reflexivity |]. split; [reflexivity |].
        cbn [active_grids with_history]. now rewrite with_filled_same.
      * unfold GridOrders.update_grid, modify, ret.
        cbn [active_grids with_history]. rewrite Hg.
        do 2 eexists. split; [reflexivity |]. split; [reflexivity |].
        cbn [active_grids with_grids]. apply dict_get_set_same.
    + cbn [andb]. destruct (_ || _); do 2 eexists;
        (split; [reflexivity |]); (split; [reflexivity |]);
        cbn [active_grids with_history]; now rewrite with_filled_same.
Qed.

Lemma refresh_orders_spec grid_id symbol placed :
  forall acc s g,
    dict_get grid_id (active_grids s) = Some g ->
    grid_symbol g = symbol ->
    stable_order_statuses (client s) ->
    exists acc' s',
      for_fold (GridOrders.refresh_order grid_id symbol) acc placed s
      = (inr acc', s')
      /\ client s' = client s
      /\ dict_get grid_id (active_grids s')
         = Some (with_filled
                   (refresh_filled
                      (fun oi => reports_filled
                                   (cl_get_order (client s) [] symbol
                                      (orderId (oi_order oi))))
                      placed (filled_orders g)) g).
Proof.
  induction placed as [| oi placed IH]; intros acc s g Hg Hsym Hstable.
  - exists acc, s. cbn. rewrite with_filled_same. auto.
  - cbn [for_fold refresh_filled]. unfold bind. subst symbol.
    destruct (refresh_order_spec grid_id acc oi s g Hg)
      as (acc1 & s1 & -> & Hc1 & Hg1).
    rewrite (Hstable (history s) [] _ _) in Hg1.
    destruct (IH acc1 s1 _ Hg1 eq_refl) as (acc' & s' & -> & Hc' & Hg').
    { now rewrite Hc1. }
    exists acc', s'. split; [reflexivity |]. split; [congruence |].
    rewrite Hg', Hc1. reflexivity.
Qed.

Lemma get_grid_status_spec grid_id s g :
  dict_get grid_id (active_grids s) = Some g ->
  stable_order_statuses (client s) ->
  exists report s',
    GridOrders.get_grid_status grid_id s = (inr report, s')
    /\ client s' = client s
    /\ dict_get grid_id (active_grids s')
       = Some (with_filled
                 (refresh_filled
                    (fun oi => reports_filled
                                 (cl_get_order (client s) [] (grid_symbol g)
                                    (orderId (oi_order oi))))
                    (placed_orders g) (filled_orders g)) g).
Proof.
  intros Hg Hstable.
  unfold GridOrders.get_grid_status, bind, gets. rewrite Hg.
  destruct (refresh_orders_spec grid_id (grid_symbol g) (placed_orders g)
              (0, 0, 0) s g Hg eq_refl Hstable)
    as ([[active filled] canceled] & s' & -> & Hc & Hg').
  rewrite Hg'. do 2 eexists. split; [reflexivity |]. split; [exact Hc | exact Hg'].
Qed.

(** C8.  When the exchange reports the same statuses, a second
    [get_grid_status] leaves the grid's filled list exactly as the first
    one left it; and a refresh only ever appends, to the list it found,
    orders that were not in it. *)
Theorem get_grid_status_idempotent :
  forall (grid_id : string) (s : State) (g : GridData),
    dict_get grid_id (active_grids s) = Some g ->
    stable_order_statuses (client s) ->
    let s1 := snd (GridOrders.get_grid_status grid_id s) in
    let s2 := snd (GridOrders.get_grid_status grid_id s1) in
    exists g1 g2 added,
      dict_get grid_id (active_grids s1) = Some g1
      /\ dict_get grid_id (active_grids s2) = Some g2
      /\ filled_orders g2 = filled_orders g1
      /\ filled_orders g1 = filled_orders g ++ added
      /\ all_fresh (filled_orders g) added = true.
Proof.
  intros grid_id s g Hg Hstable s1 s2.
  destruct (get_grid_status_spec grid_id s g Hg Hstable)
    as (report1 & s1' & Hrun1 & Hc1 & Hg1).
  assert (Hs1 : s1 = s1') by (subst s1; now rewrite Hrun1). 
  assert (Hstable1 : stable_order_statuses (client s1')) by now rewrite Hc1.
  destruct (get_grid_status_spec grid_id s1' _ Hg1 Hstable1)
    as (report2 & s2' & Hrun2 & Hc2 & Hg2).
  assert (Hs2 : s2 = s2') by (subst s2; now rewrite Hs1, Hrun2).
  rewrite Hs1, Hs2. clear s1 s2 Hs1 Hs2.
  cbn [grid_symbol placed_orders filled_orders with_filled] in Hg2.
  rewrite Hc1, refresh_filled_idempotent in Hg2.
  destruct (refresh_filled_appends
              (fun oi => reports_filled
                           (cl_get_order (client s) [] (grid_symbol g)
                              (orderId (oi_order oi))))
              (placed_orders g) (filled_orders g)) as (added & Hadd & Hfresh).
  do 3 eexists. split; [exact Hg1 |]. split; [exact Hg2 |].
  cbn [filled_orders with_filled]. split; [reflexivity |].
  split; [exact Hadd | exact Hfresh].
Qed.

(** Five placed orders of which the exchange reports the first and the
    third as FILLED: both refreshes leave levels 1 and 3 in the list. *)
Lemma get_grid_status_idempotent_witness :
  let s := Sim.start (fun _ => true)
             (fun id => if (id =? 1000) || (id =? 1002)
                        then Some "FILLED" else Some "NEW")
             1700000000.5 in
  let grid_id := "GRID_BTCUSDT_1700000000" in
  let s1 := snd (GridOrders.create_grid_strategy Sim.no_log Sim.no_log
                   "BTCUSDT" "BUY" 0.01 95 105 5 "LINEAR" None s) in
  let s2 := snd (GridOrders.execute_grid_orders grid_id s1) in
  let s3 := snd (GridOrders.get_grid_status grid_id s2) in
  let s4 := snd (GridOrders.get_grid_status grid_id s3) in
  stable_order_statuses (client s2)
  /\ option_map (fun g => map oi_grid_level (filled_orders g))
                (dict_get grid_id (active_grids s3)) = Some [1; 3]
  /\ exists g3 g4,
       dict_get grid_id (active_grids s3) = Some g3
       /\ dict_get grid_id (active_grids s4) = Some g4
       /\ filled_orders g4 = filled_orders g3.
Proof.
  cbv zeta.
  set (s2 := snd (GridOrders.execute_grid_orders _ _)).
  assert (Hstable : stable_order_statuses (client s2))
    by (intros h h' symbol order_id; reflexivity).
  split; [exact Hstable |]. split; [vm_compute; reflexivity |].
  destruct (dict_get "GRID_BTCUSDT_1700000000" (active_grids s2)) as [g |] eqn:Hg;
    [| vm_compute in Hg; discriminate Hg].
  destruct (get_grid_status_idempotent _ s2 g Hg Hstable)
    as (g3 & g4 & added & H3 & H4 & Heq & _).
  exists g3, g4. split; [exact H3 |]. split; [exact H4 | exact Heq].
Defined.

(* ===================================================================== *)
(** ** TWAP: one slice                                                    *)
(* ===================================================================== *)

Lemma dict_set_set {V} k (v v' : V) d :
  dict_set k v (dict_set k v' d) = dict_set k v d.
Proof.
  induction d as [| [k0 v0] d IH]; simpl.
  - now rewrite String.eqb_refl.
  - destruct (String.eqb k k0) eqn:E; simpl; rewrite ?String.eqb_refl, ?E;
      [reflexivity | now rewrite IH].
Qed.

Lemma place_slice_only_history d q s :
  only_history s (snd (TWAPStrategy.place_slice d q s)).
Proof.
  unfold TWAPStrategy.place_slice.
  destruct (String.eqb (twap_order_type d) "MARKET").
  - apply place_market_order_only_history.
  - destruct (twap_price d).
    + apply place_limit_order_only_history.
    + apply only_history_refl.
Qed.

(** A slice is skipped, and the loop left, when the order is no longer
    ACTIVE or when the slice's quantity is not positive. *)
Lemma twap_slice_break cancels twap_id k s d :
  dict_get twap_id (active_twap_orders s) = Some d ->
  twap_status d <> "ACTIVE" \/ PrimFloat.leb (TWAPStrategy.slice_size d k) 0 = true ->
  TWAPStrategy.twap_slice cancels twap_id k s = (inr Break, s).
Proof.
  intros Hd Hwhy.
  unfold TWAPStrategy.twap_slice, TWAPStrategy.twap_data_of, bind, gets, ret.
  rewrite Hd.
  destruct (String.eqb_spec (twap_status d) "ACTIVE") as [Hact | Hna];
    [| reflexivity].
  destruct Hwhy as [Hna | Hq]; [contradiction |]. cbn [negb]. now rewrite Hq.
Qed.

(** Otherwise the order of the slice is requested, and whatever comes of
    it the body falls through to the next slice: the outcome is recorded,
    the loop pauses unless this was the last slice, and other threads get
    their chance to cancel. *)
Lemma twap_slice_attempt cancels twap_id k s d res s1 :
  dict_get twap_id (active_twap_orders s) = Some d ->
  twap_status d = "ACTIVE" ->
  PrimFloat.leb (TWAPStrategy.slice_size d k) 0 = false ->
  TWAPStrategy.place_slice d (TWAPStrategy.slice_size d k) s = (res, s1) ->
  let t' := after_pause d k (clock s) in
  TWAPStrategy.twap_slice cancels twap_id k s =
    (inr Next,
     with_twaps
       (dict_set twap_id
          (after_interrupt (cancels k) t'
             (slice_recorded res k (TWAPStrategy.slice_size d k) (clock s) d))
          (active_twap_orders s))
       (with_clock t' s1)).
Proof.
  intros Hd Hact Hq Hplace t'.
  pose proof (place_slice_only_history d (TWAPStrategy.slice_size d k) s) as Hframe.
  rewrite Hplace in Hframe. cbn [snd] in Hframe.
  unfold TWAPStrategy.twap_slice, TWAPStrategy.twap_data_of, bind, gets, ret.
  rewrite Hd, Hact. cbn [String.eqb Ascii.eqb Bool.eqb negb]. rewrite Hq.
  unfold try_except, bind. rewrite Hplace. rewrite <- Hframe.
  unfold TWAPStrategy.other_threads, TWAPStrategy.cancel_twap_order,
    TWAPStrategy.twap_data_of, TWAPStrategy.update_twap, sleep, now,
    try_except, bind, gets, modify, ret.
  subst t'. unfold after_pause, after_interrupt, slice_recorded.
  destruct res as [e | order]; destruct (k <? num_slices d - 1);
    destruct (cancels k);
    repeat (progress (cbn [active_twap_orders with_twaps with_clock
                           with_history clock history];
                      rewrite ?Hd, ?dict_get_set_same, ?dict_set_set));
    reflexivity.
Qed.

(* ===================================================================== *)
(** ** TWAP: the slicing loop                                             *)
(* ===================================================================== *)

Lemma for_loop_cons {X} (body : X -> M flow) x xs s s' :
  body x s = (inr Next, s') ->
  for_loop body (x :: xs) s = for_loop body xs s'.
Proof. intros H. cbn [for_loop]. unfold bind. now rewrite H. Qed.

Lemma for_loop_break {X} (body : X -> M flow) x xs s s' :
  body x s = (inr Break, s') ->
  for_loop body (x :: xs) s = (inr Break, s').
Proof. intros H. cbn [for_loop]. unfold bind. now rewrite H. Qed.

Lemma slices_recorded_refl ks d : slices_recorded ks d d.
Proof.
  exists [], [], (twap_status d), (end_time d).
  cbn. rewrite !app_nil_r. destruct d. cbn. auto.
Qed.

Lemma slices_recorded_step interrupted t' res k q t d :
  slices_recorded [k] d (after_interrupt interrupted t' (slice_recorded res k q t d)).
Proof.
  assert (Hk : In (k + 1 - 1) [k]) by (left; lia).
  destruct res as [e | order].
  - exists [], [mkFailed (k + 1) q (str_of_exn e) t],
      (if interrupted then "CANCELED" else twap_status d),
      (if interrupted then t' else end_time d).
    rewrite app_nil_r.
    split; [destruct interrupted; reflexivity |].
    split; [constructor | constructor; [exact Hk | constructor]].
  - exists [mkExecuted (k + 1) q order t], [],
      (if interrupted then "CANCELED" else twap_status d),
      (if interrupted then t' else end_time d).
    rewrite app_nil_r.
    split; [destruct interrupted; reflexivity |].
    split; [constructor; [exact Hk | constructor] | constructor].
Qed.

Lemma slices_recorded_trans ks1 ks2 d1 d2 d3 :
  slices_recorded ks1 d1 d2 -> slices_recorded ks2 d2 d3 ->
  slices_recorded (ks1 ++ ks2) d1 d3.
Proof.
  intros (ex1 & fl1 & st1 & t1 & -> & Hex1 & Hfl1)
         (ex2 & fl2 & st2 & t2 & -> & Hex2 & Hfl2).
  exists (ex1 ++ ex2), (fl1 ++ fl2), st2, t2. cbn.
  rewrite map_app, fold_left_app, !app_assoc.
  split; [reflexivity |].
  split; apply Forall_app; split;
    (eapply Forall_impl; [| eassumption]); cbn; intros a Ha;
    apply in_or_app; auto.
Qed.

(** The loop never raises, keeps the order registered, and only records
    slices. *)
Lemma twap_loop_spec cancels twap_id ks :
  forall s d,
    dict_get twap_id (active_twap_orders s) = Some d ->
    exists f s' d',
      for_loop (TWAPStrategy.twap_slice cancels twap_id) ks s = (inr f, s')
      /\ dict_get twap_id (active_twap_orders s') = Some d'
      /\ slices_recorded ks d d'.
Proof.
  induction ks as [| k ks IH]; intros s d Hd.
  - exists Next, s, d. split; [reflexivity |]. split; [exact Hd |].
    apply slices_recorded_refl.
  - destruct (String.eqb_spec (twap_status d) "ACTIVE") as [Hact | Hna].
    2:{ exists Break, s, d.
        rewrite (for_loop_break _ _ _ _ _
                   (twap_slice_break cancels twap_id k s d Hd (or_introl Hna))).
        split; [reflexivity |]. split; [exact Hd | apply slices_recorded_refl]. }
    destruct (PrimFloat.leb (TWAPStrategy.slice_size d k) 0) eqn:Hq.
    { exists Break, s, d.
      rewrite (for_loop_break _ _ _ _ _
                 (twap_slice_break cancels twap_id k s d Hd (or_intror Hq))).
      split; [reflexivity |]. split; [exact Hd | apply slices_recorded_refl]. }
    destruct (TWAPStrategy.place_slice d (TWAPStrategy.slice_size d k) s)
      as [res s1] eqn:Hplace.
    rewrite (for_loop_cons _ _ _ _ _
               (twap_slice_attempt cancels twap_id k s d res s1 Hd Hact Hq Hplace)).
    match goal with
    | |- context [for_loop _ ks (with_twaps (dict_set _ ?d2 ?m) ?s2)] =>
        destruct (IH (with_twaps (dict_set twap_id d2 m) s2) d2
                     (dict_get_set_same twap_id d2 m))
          as (f & s' & d' & Hrun & Hd' & Hrec)
    end.
    exists f, s', d'. split; [exact Hrun |]. split; [exact Hd' |].
    change (k :: ks) with ([k] ++ ks).
    eapply slices_recorded_trans; [apply slices_recorded_step | exact Hrec].
Qed.

(** [_execute_twap_slices] always returns, and always leaves the order
    COMPLETED with its end time set to the time of the exit. *)
Lemma execute_twap_slices_spec cancels twap_id s d :
  dict_get twap_id (active_twap_orders s) = Some d ->
  exists s' d',
    TWAPStrategy._execute_twap_slices cancels twap_id s = (inr tt, s')
    /\ dict_get twap_id (active_twap_orders s')
       = Some (TWAPStrategy.set_status_end "COMPLETED" (clock s') d')
    /\ slices_recorded (range (num_slices d)) d d'.
Proof.
  intros Hd.
  destruct (twap_loop_spec cancels twap_id (range (num_slices d)) s d Hd)
    as (f & s1 & d' & Hrun & Hd' & Hrec).
  unfold TWAPStrategy._execute_twap_slices, TWAPStrategy.twap_data_of,
    TWAPStrategy.update_twap, for_each, now, bind, gets, modify, ret.
  rewrite Hd, Hrun, Hd'.
  do 2 eexists. split; [reflexivity |].
  cbn [active_twap_orders with_twaps clock].
  split; [apply dict_get_set_same | exact Hrec].
Qed.

(** C1.  Whatever happens in the loop, [_execute_twap_slices] ends by
    setting the status to COMPLETED and the end time to the time of the
    exit.  That includes the run in which the order is cancelled: when
    another thread calls [cancel_twap_order] during the first of two
    slices, the loop exits with the status CANCELED, after one slice, and
    the status is then overwritten with COMPLETED. *)
Theorem execute_twap_slices_always_completed :
  (forall (cancels : Z -> bool) (twap_id : string) (s : State) (d : TwapData),
      dict_get twap_id (active_twap_orders s) = Some d ->
      exists s' d',
        TWAPStrategy._execute_twap_slices cancels twap_id s = (inr tt, s')
        /\ dict_get twap_id (active_twap_orders s') = Some d'
        /\ twap_status d' = "COMPLETED"
        /\ end_time d' = clock s')
  /\ (let s := Sim.with_twap_registered
                 (Sim.start (fun _ => true) (fun _ => Some "NEW") 1700000000.5) in
      let cancels := fun k => k =? 0 in
      let at_exit :=
        snd (for_each (TWAPStrategy.twap_slice cancels Sim.twap_id) (range 2) s) in
      let afterwards :=
        snd (TWAPStrategy._execute_twap_slices cancels Sim.twap_id s) in
      option_map twap_status (dict_get Sim.twap_id (active_twap_orders at_exit))
      = Some "CANCELED"
      /\ option_map (fun d => (twap_status d, List.length (executed_orders d),
                               remaining_quantity d, end_time d))
                    (dict_get Sim.twap_id (active_twap_orders afterwards))
         = Some ("COMPLETED", 1%nat, 0.5%float, 1700000060.5%float)).
Proof.
  split.
  - intros cancels twap_id s d Hd.
    destruct (execute_twap_slices_spec cancels twap_id s d Hd)
      as (s' & d' & Hrun & Hd' & _).
    exists s', (TWAPStrategy.set_status_end "COMPLETED" (clock s') d').
    split; [exact Hrun |]. split; [exact Hd' |]. split; reflexivity.
  - cbv zeta. split; vm_compute; reflexivity.
Qed.

(** The two-slice order that is cancelled during its first slice. *)
Lemma execute_twap_slices_always_completed_witness :
  let s := Sim.with_twap_registered
             (Sim.start (fun _ => true) (fun _ => Some "NEW") 1700000000.5) in
  exists d,
    dict_get Sim.twap_id (active_twap_orders s) = Some d
    /\ exists s' d',
         TWAPStrategy._execute_twap_slices (fun k => k =? 0) Sim.twap_id s
         = (inr tt, s')
         /\ dict_get Sim.twap_id (active_twap_orders s') = Some d'
         /\ twap_status d' = "COMPLETED".
Proof.
  cbv zeta. eexists. split; [reflexivity |].
  destruct (proj1 execute_twap_slices_always_completed (fun k => k =? 0)
              Sim.twap_id
              (Sim.with_twap_registered
                 (Sim.start (fun _ => true) (fun _ => Some "NEW") 1700000000.5))
              _ eq_refl) as (s' & d' & Hrun & Hd' & Hst & _).
  exists s', d'. split; [exact Hrun |]. split; [exact Hd' | exact Hst].
Defined.

(* ===================================================================== *)
(** ** TWAP: a slice that fails                                           *)
(* ===================================================================== *)

Lemma slices_recorded_later k ks d d' :
  slices_recorded ks d d' ->
  (forall j, In j ks -> k < j) ->
  existsb (fun x => ex_slice_num x =? k + 1) (executed_orders d) = false ->
  (forall f, In f (failed_orders d) -> In f (failed_orders d'))
  /\ existsb (fun x => ex_slice_num x =? k + 1) (executed_orders d') = false.
Proof.
  intros (ex & fl & st & t & -> & Hex & _) Hlater Hnone. cbn. split.
  - intros f Hf. apply in_or_app. now left.
  - rewrite existsb_app, Hnone. cbn.
    clear - Hex Hlater. induction Hex as [| x ex Hx _ IH]; [reflexivity |].
    cbn. rewrite IH, orb_false_r.
    apply Z.eqb_neq. specialize (Hlater _ Hx). lia.
Qed.

(** C7 (amended).  When the placement of a slice raises (here the slice
    of 0-based index [k], which the records number [k + 1]), the slice is
    appended to the failed list with its quantity and the error, nothing
    is appended to the executed list, the remaining quantity is not
    touched, the loop pauses for the same interval as after a success
    (unless this was the last slice) and goes on with the next slices; the
    entry stays in the failed list, and no executed entry for the slice
    appears, until the loop ends.  The next slice is then attempted (it ends
    up in one of the two lists) provided no other thread cancelled the
    order during the failed slice and the next slice's quantity is
    positive.  All this for an order whose slice interval is a pause
    [time.sleep] takes. *)
Theorem twap_failed_slice_continues :
  forall (cancels : Z -> bool) (twap_id : string) (k : Z) (rest : list Z)
         (s : State) (d : TwapData) (e : Py.exn) (s1 : State),
    dict_get twap_id (active_twap_orders s) = Some d ->
    twap_status d = "ACTIVE" ->
    Py.sleep_accepts (slice_interval d) = true ->
    PrimFloat.leb (TWAPStrategy.slice_size d k) 0 = false ->
    TWAPStrategy.place_slice d (TWAPStrategy.slice_size d k) s = (inl e, s1) ->
    existsb (fun x => ex_slice_num x =? k + 1) (executed_orders d) = false ->
    (forall j, In j rest -> k < j) ->
    let failed :=
      mkFailed (k + 1) (TWAPStrategy.slice_size d k) (str_of_exn e) (clock s) in
    let body := TWAPStrategy.twap_slice cancels twap_id in
    exists s' d',
      body k s = (inr Next, s')
      /\ dict_get twap_id (active_twap_orders s') = Some d'
      /\ d' = after_interrupt (cancels k) (after_pause d k (clock s))
                (TWAPStrategy.append_failed failed d)
      /\ failed_orders d' = failed_orders d ++ [failed]
      /\ executed_orders d' = executed_orders d
      /\ remaining_quantity d' = remaining_quantity d
      /\ clock s' = after_pause d k (clock s)
      /\ for_loop body (k :: rest) s = for_loop body rest s'
      /\ (exists f s'' d'',
            for_loop body rest s' = (inr f, s'')
            /\ dict_get twap_id (active_twap_orders s'') = Some d''
            /\ In failed (failed_orders d'')
            /\ existsb (fun x => ex_slice_num x =? k + 1) (executed_orders d'')
               = false)
      /\ (cancels k = false ->
          PrimFloat.leb (TWAPStrategy.slice_size d' (k + 1)) 0 = false ->
          exists s2 d2,
            body (k + 1) s' = (inr Next, s2)
            /\ dict_get twap_id (active_twap_orders s2) = Some d2
            /\ slice_attempted d2 (k + 1 + 1) = true).
Proof.
  intros cancels twap_id k rest s d e s1 Hd Hact _ Hq Hplace Hnone Hlater
         failed body.
  pose proof (twap_slice_attempt cancels twap_id k s d (inl e) s1 Hd Hact Hq Hplace)
    as Hstep. cbv zeta in Hstep. fold body in Hstep.
  set (t' := after_pause d k (clock s)) in *.
  set (d' := after_interrupt (cancels k) t'
               (slice_recorded (inl e) k (TWAPStrategy.slice_size d k) (clock s) d))
    in *.
  set (s' := with_twaps (dict_set twap_id d' (active_twap_orders s))
               (with_clock t' s1)) in *.
  assert (Hd' : dict_get twap_id (active_twap_orders s') = Some d')
    by apply dict_get_set_same.
  assert (Hfailed : failed_orders d' = failed_orders d ++ [failed])
    by (subst d'; destruct (cancels k); reflexivity).
  assert (Hexec : executed_orders d' = executed_orders d)
    by (subst d'; destruct (cancels k); reflexivity).
  exists s', d'. split; [exact Hstep |]. split; [exact Hd' |].
  split; [reflexivity |].
  split; [exact Hfailed |]. split; [exact Hexec |].
  split; [subst d'; destruct (cancels k); reflexivity |].
  split; [reflexivity |].
  split; [now apply for_loop_cons |].
  split.
  - destruct (twap_loop_spec cancels twap_id rest s' d' Hd')
      as (f & s'' & d'' & Hrun & Hd'' & Hrec).
    exists f, s'', d''. split; [exact Hrun |]. split; [exact Hd'' |].
    rewrite <- Hexec in Hnone.
    destruct (slices_recorded_later k rest d' d'' Hrec Hlater Hnone) as [Hkeep Hno].
    split; [| exact Hno]. apply Hkeep. rewrite Hfailed. apply in_or_app.
    right. now left.
  - intros Hc Hq'.
    assert (Hact' : twap_status d' = "ACTIVE")
      by (subst d'; rewrite Hc; exact Hact).
    destruct (TWAPStrategy.place_slice d' (TWAPStrategy.slice_size d' (k + 1)) s')
      as [res s2] eqn:Hplace'.
    pose proof (twap_slice_attempt cancels twap_id (k + 1) s' d' res s2
                  Hd' Hact' Hq' Hplace') as Hnext.
    cbv zeta in Hnext. fold body in Hnext.
    do 2 eexists. split; [exact Hnext |].
    split; [apply dict_get_set_same |].
    unfold slice_attempted.
    destruct res as [e2 | order]; destruct (cancels (k + 1)); cbn;
      rewrite !existsb_app; cbn; rewrite Z.eqb_refl;
      now rewrite ?orb_true_r.
Qed.

(** The two-slice order whose first request the exchange refuses; nobody
    cancels, so the second slice is attempted, a minute later. *)
Lemma twap_failed_slice_continues_witness :
  let s := Sim.with_twap_registered
             (Sim.start (fun k => negb (Nat.eqb k 0)) (fun _ => Some "NEW")
                        1700000000.5) in
  let d := mkTwap "BTCUSDT" "BUY" 1 1 2 0.5 60 "MARKET" None "GTC"
                  1700000000.5 1700000120.5 "ACTIVE" [] [] in
  let e := Py.BinanceAPIException "Order rejected" in
  (dict_get Sim.twap_id (active_twap_orders s) = Some d
   /\ Py.sleep_accepts (slice_interval d) = true
   /\ PrimFloat.leb (TWAPStrategy.slice_size d 0) 0 = false
   /\ fst (TWAPStrategy.place_slice d (TWAPStrategy.slice_size d 0) s) = inl e)
  /\ exists s' d',
       TWAPStrategy.twap_slice (fun _ => false) Sim.twap_id 0 s = (inr Next, s')
       /\ dict_get Sim.twap_id (active_twap_orders s') = Some d'
       /\ failed_orders d' = [mkFailed 1 0.5 "Order rejected" 1700000000.5]
       /\ executed_orders d' = []
       /\ remaining_quantity d' = 1%float
       /\ exists s2 d2,
            TWAPStrategy.twap_slice (fun _ => false) Sim.twap_id 1 s' = (inr Next, s2)
            /\ dict_get Sim.twap_id (active_twap_orders s2) = Some d2
            /\ slice_attempted d2 2 = true.
Proof.
  cbv zeta. split; [repeat split; vm_compute; reflexivity |].
  set (s := Sim.with_twap_registered _).
  pose (d := mkTwap "BTCUSDT" "BUY" 1 1 2 0.5 60 "MARKET" None "GTC"
                    1700000000.5 1700000120.5 "ACTIVE" [] []).
  assert (Hplace :
    TWAPStrategy.place_slice d (TWAPStrategy.slice_size d 0) s
    = (inl (Py.BinanceAPIException "Order rejected"),
       snd (TWAPStrategy.place_slice d (TWAPStrategy.slice_size d 0) s)))
    by (vm_compute; reflexivity).
  destruct (twap_failed_slice_continues (fun _ => false) Sim.twap_id 0 [1] s d
              (Py.BinanceAPIException "Order rejected") _
              eq_refl eq_refl eq_refl eq_refl Hplace eq_refl
              ltac:(intros j [<- | []]; lia))
    as (s' & d' & Hstep & Hd' & Heq & Hf & Hx & Hr & _ & _ & _ & Hnext).
  exists s', d'. split; [exact Hstep |]. split; [exact Hd' |].
  split; [exact Hf |]. split; [exact Hx |]. split; [exact Hr |].
  apply Hnext; [reflexivity |]. rewrite Heq. reflexivity.
Defined.

(** C7 (as stated) fails, in two ways.  When the first of two slices
    fails and another thread cancels the order while the loop pauses after
    it, the loop finds the order no longer ACTIVE and never attempts the
    second slice: one order request was made, and only slice 1 is on
    record.  And without any other thread: with a total of three times the
    smallest positive float in five slices, the nominal slice rounds up to
    the whole of that smallest float, three slices use up the total, the
    fourth is refused by the exchange, and the fifth is skipped because
    nothing is left. *)
Lemma twap_cancelled_after_failed_slice :
  (let s := Sim.with_twap_registered
              (Sim.start (fun k => negb (Nat.eqb k 0)) (fun _ => Some "NEW")
                         1700000000.5) in
   let cancels := fun k => k =? 0 in
   let s' := snd (TWAPStrategy._execute_twap_slices cancels Sim.twap_id s) in
   exists d',
     dict_get Sim.twap_id (active_twap_orders s') = Some d'
     /\ num_slices d' = 2
     /\ map fs_slice_num (failed_orders d') = [1]
     /\ executed_orders d' = []
     /\ slice_attempted d' 2 = false
     /\ List.length (order_requests (history s')) = 1%nat)
  /\ (let s := Sim.start (fun k => negb (Nat.eqb k 3)) (fun _ => Some "NEW")
                 1700000000.5 in
      let r := TWAPStrategy.execute_twap_order (fun _ => false) "BTCUSDT" "BUY"
                 0x1.8p-1073 5 (Some 5) "MARKET" None "GTC" s in
      exists d,
        dict_get "TWAP_BTCUSDT_1700000000" (active_twap_orders (snd r)) = Some d
        /\ num_slices d = 5
        /\ map ex_slice_num (executed_orders d) = [1; 2; 3]
        /\ map fs_slice_num (failed_orders d) = [4]
        /\ remaining_quantity d = 0%float
        /\ slice_attempted d 5 = false).
Proof.
  cbv zeta. split.
  - eexists. split; [vm_compute; reflexivity |].
    repeat split; vm_compute; reflexivity.
  - eexists. split; [vm_compute; reflexivity |].
    repeat split; vm_compute; reflexivity.
Qed.

(* ===================================================================== *)
(** ** TWAP: a run in which every slice is placed                         *)
(* ===================================================================== *)

Lemma place_slice_accepts d q s :
  accepts_all (client s) ->
  (3 <= String.length (twap_symbol d))%nat ->
  twap_side d = "BUY" \/ twap_side d = "SELL" ->
  placeable (twap_order_type d) (twap_price d) (twap_time_in_force d) ->
  PrimFloat.leb q 0 = false ->
  exists order s1, TWAPStrategy.place_slice d q s = (inr order, s1).
Proof.
  intros Hacc Hsym Hside Hplace Hq.
  assert (Hvs : BasicBot.validate_side (twap_side d) = inr (twap_side d)).
  { unfold BasicBot.validate_side. destruct Hside as [-> | ->]; reflexivity. }
  unfold TWAPStrategy.place_slice.
  destruct Hplace as [-> | (-> & p & -> & Hp & Htif)]; cbn [String.eqb Ascii.eqb Bool.eqb].
  - unfold BasicBot.place_market_order, bind at 1.
    rewrite (validate_symbol_ok _ s Hsym).
    unfold bind, lift, try_except, futures_create_order, raise.
    rewrite Hvs. unfold BasicBot.validate_quantity. rewrite Hq.
    cbn [Py.ret client history with_history].
    destruct (Hacc (history s ++ [EvExchangeInfo (cl_exchange_info (client s) (history s))])
                 (mkRequest (Py.upper (twap_symbol d)) (twap_side d) "MARKET" q
                            None None None)) as [o ->].
    eauto.
  - unfold BasicBot.place_limit_order, bind at 1.
    rewrite (validate_symbol_ok _ s Hsym).
    unfold bind, lift, try_except, futures_create_order, raise.
    rewrite Hvs. unfold BasicBot.validate_quantity, BasicBot.validate_price.
    rewrite Hq, Hp, Htif.
    cbn [Py.ret client history with_history negb].
    destruct (Hacc (history s ++ [EvExchangeInfo (cl_exchange_info (client s) (history s))])
                 (mkRequest (Py.upper (twap_symbol d)) (twap_side d) "LIMIT" q
                            (Some p) None (Some (twap_time_in_force d)))) as [o ->].
    eauto.
Qed.

Lemma after_slices_succ total slice a :
  after_slices total slice (S a)
  = PrimFloat.sub (after_slices total slice a) slice.
Proof.
  unfold after_slices.
  replace (repeat slice (S a)) with (repeat slice a ++ [slice]).
  - now rewrite fold_left_app.
  - clear. induction a as [| a IH]; [reflexivity |]. cbn. now rewrite IH.
Qed.

Lemma repeat_snoc {A} (x : A) a : repeat x a ++ [x] = repeat x (S a).
Proof. induction a as [| a IH]; [reflexivity |]. cbn. now rewrite IH. Qed.

Section NominalRun.

Variables (twap_id symbol side : string) (total slice interval : float) (n : Z).
Variables (order_type : string) (price : option float) (time_in_force : string).
Variables (start finish : float) (exchange : Client).

Hypothesis exchange_accepts : accepts_all exchange.
Hypothesis symbol_ok : (3 <= String.length symbol)%nat.
Hypothesis side_ok : side = "BUY" \/ side = "SELL".
Hypothesis order_ok : placeable order_type price time_in_force.
Hypothesis slice_positive : 1 < n -> PrimFloat.leb slice 0 = false.
Hypothesis last_positive :
  PrimFloat.leb (after_slices total slice (Z.to_nat (n - 1))) 0 = false.

Local Abbreviation in_progress :=
  (twap_in_progress symbol side total n slice interval order_type price
                    time_in_force start finish).

Local Abbreviation last := (after_slices total slice (Z.to_nat (n - 1))).

(** With [a] nominal slices done and [m] more to go before the last one,
    the loop runs through all of them: every slice is placed, and the last
    one takes exactly what remains. *)
Lemma twap_nominal_run (m : nat) :
  forall (a : nat) (ex : list ExecutedSlice) (s : State),
    Z.of_nat a + Z.of_nat m = n - 1 ->
    dict_get twap_id (active_twap_orders s) = Some (in_progress a ex) ->
    map ex_quantity ex = repeat slice a ->
    client s = exchange ->
    exists s' ex',
      for_loop (TWAPStrategy.twap_slice (fun _ => false) twap_id)
               (map Z.of_nat (seq a m) ++ [n - 1]) s = (inr Next, s')
      /\ dict_get twap_id (active_twap_orders s')
         = Some (mkTwap symbol side total (PrimFloat.sub last last) n slice
                        interval order_type price time_in_force start finish
                        "ACTIVE" ex' [])
      /\ map ex_quantity ex' = repeat slice (Z.to_nat (n - 1)) ++ [last].
Proof.
  induction m as [| m IH]; intros a ex s Ha Hd Hex Hc.
  - (* the last slice *)
    assert (Hk : Z.of_nat a = n - 1) by lia.
    assert (Ha' : a = Z.to_nat (n - 1)) by lia.
    cbn [seq map app].
    assert (Hsize : TWAPStrategy.slice_size (in_progress a ex) (n - 1) = last).
    { unfold TWAPStrategy.slice_size. cbn. rewrite Z.eqb_refl. now subst a. }
    assert (Hq : PrimFloat.leb (TWAPStrategy.slice_size (in_progress a ex) (n - 1)) 0
                 = false) by (rewrite Hsize; exact last_positive).
    destruct (place_slice_accepts (in_progress a ex)
                (TWAPStrategy.slice_size (in_progress a ex) (n - 1)) s)
      as (order & s1 & Hplace); auto; [now rewrite Hc |].
    rewrite (for_loop_cons _ _ _ _ _
               (twap_slice_attempt _ twap_id (n - 1) s _ _ s1 Hd eq_refl Hq Hplace)).
    cbn [for_loop]. do 2 eexists. split; [reflexivity |].
    cbn [active_twap_orders with_twaps]. rewrite dict_get_set_same.
    rewrite Hsize. cbn. subst a.
    split; [reflexivity |].
    unfold twap_in_progress.
    cbn [executed_orders TWAPStrategy.append_executed].
    rewrite map_app, Hex. reflexivity.
  - (* a nominal slice *)
    assert (Hn : 1 < n) by lia.
    cbn [seq map app].
    assert (Hsize : TWAPStrategy.slice_size (in_progress a ex) (Z.of_nat a) = slice).
    { unfold TWAPStrategy.slice_size. cbn.
      destruct (Z.eqb_spec (Z.of_nat a) (n - 1)); [lia | reflexivity]. }
    assert (Hq : PrimFloat.leb (TWAPStrategy.slice_size (in_progress a ex) (Z.of_nat a)) 0
                 = false) by (rewrite Hsize; auto).
    destruct (place_slice_accepts (in_progress a ex)
                (TWAPStrategy.slice_size (in_progress a ex) (Z.of_nat a)) s)
      as (order & s1 & Hplace); auto; [now rewrite Hc |].
    pose proof (place_slice_only_history (in_progress a ex)
                  (TWAPStrategy.slice_size (in_progress a ex) (Z.of_nat a)) s)
      as Hframe.
    rewrite Hplace in Hframe. cbn [snd] in Hframe.
    rewrite (for_loop_cons _ _ _ _ _
               (twap_slice_attempt _ twap_id (Z.of_nat a) s _ _ s1 Hd eq_refl Hq
                                   Hplace)).
    rewrite Hsize.
    apply (IH (S a)
              (ex ++ [mkExecuted (Z.of_nat a + 1) slice order (clock s)])).
    + lia.
    + cbn [active_twap_orders with_twaps]. rewrite dict_get_set_same.
      unfold twap_in_progress. rewrite after_slices_succ.
      reflexivity.
    + rewrite map_app, Hex. cbn. apply repeat_snoc.
    + cbn [client with_twaps with_clock]. rewrite <- Hframe. exact Hc.
Qed.

End NominalRun.

Lemma datetime_add_minutes_value t m finish :
  Py.datetime_add_minutes t m = inr finish ->
  finish = PrimFloat.add t (Py.float_of_int (m * 60)).
Proof.
  unfold Py.datetime_add_minutes, Py.raise, Py.ret.
  destruct (_ || _); [discriminate |].
  destruct (_ || _); [discriminate |].
  destruct (_ && _); [| discriminate].
  now intros [= <-].
Qed.

(** What [execute_twap_order] does with well-formed arguments whose end
    time is a datetime: it registers the order as ACTIVE with the full
    quantity remaining, runs the slicing loop, and reports STARTED. *)
Lemma execute_twap_order_valid cancels symbol side total duration_minutes
  slices order_type price time_in_force s finish :
  (3 <= String.length symbol)%nat ->
  Py.upper side = "BUY" \/ Py.upper side = "SELL" ->
  PrimFloat.leb total 0 = false ->
  0 < duration_minutes ->
  placeable order_type price time_in_force ->
  Py.datetime_add_minutes (clock s) duration_minutes = inr finish ->
  let n := match slices with
           | None => Z.max 1 (Z.min duration_minutes 60)
           | Some n => n
           end in
  0 < n ->
  let s1 :=
    with_history
      (history s ++ [EvExchangeInfo (cl_exchange_info (client s) (history s))]) s in
  let twap_id :=
    ("TWAP_" ++ Py.upper symbol ++ "_"
       ++ Py.str_of_int (Py.int_of_float (clock s)))%string in
  let d0 :=
    twap_in_progress (Py.upper symbol) (Py.upper side) total n
      (PrimFloat.div total (Py.float_of_int n))
      (Py.nearest_quotient (duration_minutes * 60) n)
      order_type price time_in_force (clock s) finish 0 [] in
  TWAPStrategy.execute_twap_order cancels symbol side total duration_minutes
    slices order_type price time_in_force s =
  match TWAPStrategy._execute_twap_slices cancels twap_id
          (with_twaps (dict_set twap_id d0 (active_twap_orders s)) s1) with
  | (inl e, s') => (inl e, s')
  | (inr _, s') =>
      (inr (TWAPStrategy.mkStarted twap_id (Py.upper symbol) (Py.upper side)
              total n duration_minutes "STARTED"), s')
  end.
Proof.
  intros Hsym Hside Htotal Hdur Hplace Hfin n Hn s1 twap_id d0.
  unfold TWAPStrategy.execute_twap_order, bind at 1.
  rewrite (validate_symbol_ok symbol s Hsym). fold s1.
  unfold bind, lift. rewrite (validate_side_ok side Hside).
  unfold BasicBot.validate_quantity. rewrite Htotal.
  destruct (Z.leb_spec duration_minutes 0) as [Hle | _]; [lia |].
  destruct (Z.leb_spec n 0) as [Hle | _]; [lia |].
  destruct (Z.eqb_spec n 0) as [H0 | _]; [lia |].
  destruct Hplace as [-> | (-> & p & -> & Hp & _)];
    cbn [String.eqb Ascii.eqb Bool.eqb orb negb];
    unfold BasicBot.validate_price, Py.truediv_int, Py.int_truediv;
    rewrite ?Hp; fold n;
    destruct (Z.leb_spec n 0) as [Hle | _]; try lia;
    destruct (Z.eqb_spec n 0) as [H0' | _]; try lia;
    unfold Py.ret, now, gets, modify, ret;
    cbn [clock with_history active_twap_orders];
    change (clock s1) with (clock s); rewrite Hfin;
    fold twap_id; unfold d0, twap_in_progress, after_slices;
    cbn [repeat fold_left];
    destruct (TWAPStrategy._execute_twap_slices _ _ _) as [[e | []] s'];
    reflexivity.
Qed.

(** C4 (amended).  In a run in which the exchange accepts every order and
    no slice is skipped (the nominal quantity and the quantity left for the
    last slice are positive, and the latter is finite), of an order that
    can be planned (its end time is a datetime and the pause between its
    slices is one [time.sleep] takes), all slices are executed:
    [num_slices - 1] of them at the nominal quantity and the last one at
    exactly what remained, nothing fails, and at completion the remaining
    quantity is exactly 0, which is what is left of the total when the
    executed quantities are subtracted from it in order. *)
Theorem twap_all_slices_executed :
  forall (symbol side : string) (total : float) (duration_minutes : Z)
         (slices : option Z) (order_type : string) (price : option float)
         (time_in_force : string) (s : State),
    (3 <= String.length symbol)%nat ->
    Py.upper side = "BUY" \/ Py.upper side = "SELL" ->
    PrimFloat.leb total 0 = false ->
    0 < duration_minutes ->
    placeable order_type price time_in_force ->
    accepts_all (client s) ->
    let n := match slices with
             | None => Z.max 1 (Z.min duration_minutes 60)
             | Some n => n
             end in
    let slice := PrimFloat.div total (Py.float_of_int n) in
    let last := after_slices total slice (Z.to_nat (n - 1)) in
    0 < n ->
    twap_plannable (clock s) duration_minutes n ->
    (1 < n -> PrimFloat.leb slice 0 = false) ->
    PrimFloat.leb last 0 = false ->
    PrimFloat.is_finite last = true ->
    exists started s' d,
      TWAPStrategy.execute_twap_order (fun _ => false) symbol side total
        duration_minutes slices order_type price time_in_force s
      = (inr started, s')
      /\ dict_get (TWAPStrategy.st_twap_id started) (active_twap_orders s') = Some d
      /\ twap_status d = "COMPLETED"
      /\ map ex_quantity (executed_orders d)
         = repeat slice (Z.to_nat (n - 1)) ++ [last]
      /\ failed_orders d = []
      /\ remaining_quantity d = 0%float
      /\ fold_left PrimFloat.sub (map ex_quantity (executed_orders d)) total
         = remaining_quantity d.
Proof.
  intros symbol side total duration slices order_type price tif s
         Hsym Hside Htotal Hdur Hplace Hacc n slice last Hn
         [[finish Hend] _] Hslice Hlast Hfin.
  rewrite (execute_twap_order_valid _ symbol side total duration slices
             order_type price tif s finish Hsym Hside Htotal Hdur Hplace
             Hend Hn).
  fold n. fold slice.
  set (twap_id := ("TWAP_" ++ _)%string).
  set (d0 := twap_in_progress _ _ _ _ _ _ _ _ _ _ _ _ _).
  set (s0 := with_twaps _ _).
  assert (Hd0 : dict_get twap_id (active_twap_orders s0) = Some d0)
    by apply dict_get_set_same.
  assert (Hrange : range n = map Z.of_nat (seq 0 (Z.to_nat (n - 1))) ++ [n - 1]).
  { unfold range. replace (Z.to_nat n) with (S (Z.to_nat (n - 1))) by lia.
    rewrite seq_S, map_app. cbn. f_equal. f_equal. lia. }
  destruct (twap_nominal_run twap_id (Py.upper symbol) (Py.upper side) total
              slice _ n order_type price tif _ _ (client s) Hacc
              ltac:(now rewrite upper_length) Hside Hplace Hslice Hlast
              (Z.to_nat (n - 1)) 0%nat [] s0 ltac:(lia) Hd0 eq_refl eq_refl)
    as (s' & ex' & Hrun & Hd' & Hex').
  rewrite <- Hrange in Hrun.
  unfold TWAPStrategy._execute_twap_slices, TWAPStrategy.twap_data_of,
    TWAPStrategy.update_twap, for_each, now, bind, gets, modify, ret.
  rewrite Hd0. change (num_slices d0) with n. rewrite Hrun, Hd'.
  do 3 eexists. split; [reflexivity |].
  cbn [TWAPStrategy.st_twap_id active_twap_orders with_twaps].
  rewrite dict_get_set_same. split; [reflexivity |].
  cbn. split; [reflexivity |]. split; [exact Hex' |]. split; [reflexivity |].
  fold last. split; [now apply sub_self_finite |].
  rewrite Hex', fold_left_app. reflexivity.
Qed.

(** 100 units in 11 slices over 11 minutes: all executed, nothing left. *)
Lemma twap_all_slices_executed_witness :
  let s := Sim.start (fun _ => true) (fun _ => Some "NEW") 1700000000.5 in
  let slice := PrimFloat.div 100 (Py.float_of_int 11) in
  let last := after_slices 100 slice 10 in
  (accepts_all (client s)
   /\ twap_plannable (clock s) 11 11
   /\ PrimFloat.leb slice 0 = false
   /\ PrimFloat.leb last 0 = false
   /\ PrimFloat.is_finite last = true)
  /\ exists started s' d,
       TWAPStrategy.execute_twap_order (fun _ => false) "BTCUSDT" "BUY" 100 11
         None "MARKET" None "GTC" s = (inr started, s')
       /\ dict_get (TWAPStrategy.st_twap_id started) (active_twap_orders s') = Some d
       /\ List.length (executed_orders d) = 11%nat
       /\ remaining_quantity d = 0%float.
Proof.
  cbv zeta.
  assert (Hacc : accepts_all
                   (client (Sim.start (fun _ => true) (fun _ => Some "NEW")
                                      1700000000.5)))
    by (intros h req; eexists; reflexivity).
  assert (Hplan : twap_plannable 1700000000.5 11 11).
  { split; [eexists; vm_compute; reflexivity | intros _; vm_compute; reflexivity]. }
  split; [split; [exact Hacc |];
          split; [exact Hplan | repeat split; vm_compute; reflexivity] |].
  destruct (twap_all_slices_executed "BTCUSDT" "BUY" 100%float 11 None "MARKET"
              None "GTC"
              (Sim.start (fun _ => true) (fun _ => Some "NEW") 1700000000.5)
              ltac:(simpl; lia) (or_introl eq_refl) eq_refl ltac:(lia)
              (or_introl eq_refl) Hacc ltac:(cbn; lia) Hplan
              ltac:(intros _; vm_compute; reflexivity)
              ltac:(vm_compute; reflexivity) ltac:(vm_compute; reflexivity))
    as (started & s' & d & Hrun & Hd & _ & Hex & _ & Hrem & _).
  exists started, s', d. split; [exact Hrun |]. split; [exact Hd |].
  split; [| exact Hrem].
  rewrite <- (length_map ex_quantity), Hex, length_app, repeat_length.
  reflexivity.
Defined.

(** C4 (as stated) fails: 100 units in 11 slices, every order accepted.
    All 11 slices are executed and the remaining quantity ends at 0, but
    the executed quantities do not add up to 100: their float sum is
    99.99999999999999, whichever way the interpreter adds them up, and the
    exact sum of the eleven floats is not 100 either. *)
Lemma twap_executed_sum_differs_from_total :
  let s := Sim.start (fun _ => true) (fun _ => Some "NEW") 1700000000.5 in
  let r := TWAPStrategy.execute_twap_order (fun _ => false) "BTCUSDT" "BUY"
             100 11 None "MARKET" None "GTC" s in
  exists d,
    dict_get "TWAP_BTCUSDT_1700000000" (active_twap_orders (snd r)) = Some d
    /\ total_quantity d = 100%float
    /\ List.length (executed_orders d) = 11%nat
    /\ failed_orders d = []
    /\ remaining_quantity d = 0%float
    /\ TWAPStrategy.executed_quantity false d = 99.999999999999986%float
    /\ TWAPStrategy.executed_quantity true d = 99.999999999999986%float
    /\ PrimFloat.eqb (TWAPStrategy.executed_quantity false d) (total_quantity d)
       = false
    /\ PrimFloat.eqb (TWAPStrategy.executed_quantity true d) (total_quantity d)
       = false
    /\ Qeq_bool (exact_sum (map ex_quantity (executed_orders d)))
                (exact (total_quantity d)) = false.
Proof.
  cbv zeta. eexists. split; [vm_compute; reflexivity |].
  repeat split; vm_compute; reflexivity.
Qed.

(* ===================================================================== *)
(** ** Strategy identifiers                                               *)
(* ===================================================================== *)






(* ===================================================================== *)
(** ** Further properties: validation and primitive orders                *)
(* ===================================================================== *)

Lemma order_requests_app h1 h2 :
  order_requests (h1 ++ h2) = order_requests h1 ++ order_requests h2.
Proof. apply flat_map_app. Qed.

Lemma order_requests_lookups l :
  forallb is_symbol_lookup l = true -> order_requests l = [].
Proof.
  induction l as [| ev l IH]; [reflexivity |].
  cbn. intros H. apply andb_true_iff in H as [Hev Hl].
  destruct ev; try discriminate. cbn. auto.
Qed.

Lemma is_nan_Prim2SF x : PrimFloat.is_nan x = true <-> Prim2SF x = S754_nan.
Proof.
  unfold Prim2SF. destruct (PrimFloat.is_nan x); [tauto |].
  split; [discriminate |].
  destruct (is_zero x); [discriminate |].
  destruct (is_infinity x); [discriminate |].
  destruct (FloatOps.Z.frexp x) as [r ex].
  destruct (shr_fexp _ _ _ _ _) as [sh e'].
  destruct (shr_m sh); discriminate.
Qed.

(** [x <= 0] fails exactly for the positive numbers and for NaN. *)
Lemma leb_zero_false x :
  PrimFloat.leb x 0 = false <->
  (PrimFloat.ltb 0 x = true \/ PrimFloat.is_nan x = true).
Proof.
  rewrite leb_spec, ltb_spec, is_nan_Prim2SF.
  change (Prim2SF 0) with (S754_zero false).
  destruct (Prim2SF x) as [s | s | | s m e]; cbn.
  - split; [discriminate | intros [H | H]; discriminate].
  - destruct s; cbn; split; try discriminate; auto. intros [H | H]; discriminate.
  - split; auto.
  - destruct s; cbn; split; try discriminate; auto. intros [H | H]; discriminate.
Qed.

(** X1.  [validate_symbol] checks the length only: a symbol of three
    characters or more is returned in upper case whatever the exchange
    answers to the lookup (a list without the symbol, or an error), after
    exactly one lookup; a shorter one raises [ValueError] and the exchange
    is not asked. *)
Theorem validate_symbol_checks_length_only :
  forall (symbol : string) (s : State),
    BasicBot.validate_symbol symbol s =
      if (String.length symbol <? 3)%nat
      then (inl (Py.ValueError "Invalid symbol format"), s)
      else (inr (Py.upper symbol),
            with_history (history s ++ [symbol_lookup s]) s).
Proof.
  intros symbol s.
  destruct (String.length symbol <? 3)%nat eqn:Hlen.
  - apply validate_symbol_short. apply Nat.ltb_lt, Hlen.
  - apply validate_symbol_ok. apply Nat.ltb_ge, Hlen.
Qed.

Lemma find_eqb_some symbol symbols s0 :
  find (fun x => String.eqb x symbol) symbols = Some s0 -> s0 = symbol.
Proof.
  intros H. apply find_some in H as [_ H]. apply String.eqb_eq, H.
Qed.

(** X2.  [get_symbol_info] is strict where [validate_symbol] is not: it
    returns the entry only when the exchange lists exactly the given
    string, and raises [ValueError] otherwise, for a symbol that
    [validate_symbol] accepts as well. *)
Theorem get_symbol_info_strict :
  forall (symbol : string) (s : State) (symbols : list string),
    cl_exchange_info (client s) (history s) = inr symbols ->
    let r := BasicBot.get_symbol_info symbol s in
    snd r = with_history (history s ++ [symbol_lookup s]) s
    /\ (In symbol symbols -> fst r = inr symbol)
    /\ (~ In symbol symbols ->
        fst r = inl (Py.ValueError ("Symbol " ++ symbol ++ " not found"))
        /\ ((3 <= String.length symbol)%nat ->
            fst (BasicBot.validate_symbol symbol s) = inr (Py.upper symbol))).
Proof.
  intros symbol s symbols Hinfo r. subst r.
  unfold BasicBot.get_symbol_info, try_except, bind, futures_exchange_info,
    symbol_lookup.
  rewrite Hinfo.
  destruct (find (fun x => String.eqb x symbol) symbols) as [s0 |] eqn:Hfind.
  - apply find_eqb_some in Hfind as Heq. subst s0.
    cbn. split; [reflexivity |]. split; [reflexivity |].
    intros Hnot. exfalso. apply Hnot.
    apply find_some in Hfind. apply Hfind.
  - cbn. split; [reflexivity |]. split.
    + intros Hin. exfalso.
      apply (find_none _ _ Hfind) in Hin.
      rewrite String.eqb_refl in Hin. discriminate.
    + intros _. split; [reflexivity |].
      intros Hlen. rewrite validate_symbol_ok by exact Hlen. reflexivity.
Qed.

Lemma get_symbol_info_strict_witness :
  let s := Sim.start (fun _ => true) (fun _ => Some "NEW") 1700000000.5 in
  cl_exchange_info (client s) (history s) = inr ["BTCUSDT"; "ETHUSDT"]
  /\ fst (BasicBot.get_symbol_info "btcusdt" s)
     = inl (Py.ValueError "Symbol btcusdt not found")
  /\ fst (BasicBot.validate_symbol "btcusdt" s) = inr "BTCUSDT".
Proof.
  intros s.
  pose proof (get_symbol_info_strict "btcusdt" s ["BTCUSDT"; "ETHUSDT"]
                eq_refl) as (_ & _ & H).
  split; [reflexivity |].
  assert (Hnot : ~ In "btcusdt" ["BTCUSDT"; "ETHUSDT"]).
  { cbn. intros [H0 | [H0 | []]]; discriminate. }
  destruct (H Hnot) as [H1 H2].
  split; [exact H1 |].
  apply H2. cbn. lia.
Defined.

Lemma upper_ascii_idempotent c :
  Py.upper_ascii (Py.upper_ascii c) = Py.upper_ascii c.
Proof.
  destruct c as [[] [] [] [] [] [] [] []]; reflexivity.
Qed.

Lemma upper_idempotent s : Py.upper (Py.upper s) = Py.upper s.
Proof.
  induction s as [| c s IH]; [reflexivity |].
  cbn. rewrite upper_ascii_idempotent, IH. reflexivity.
Qed.

Lemma validate_side_inv side v :
  BasicBot.validate_side side = inr v ->
  v = Py.upper side /\ (v = "BUY" \/ v = "SELL").
Proof.
  unfold BasicBot.validate_side.
  destruct (String.eqb (Py.upper side) "BUY") eqn:Hb.
  - cbn. intros H. injection H as <-. apply String.eqb_eq in Hb. auto.
  - destruct (String.eqb (Py.upper side) "SELL") eqn:Hs.
    + cbn. intros H. injection H as <-. apply String.eqb_eq in Hs. auto.
    + cbn. discriminate.
Qed.

(** X3.  What [validate_side] accepts is ["BUY"] or ["SELL"], the upper
    case of what it was given, and validating it again changes nothing
    (the engines validate a side on creation and again on every order). *)
Theorem validate_side_normalises :
  forall (side v : string),
    BasicBot.validate_side side = inr v ->
    v = Py.upper side
    /\ (v = "BUY" \/ v = "SELL")
    /\ BasicBot.validate_side v = inr v.
Proof.
  intros side v H.
  destruct (validate_side_inv side v H) as [Hv Hcase].
  split; [exact Hv |]. split; [exact Hcase |].
  destruct Hcase as [-> | ->]; reflexivity.
Qed.

Lemma validate_side_normalises_witness :
  BasicBot.validate_side "sell" = inr "SELL"
  /\ BasicBot.validate_side "SELL" = inr "SELL".
Proof.
  split; [reflexivity |].
  apply (validate_side_normalises "sell" "SELL"). reflexivity.
Defined.

(** X4.  [validate_quantity] and [validate_price] let through exactly the
    numbers above zero and NaN, unchanged; everything else (zero, the
    negative numbers, minus infinity) raises [ValueError]. *)
Theorem validate_price_accepts_positive_and_nan :
  forall (x : float),
    (BasicBot.validate_price x =
       if PrimFloat.ltb 0 x || PrimFloat.is_nan x
       then inr x else inl (Py.ValueError "Price must be > 0"))
    /\ (BasicBot.validate_quantity x =
          if PrimFloat.ltb 0 x || PrimFloat.is_nan x
          then inr x else inl (Py.ValueError "Quantity must be > 0")).
Proof.
  intros x. unfold BasicBot.validate_price, BasicBot.validate_quantity.
  pose proof (leb_zero_false x) as H.
  destruct (PrimFloat.leb x 0).
  - destruct (PrimFloat.ltb 0 x || PrimFloat.is_nan x) eqn:Hor.
    + apply orb_true_iff in Hor. apply H in Hor. discriminate.
    + split; reflexivity.
  - destruct (proj1 H eq_refl) as [-> | ->];
      rewrite ?orb_true_r; split; reflexivity.
Qed.

Lemma is_symbol_lookup_symbol_lookup s : is_symbol_lookup (symbol_lookup s) = true.
Proof. reflexivity. Qed.

(** The first step of every order function, for a symbol that is long
    enough. *)
Lemma bind_validate_symbol {A} symbol (k : string -> M A) s :
  (3 <= String.length symbol)%nat ->
  bind (BasicBot.validate_symbol symbol) k s
  = k (Py.upper symbol) (with_history (history s ++ [symbol_lookup s]) s).
Proof.
  intros Hlen. unfold bind. rewrite validate_symbol_ok by exact Hlen.
  reflexivity.
Qed.

Lemma bind_validate_symbol_short {A} symbol (k : string -> M A) s :
  (String.length symbol <? 3)%nat = true ->
  bind (BasicBot.validate_symbol symbol) k s
  = (inl (Py.ValueError "Invalid symbol format"),
     with_history (history s ++ []) s).
Proof.
  intros Hlen. unfold bind.
  rewrite validate_symbol_short by (apply Nat.ltb_lt, Hlen).
  rewrite app_nil_r, with_history_same. reflexivity.
Qed.

Lemma validate_side_error side e :
  BasicBot.validate_side side = inl e ->
  e = Py.ValueError "Side must be BUY or SELL".
Proof.
  unfold BasicBot.validate_side. destruct (negb _); [| discriminate].
  intros H. injection H as <-. reflexivity.
Qed.

Lemma create_order_raw req s :
  try_except (futures_create_order req) (fun e => raise e) s
  = (cl_create_order (client s) (history s) req,
     with_history
       (history s ++ [EvCreateOrder req
                        (cl_create_order (client s) (history s) req)]) s).
Proof.
  unfold try_except, futures_create_order, raise.
  destruct (cl_create_order _ _ _); reflexivity.
Qed.

Lemma with_history_twice h h' s :
  with_history h' (with_history h s) = with_history h' s.
Proof. reflexivity. Qed.

Lemma validate_side_checked side :
  BasicBot.validate_side side =
    if String.eqb (Py.upper side) "BUY" || String.eqb (Py.upper side) "SELL"
    then inr (Py.upper side)
    else inl (Py.ValueError "Side must be BUY or SELL").
Proof.
  unfold BasicBot.validate_side. destruct (_ || _); reflexivity.
Qed.

(** What [place_limit_order] does: nothing but at most one lookup when a
    check fails, and otherwise one lookup and one request. *)
Lemma place_limit_order_cases symbol side quantity price tif s :
  (limit_checks symbol side quantity price tif = false
   /\ exists msg lookups,
        forallb is_symbol_lookup lookups = true
        /\ BasicBot.place_limit_order symbol side quantity price tif s
           = (inl (Py.ValueError msg), with_history (history s ++ lookups) s))
  \/ (limit_checks symbol side quantity price tif = true
      /\ (3 <= String.length symbol)%nat
      /\ (Py.upper side = "BUY" \/ Py.upper side = "SELL")
      /\ PrimFloat.leb quantity 0 = false
      /\ PrimFloat.leb price 0 = false
      /\ BasicBot.valid_time_in_force tif = true
      /\ let req := mkRequest (Py.upper symbol) (Py.upper side) "LIMIT"
                      quantity (Some price) None (Some tif) in
         let reply := cl_create_order (client s)
                        (history s ++ [symbol_lookup s]) req in
         BasicBot.place_limit_order symbol side quantity price tif s
         = (reply,
            with_history
              (history s ++ [symbol_lookup s; EvCreateOrder req reply]) s)).
Proof.
  unfold limit_checks.
  destruct (String.length symbol <? 3)%nat eqn:Hlen.
  { left. split; [reflexivity |].
    exists "Invalid symbol format", []. split; [reflexivity |].
    apply bind_validate_symbol_short, Hlen. }
  apply Nat.ltb_ge in Hlen.
  pose proof (validate_side_checked side) as Hside.
  destruct (String.eqb (Py.upper side) "BUY"
            || String.eqb (Py.upper side) "SELL") eqn:Hv.
  2:{ left. split; [reflexivity |].
      eexists _, [symbol_lookup s]. split; [reflexivity |].
      unfold BasicBot.place_limit_order.
      rewrite bind_validate_symbol by exact Hlen.
      unfold bind, lift. rewrite Hside. reflexivity. }
  apply orb_true_iff in Hv. rewrite !String.eqb_eq in Hv.
  destruct (PrimFloat.leb quantity 0) eqn:Hq.
  { left. split; [reflexivity |].
    eexists _, [symbol_lookup s]. split; [reflexivity |].
    unfold BasicBot.place_limit_order.
    rewrite bind_validate_symbol by exact Hlen.
    unfold bind, lift, BasicBot.validate_quantity.
    rewrite Hside, Hq. reflexivity. }
  destruct (PrimFloat.leb price 0) eqn:Hp.
  { left. split; [reflexivity |].
    eexists _, [symbol_lookup s]. split; [reflexivity |].
    unfold BasicBot.place_limit_order.
    rewrite bind_validate_symbol by exact Hlen.
    unfold bind, lift, BasicBot.validate_quantity, BasicBot.validate_price.
    rewrite Hside, Hq, Hp. reflexivity. }
  destruct (BasicBot.valid_time_in_force tif) eqn:Htif.
  2:{ left. split; [reflexivity |].
      eexists _, [symbol_lookup s]. split; [reflexivity |].
      unfold BasicBot.place_limit_order.
      rewrite bind_validate_symbol by exact Hlen.
      unfold bind, lift, BasicBot.validate_quantity, BasicBot.validate_price.
      rewrite Hside, Hq, Hp, Htif. reflexivity. }
  right. repeat (split; [assumption || reflexivity |]).
  cbv zeta.
  unfold BasicBot.place_limit_order.
  rewrite bind_validate_symbol by exact Hlen.
  unfold bind, lift, BasicBot.validate_quantity, BasicBot.validate_price.
  rewrite Hside, Hq, Hp, Htif. cbn [negb Py.ret].
  rewrite create_order_raw.
  cbn [history client with_history].
  rewrite <- app_assoc. reflexivity.
Qed.

Lemma place_market_order_cases symbol side quantity s :
  (exists msg lookups,
      forallb is_symbol_lookup lookups = true
      /\ BasicBot.place_market_order symbol side quantity s
         = (inl (Py.ValueError msg), with_history (history s ++ lookups) s))
  \/ ((3 <= String.length symbol)%nat
      /\ (Py.upper side = "BUY" \/ Py.upper side = "SELL")
      /\ PrimFloat.leb quantity 0 = false
      /\ let req := mkRequest (Py.upper symbol) (Py.upper side) "MARKET"
                      quantity None None None in
         let reply := cl_create_order (client s)
                        (history s ++ [symbol_lookup s]) req in
         BasicBot.place_market_order symbol side quantity s
         = (reply,
            with_history
              (history s ++ [symbol_lookup s; EvCreateOrder req reply]) s)).
Proof.
  destruct (String.length symbol <? 3)%nat eqn:Hlen.
  { left. exists "Invalid symbol format", []. split; [reflexivity |].
    apply bind_validate_symbol_short, Hlen. }
  apply Nat.ltb_ge in Hlen.
  destruct (BasicBot.validate_side side) as [e | v] eqn:Hside.
  { left. apply validate_side_error in Hside as He. subst e.
    eexists _, [symbol_lookup s]. split; [reflexivity |].
    unfold BasicBot.place_market_order.
    rewrite bind_validate_symbol by exact Hlen.
    unfold bind, lift. rewrite Hside. reflexivity. }
  destruct (validate_side_inv side v Hside) as [-> Hv].
  destruct (PrimFloat.leb quantity 0) eqn:Hq.
  { left. eexists _, [symbol_lookup s]. split; [reflexivity |].
    unfold BasicBot.place_market_order.
    rewrite bind_validate_symbol by exact Hlen.
    unfold bind, lift, BasicBot.validate_quantity.
    rewrite Hside, Hq. reflexivity. }
  right. repeat (split; [assumption || reflexivity |]).
  cbv zeta.
  unfold BasicBot.place_market_order.
  rewrite bind_validate_symbol by exact Hlen.
  unfold bind, lift, BasicBot.validate_quantity.
  rewrite Hside, Hq. cbn [Py.ret].
  rewrite create_order_raw.
  cbn [history client with_history].
  rewrite <- app_assoc. reflexivity.
Qed.

Lemma with_history_history h s : history (with_history h s) = h.
Proof. reflexivity. Qed.

(** X5.  [place_limit_order] sends at most one request, and only one that
    passed every check: a call that fails a check raises [ValueError]
    without sending anything, and a call that returns an order has sent
    exactly the caller's order (symbol and side in upper case) and returns
    what the exchange answered. *)
Theorem place_limit_order_sends_checked_request :
  forall (symbol side : string) (quantity price : float) (tif : string)
         (s : State),
    let r := BasicBot.place_limit_order symbol side quantity price tif s in
    let req := mkRequest (Py.upper symbol) (Py.upper side) "LIMIT" quantity
                 (Some price) None (Some tif) in
    (order_requests (history (snd r)) = order_requests (history s)
     /\ exists msg, fst r = inl (Py.ValueError msg))
    \/ (order_requests (history (snd r)) = order_requests (history s) ++ [req]
        /\ checked_limit_request req
        /\ fst r = cl_create_order (client s) (history s ++ [symbol_lookup s]) req
        /\ history (snd r)
           = history s ++ [symbol_lookup s; EvCreateOrder req (fst r)]).
Proof.
  intros symbol side quantity price tif s r req. subst r.
  destruct (place_limit_order_cases symbol side quantity price tif s)
    as [(_ & msg & lookups & Hl & ->)
       | (_ & Hlen & Hside & Hq & Hp & Htif & ->)].
  - left. cbn [fst snd]. rewrite with_history_history, order_requests_app,
      (order_requests_lookups _ Hl), app_nil_r.
    split; [reflexivity | eauto].
  - right. cbn [fst snd]. rewrite with_history_history, order_requests_app.
    split; [reflexivity |].
    split.
    { unfold checked_limit_request, checked_request. subst req.
      cbn [req_symbol req_side req_quantity req_type req_price req_stopPrice
           req_timeInForce].
      rewrite upper_length. repeat split; eauto. }
    split; reflexivity.
Qed.

(* ===================================================================== *)
(** ** Further properties: stop and take-profit orders                    *)
(* ===================================================================== *)

Lemma SFcompare_antisym x y :
  SFcompare y x = option_map CompOpp (SFcompare x y).
Proof.
  destruct x as [sx | sx | | sx mx ex], y as [sy | sy | | sy my ey];
    try reflexivity;
    try (destruct sx; reflexivity);
    try (destruct sy; reflexivity);
    try (destruct sx, sy; reflexivity).
  pose proof (Pos.compare_cont_antisym mx my Eq) as Hm.
  change (CompOpp Eq) with Eq in Hm.
  destruct sx, sy; cbn [SFcompare option_map]; try reflexivity.
  - rewrite (Z.compare_antisym ex ey).
    destruct (ex ?= ey); cbn [CompOpp]; try reflexivity.
    rewrite <- Hm, CompOpp_involutive. reflexivity.
  - rewrite (Z.compare_antisym ex ey).
    destruct (ex ?= ey); cbn [CompOpp]; try reflexivity.
    rewrite <- Hm. reflexivity.
Qed.

Lemma SFcompare_None x y :
  SFcompare x y = None -> x = S754_nan \/ y = S754_nan.
Proof.
  destruct x as [sx | sx | | sx mx ex], y as [sy | sy | | sy my ey];
    cbn; auto; discriminate.
Qed.

(** Two numbers that are not NaN compare one way or the other. *)
Lemma leb_total a b :
  PrimFloat.is_nan a = false -> PrimFloat.is_nan b = false ->
  PrimFloat.leb a b = false -> PrimFloat.leb b a = true.
Proof.
  intros Ha Hb. rewrite !leb_spec. unfold SFleb.
  rewrite (SFcompare_antisym (Prim2SF a) (Prim2SF b)).
  destruct (SFcompare (Prim2SF a) (Prim2SF b)) as [c |] eqn:Hc.
  - destruct c; cbn; congruence.
  - apply SFcompare_None in Hc as [Hc | Hc]; apply is_nan_Prim2SF in Hc;
      congruence.
Qed.

Lemma place_stop_limit_order_cases symbol side quantity stop limit tif s :
  (exists msg lookups,
      forallb is_symbol_lookup lookups = true
      /\ StopLimitOrders.place_stop_limit_order symbol side quantity stop
           limit tif s
         = (inl (Py.ValueError msg), with_history (history s ++ lookups) s))
  \/ ((3 <= String.length symbol)%nat
      /\ (Py.upper side = "BUY" \/ Py.upper side = "SELL")
      /\ PrimFloat.leb quantity 0 = false
      /\ BasicBot.valid_time_in_force tif = true
      /\ (Py.upper side = "BUY" -> PrimFloat.leb stop limit = false)
      /\ (Py.upper side = "SELL" -> PrimFloat.leb limit stop = false)
      /\ let req := mkRequest (Py.upper symbol) (Py.upper side) "STOP"
                      quantity (Some limit) (Some stop) (Some tif) in
         let reply := cl_create_order (client s)
                        (history s ++ [symbol_lookup s]) req in
         StopLimitOrders.place_stop_limit_order symbol side quantity stop
           limit tif s
         = (reply,
            with_history
              (history s ++ [symbol_lookup s; EvCreateOrder req reply]) s)).
Proof.
  destruct (String.length symbol <? 3)%nat eqn:Hlen.
  { left. exists "Invalid symbol format", []. split; [reflexivity |].
    apply bind_validate_symbol_short, Hlen. }
  apply Nat.ltb_ge in Hlen.
  destruct (BasicBot.validate_side side) as [e | v] eqn:Hside.
  { left. apply validate_side_error in Hside as He. subst e.
    eexists _, [symbol_lookup s]. split; [reflexivity |].
    unfold StopLimitOrders.place_stop_limit_order.
    rewrite bind_validate_symbol by exact Hlen.
    unfold bind, lift. rewrite Hside. reflexivity. }
  destruct (validate_side_inv side v Hside) as [-> Hv].
  destruct (PrimFloat.leb quantity 0) eqn:Hq.
  { left. eexists _, [symbol_lookup s]. split; [reflexivity |].
    unfold StopLimitOrders.place_stop_limit_order.
    rewrite bind_validate_symbol by exact Hlen.
    unfold bind, lift, BasicBot.validate_quantity.
    rewrite Hside, Hq. reflexivity. }
  destruct (PrimFloat.leb stop 0) eqn:Hs.
  { left. eexists _, [symbol_lookup s]. split; [reflexivity |].
    unfold StopLimitOrders.place_stop_limit_order.
    rewrite bind_validate_symbol by exact Hlen.
    unfold bind, lift, BasicBot.validate_quantity, BasicBot.validate_price.
    rewrite Hside, Hq, Hs. reflexivity. }
  destruct (PrimFloat.leb limit 0) eqn:Hl.
  { left. eexists _, [symbol_lookup s]. split; [reflexivity |].
    unfold StopLimitOrders.place_stop_limit_order.
    rewrite bind_validate_symbol by exact Hlen.
    unfold bind, lift, BasicBot.validate_quantity, BasicBot.validate_price.
    rewrite Hside, Hq, Hs, Hl. reflexivity. }
  destruct (BasicBot.valid_time_in_force tif) eqn:Htif.
  2:{ left. eexists _, [symbol_lookup s]. split; [reflexivity |].
      unfold StopLimitOrders.place_stop_limit_order.
      rewrite bind_validate_symbol by exact Hlen.
      unfold bind, lift, BasicBot.validate_quantity, BasicBot.validate_price.
      rewrite Hside, Hq, Hs, Hl, Htif. reflexivity. }
  destruct (String.eqb (Py.upper side) "BUY" && PrimFloat.leb stop limit)
    eqn:Hbuy.
  { left. eexists _, [symbol_lookup s]. split; [reflexivity |].
    unfold StopLimitOrders.place_stop_limit_order.
    rewrite bind_validate_symbol by exact Hlen.
    unfold bind, lift, BasicBot.validate_quantity, BasicBot.validate_price.
    rewrite Hside, Hq, Hs, Hl, Htif. cbn [negb Py.ret].
    rewrite Hbuy. reflexivity. }
  destruct (String.eqb (Py.upper side) "SELL" && PrimFloat.leb limit stop)
    eqn:Hsell.
  { left. eexists _, [symbol_lookup s]. split; [reflexivity |].
    unfold StopLimitOrders.place_stop_limit_order.
    rewrite bind_validate_symbol by exact Hlen.
    unfold bind, lift, BasicBot.validate_quantity, BasicBot.validate_price.
    rewrite Hside, Hq, Hs, Hl, Htif. cbn [negb Py.ret].
    rewrite Hbuy, Hsell. reflexivity. }
  right. repeat (split; [assumption || reflexivity |]).
  split.
  { intros Hb. rewrite Hb in Hbuy. exact Hbuy. }
  split.
  { intros Hb. rewrite Hb in Hsell. exact Hsell. }
  cbv zeta.
  unfold StopLimitOrders.place_stop_limit_order.
  rewrite bind_validate_symbol by exact Hlen.
  unfold bind, lift, BasicBot.validate_quantity, BasicBot.validate_price.
  rewrite Hside, Hq, Hs, Hl, Htif. cbn [negb Py.ret].
  rewrite Hbuy, Hsell.
  rewrite create_order_raw.
  cbn [history client with_history].
  rewrite <- app_assoc. reflexivity.
Qed.

Lemma place_take_profit_limit_order_cases symbol side quantity stop limit tif s :
  (exists msg lookups,
      forallb is_symbol_lookup lookups = true
      /\ StopLimitOrders.place_take_profit_limit_order symbol side quantity
           stop limit tif s
         = (inl (Py.ValueError msg), with_history (history s ++ lookups) s))
  \/ ((3 <= String.length symbol)%nat
      /\ (Py.upper side = "BUY" \/ Py.upper side = "SELL")
      /\ PrimFloat.leb quantity 0 = false
      /\ BasicBot.valid_time_in_force tif = true
      /\ (Py.upper side = "BUY" -> PrimFloat.leb limit stop = false)
      /\ (Py.upper side = "SELL" -> PrimFloat.leb stop limit = false)
      /\ let req := mkRequest (Py.upper symbol) (Py.upper side)
                      "TAKE_PROFIT_LIMIT" quantity (Some limit) (Some stop)
                      (Some tif) in
         let reply := cl_create_order (client s)
                        (history s ++ [symbol_lookup s]) req in
         StopLimitOrders.place_take_profit_limit_order symbol side quantity
           stop limit tif s
         = (reply,
            with_history
              (history s ++ [symbol_lookup s; EvCreateOrder req reply]) s)).
Proof.
  destruct (String.length symbol <? 3)%nat eqn:Hlen.
  { left. exists "Invalid symbol format", []. split; [reflexivity |].
    apply bind_validate_symbol_short, Hlen. }
  apply Nat.ltb_ge in Hlen.
  destruct (BasicBot.validate_side side) as [e | v] eqn:Hside.
  { left. apply validate_side_error in Hside as He. subst e.
    eexists _, [symbol_lookup s]. split; [reflexivity |].
    unfold StopLimitOrders.place_take_profit_limit_order.
    rewrite bind_validate_symbol by exact Hlen.
    unfold bind, lift. rewrite Hside. reflexivity. }
  destruct (validate_side_inv side v Hside) as [-> Hv].
  destruct (PrimFloat.leb quantity 0) eqn:Hq.
  { left. eexists _, [symbol_lookup s]. split; [reflexivity |].
    unfold StopLimitOrders.place_take_profit_limit_order.
    rewrite bind_validate_symbol by exact Hlen.
    unfold bind, lift, BasicBot.validate_quantity.
    rewrite Hside, Hq. reflexivity. }
  destruct (PrimFloat.leb stop 0) eqn:Hs.
  { left. eexists _, [symbol_lookup s]. split; [reflexivity |].
    unfold StopLimitOrders.place_take_profit_limit_order.
    rewrite bind_validate_symbol by exact Hlen.
    unfold bind, lift, BasicBot.validate_quantity, BasicBot.validate_price.
    rewrite Hside, Hq, Hs. reflexivity. }
  destruct (PrimFloat.leb limit 0) eqn:Hl.
  { left. eexists _, [symbol_lookup s]. split; [reflexivity |].
    unfold StopLimitOrders.place_take_profit_limit_order.
    rewrite bind_validate_symbol by exact Hlen.
    unfold bind, lift, BasicBot.validate_quantity, BasicBot.validate_price.
    rewrite Hside, Hq, Hs, Hl. reflexivity. }
  destruct (BasicBot.valid_time_in_force tif) eqn:Htif.
  2:{ left. eexists _, [symbol_lookup s]. split; [reflexivity |].
      unfold StopLimitOrders.place_take_profit_limit_order.
      rewrite bind_validate_symbol by exact Hlen.
      unfold bind, lift, BasicBot.validate_quantity, BasicBot.validate_price.
      rewrite Hside, Hq, Hs, Hl, Htif. reflexivity. }
  destruct (String.eqb (Py.upper side) "BUY" && PrimFloat.leb limit stop)
    eqn:Hbuy.
  { left. eexists _, [symbol_lookup s]. split; [reflexivity |].
    unfold StopLimitOrders.place_take_profit_limit_order.
    rewrite bind_validate_symbol by exact Hlen.
    unfold bind, lift, BasicBot.validate_quantity, BasicBot.validate_price.
    rewrite Hside, Hq, Hs, Hl, Htif. cbn [negb Py.ret].
    rewrite Hbuy. reflexivity. }
  destruct (String.eqb (Py.upper side) "SELL" && PrimFloat.leb stop limit)
    eqn:Hsell.
  { left. eexists _, [symbol_lookup s]. split; [reflexivity |].
    unfold StopLimitOrders.place_take_profit_limit_order.
    rewrite bind_validate_symbol by exact Hlen.
    unfold bind, lift, BasicBot.validate_quantity, BasicBot.validate_price.
    rewrite Hside, Hq, Hs, Hl, Htif. cbn [negb Py.ret].
    rewrite Hbuy, Hsell. reflexivity. }
  right. repeat (split; [assumption || reflexivity |]).
  split.
  { intros Hb. rewrite Hb in Hbuy. exact Hbuy. }
  split.
  { intros Hb. rewrite Hb in Hsell. exact Hsell. }
  cbv zeta.
  unfold StopLimitOrders.place_take_profit_limit_order.
  rewrite bind_validate_symbol by exact Hlen.
  unfold bind, lift, BasicBot.validate_quantity, BasicBot.validate_price.
  rewrite Hside, Hq, Hs, Hl, Htif. cbn [negb Py.ret].
  rewrite Hbuy, Hsell.
  rewrite create_order_raw.
  cbn [history client with_history].
  rewrite <- app_assoc. reflexivity.
Qed.

(** X6.  [place_stop_limit_order] sends at most one request, a STOP order
    that passed the checks and whose stop price is on the right side of
    its limit price: not [<=] it for a BUY, not [>=] it for a SELL.  A call
    that fails a check raises [ValueError] and sends nothing. *)
Theorem place_stop_limit_order_direction :
  forall (symbol side : string) (quantity stop_price limit_price : float)
         (tif : string) (s : State),
    let r := StopLimitOrders.place_stop_limit_order symbol side quantity
               stop_price limit_price tif s in
    let req := mkRequest (Py.upper symbol) (Py.upper side) "STOP" quantity
                 (Some limit_price) (Some stop_price) (Some tif) in
    (order_requests (history (snd r)) = order_requests (history s)
     /\ exists msg, fst r = inl (Py.ValueError msg))
    \/ (order_requests (history (snd r)) = order_requests (history s) ++ [req]
        /\ checked_request req
        /\ (req_side req = "BUY"
            /\ PrimFloat.leb stop_price limit_price = false
            \/ req_side req = "SELL"
               /\ PrimFloat.leb limit_price stop_price = false)
        /\ fst r = cl_create_order (client s) (history s ++ [symbol_lookup s]) req).
Proof.
  intros symbol side quantity stop limit tif s r req. subst r.
  destruct (place_stop_limit_order_cases symbol side quantity stop limit tif s)
    as [(msg & lookups & Hl & ->)
       | (Hlen & Hside & Hq & Htif & Hbuy & Hsell & ->)].
  - left. cbn [fst snd]. rewrite with_history_history, order_requests_app,
      (order_requests_lookups _ Hl), app_nil_r.
    split; [reflexivity | eauto].
  - right. cbn [fst snd]. rewrite with_history_history, order_requests_app.
    split; [reflexivity |].
    split.
    { unfold checked_request. subst req.
      cbn [req_symbol req_side req_quantity].
      rewrite upper_length. auto. }
    split; [| reflexivity].
    subst req. cbn [req_side]. destruct Hside as [Hb | Hs]; auto.
Qed.

(** X7.  The checks of [place_stop_limit_order] and of
    [place_take_profit_limit_order] on the two prices are opposite: for
    prices that are numbers, no call is let through by both, so at least
    one of the two sends nothing. *)
Theorem stop_limit_and_take_profit_limit_exclusive :
  forall (symbol side : string) (quantity stop_price limit_price : float)
         (tif : string) (s s' : State),
    PrimFloat.is_nan stop_price = false ->
    PrimFloat.is_nan limit_price = false ->
    let r := StopLimitOrders.place_stop_limit_order symbol side quantity
               stop_price limit_price tif s in
    let r' := StopLimitOrders.place_take_profit_limit_order symbol side
                quantity stop_price limit_price tif s' in
    (order_requests (history (snd r)) = order_requests (history s)
     /\ exists msg, fst r = inl (Py.ValueError msg))
    \/ (order_requests (history (snd r')) = order_requests (history s')
        /\ exists msg, fst r' = inl (Py.ValueError msg)).
Proof.
  intros symbol side quantity stop limit tif s s' Hns Hnl r r'. subst r r'.
  destruct (place_stop_limit_order_cases symbol side quantity stop limit tif s)
    as [(msg & lookups & Hl & ->)
       | (Hlen & Hside & Hq & Htif & Hbuy & Hsell & _)].
  { left. cbn [fst snd]. rewrite with_history_history, order_requests_app,
      (order_requests_lookups _ Hl), app_nil_r.
    split; [reflexivity | eauto]. }
  destruct (place_take_profit_limit_order_cases symbol side quantity stop
              limit tif s')
    as [(msg & lookups & Hl & ->)
       | (_ & _ & _ & _ & Hbuy' & Hsell' & _)].
  { right. cbn [fst snd]. rewrite with_history_history, order_requests_app,
      (order_requests_lookups _ Hl), app_nil_r.
    split; [reflexivity | eauto]. }
  exfalso. destruct Hside as [Hb | Hs].
  - specialize (Hbuy Hb). specialize (Hbuy' Hb).
    pose proof (leb_total _ _ Hns Hnl Hbuy). congruence.
  - specialize (Hsell Hs). specialize (Hsell' Hs).
    pose proof (leb_total _ _ Hnl Hns Hsell). congruence.
Qed.

Lemma stop_limit_and_take_profit_limit_exclusive_witness :
  let s := Sim.start (fun _ => true) (fun _ => Some "NEW") 1700000000.5 in
  let r := StopLimitOrders.place_stop_limit_order "BTCUSDT" "BUY" 1 110 100
             "GTC" s in
  let r' := StopLimitOrders.place_take_profit_limit_order "BTCUSDT" "BUY" 1
              110 100 "GTC" s in
  (PrimFloat.is_nan 110 = false /\ PrimFloat.is_nan 100 = false)
  /\ fst r = inr (mkOrder 1000 "NEW" None)
  /\ order_requests (history (snd r')) = order_requests (history s)
  /\ exists msg, fst r' = inl (Py.ValueError msg).
Proof.
  intros s r r'.
  split; [split; reflexivity |].
  split; [reflexivity |].
  destruct (stop_limit_and_take_profit_limit_exclusive "BTCUSDT" "BUY" 1 110
              100 "GTC" s s eq_refl eq_refl) as [[_ [msg H]] | H].
  - vm_compute in H. discriminate.
  - exact H.
Defined.

(* ===================================================================== *)
(** ** Further properties: the grid engine                                *)
(* ===================================================================== *)

Lemma map_result_Forall2 {X Y} (f : X -> Py.result Y) xs :
  forall ys,
    map_result f xs = inr ys -> Forall2 (fun x y => f x = inr y) xs ys.
Proof.
  induction xs as [| x xs IH]; intros ys H.
  - cbn in H. injection H as <-. constructor.
  - cbn [map_result] in H. unfold Py.bind in H.
    destruct (f x) as [e | y] eqn:Hy; [discriminate |].
    destruct (map_result f xs) as [e | ys'] eqn:Hys; [discriminate |].
    injection H as <-. constructor; [exact Hy | apply IH; reflexivity].
Qed.

Section GridCreationCases.

Variable math_log : float -> Py.result float.
Variable math_exp : float -> Py.result float.

Lemma make_levels_shape grid_type side q lower step n xs :
  forall levels,
    map_result (GridOrders.make_level math_exp grid_type side q lower step n)
               xs = inr levels ->
    map level levels = map (fun i => i + 1) xs
    /\ map level_quantity levels = map (fun _ => q) xs
    /\ List.length levels = List.length xs.
Proof.
  intros levels H. apply map_result_Forall2 in H.
  induction H as [| x y xs ys Hxy _ IH]; [repeat split |].
  destruct IH as (IH1 & IH2 & IH3).
  unfold GridOrders.make_level, Py.bind in Hxy.
  destruct (GridOrders.level_raw_price _ _ _ _ _); [discriminate |].
  injection Hxy as <-. cbn. rewrite IH1, IH2, IH3. repeat split.
Qed.

(** Every way a call of [create_grid_strategy] can end: with an error
    after at most one lookup, or with the grid registered as CONFIGURED,
    with no order on record. *)
Lemma create_grid_strategy_cases symbol side quantity_per_order lower_price
  upper_price num_orders grid_type price_step s res s' :
  GridOrders.create_grid_strategy math_log math_exp symbol side
    quantity_per_order lower_price upper_price num_orders grid_type
    price_step s = (res, s') ->
  exists lookups,
    forallb is_symbol_lookup lookups = true
    /\ ((exists e, res = inl e /\ s' = with_history (history s ++ lookups) s)
        \/ (exists step levels,
              res = inr (GridOrders.mkCreated (grid_id_of symbol s)
                           (Py.upper symbol) (Py.upper side) num_orders
                           levels "CONFIGURED")
              /\ s' = with_grids
                        (dict_set (grid_id_of symbol s)
                           (mkGrid (Py.upper symbol) (Py.upper side)
                                   quantity_per_order lower_price upper_price
                                   num_orders grid_type step levels
                                   "CONFIGURED" [] [] (clock s))
                           (active_grids s))
                        (with_history (history s ++ lookups) s)
              /\ map level levels = map (fun i => i + 1) (range num_orders)
              /\ List.length levels = Z.to_nat num_orders
              /\ 0 < num_orders
              /\ (3 <= String.length symbol)%nat
              /\ PrimFloat.leb upper_price lower_price = false)).
Proof.
  unfold GridOrders.create_grid_strategy.
  destruct (String.length symbol <? 3)%nat eqn:Hlen.
  { rewrite bind_validate_symbol_short by exact Hlen.
    intros [= <- <-]. exists []. split; [reflexivity |]. left. eauto. }
  apply Nat.ltb_ge in Hlen. rewrite bind_validate_symbol by exact Hlen.
  exists [symbol_lookup s]. split; [reflexivity |]. revert H.
  unfold bind, lift, raise, now, gets, modify, ret.
  destruct (BasicBot.validate_side side) as [e | v] eqn:Hside;
    [intros [= <- <-]; left; eauto |].
  destruct (validate_side_inv side v Hside) as [-> _].
  destruct (BasicBot.validate_quantity quantity_per_order) as [e | q'] eqn:Hq;
    [intros [= <- <-]; left; eauto |].
  assert (q' = quantity_per_order) as ->.
  { unfold BasicBot.validate_quantity in Hq.
    destruct (PrimFloat.leb _ _); [discriminate | now injection Hq]. }
  destruct (BasicBot.validate_price lower_price) as [e | lo'] eqn:Hlo;
    [intros [= <- <-]; left; eauto |].
  assert (lo' = lower_price) as ->.
  { unfold BasicBot.validate_price in Hlo.
    destruct (PrimFloat.leb _ _); [discriminate | now injection Hlo]. }
  destruct (BasicBot.validate_price upper_price) as [e | up'] eqn:Hup;
    [intros [= <- <-]; left; eauto |].
  assert (up' = upper_price) as ->.
  { unfold BasicBot.validate_price in Hup.
    destruct (PrimFloat.leb _ _); [discriminate | now injection Hup]. }
  destruct (PrimFloat.leb upper_price lower_price) eqn:Hlt;
    [intros [= <- <-]; left; eauto |].
  destruct (Z.leb_spec num_orders 0) as [Hn | Hn];
    [intros [= <- <-]; left; eauto |].
  destruct (negb _); [intros [= <- <-]; left; eauto |].
  destruct (match price_step with Some _ => _ | None => _ end) as [e | step];
    [intros [= <- <-]; left; eauto |].
  destruct (map_result _ _) as [e | levels] eqn:Hlevels;
    [intros [= <- <-]; left; eauto |].
  intros [= <- <-]. right. exists step, levels.
  apply make_levels_shape in Hlevels as (Hl1 & _ & Hl3).
  rewrite range_length in Hl3.
  repeat split; assumption.
Qed.

(** X8.  [create_grid_strategy] only configures: whatever its arguments,
    it sends no order to the exchange and touches nothing but the grid
    registry; when it raises the registry is as before, and when it
    returns the grid is registered under the returned id as CONFIGURED,
    with one level per order, numbered from 1, and no order on record. *)
Theorem create_grid_strategy_only_configures :
  forall (symbol side : string)
         (quantity_per_order lower_price upper_price : float)
         (num_orders : Z) (grid_type : string) (price_step : option float)
         (s : State),
    let r := GridOrders.create_grid_strategy math_log math_exp symbol side
               quantity_per_order lower_price upper_price num_orders
               grid_type price_step s in
    order_requests (history (snd r)) = order_requests (history s)
    /\ same_but_grids s (snd r)
    /\ match fst r with
       | inl _ => active_grids (snd r) = active_grids s
       | inr created =>
           exists g,
             active_grids (snd r)
             = dict_set (GridOrders.cr_grid_id created) g (active_grids s)
             /\ grid_status g = "CONFIGURED"
             /\ placed_orders g = [] /\ filled_orders g = []
             /\ grid_levels g = GridOrders.cr_grid_levels created
             /\ map level (grid_levels g)
                = map (fun i => i + 1) (range num_orders)
       end.
Proof.
  intros symbol side q lo up n ty ps s r. subst r.
  destruct (GridOrders.create_grid_strategy _ _ _ _ _ _ _ _ _ _ s)
    as [res s'] eqn:Hrun.
  apply create_grid_strategy_cases in Hrun as (lookups & Hl & Hcases).
  destruct Hcases as [(e & -> & ->) | (step & levels & -> & -> & Hlv & _)].
  - cbn [fst snd]. rewrite with_history_history, order_requests_app,
      (order_requests_lookups _ Hl), app_nil_r.
    split; [reflexivity |]. split; [repeat split | reflexivity].
  - cbn [fst snd]. split.
    { cbn [history with_grids with_history]. rewrite order_requests_app,
        (order_requests_lookups _ Hl), app_nil_r. reflexivity. }
    split; [repeat split |].
    eexists. split; [reflexivity |]. cbn. repeat split. exact Hlv.
Qed.

Lemma dict_set_length_same {V} k (v v' : V) d :
  dict_get k d = Some v ->
  List.length (dict_set k v' d) = List.length d.
Proof.
  induction d as [| [k0 v0] d IH]; simpl; [discriminate |].
  destruct (String.eqb k k0); simpl; [reflexivity |].
  intros H. now rewrite IH.
Qed.

(** X9.  The id of a grid has the precision of a second.  When a grid is
    created for the same symbol (in any letter case) while the clock
    still shows the second in which an earlier grid was created, and that
    earlier grid is still registered, the new grid gets the same id and
    takes the place of the earlier one in the registry, which gets no new
    entry: the earlier grid is no longer on record, and the record found
    under the id has the new levels and no placed order. *)
Theorem create_grid_strategy_same_second_overwrites :
  forall (symbol1 side1 : string) (q1 lo1 up1 : float) (n1 : Z)
         (ty1 : string) (ps1 : option float)
         (symbol2 side2 : string) (q2 lo2 up2 : float) (n2 : Z)
         (ty2 : string) (ps2 : option float)
         (s s1 later s2 : State) (c1 c2 : GridOrders.Created) (g1 : GridData),
    GridOrders.create_grid_strategy math_log math_exp symbol1 side1 q1 lo1
      up1 n1 ty1 ps1 s = (inr c1, s1) ->
    dict_get (GridOrders.cr_grid_id c1) (active_grids later) = Some g1 ->
    Py.int_of_float (clock later) = Py.int_of_float (clock s) ->
    GridOrders.create_grid_strategy math_log math_exp symbol2 side2 q2 lo2
      up2 n2 ty2 ps2 later = (inr c2, s2) ->
    Py.upper symbol1 = Py.upper symbol2 ->
    GridOrders.cr_grid_id c2 = GridOrders.cr_grid_id c1
    /\ exists g2,
         active_grids s2
         = dict_set (GridOrders.cr_grid_id c1) g2 (active_grids later)
         /\ dict_get (GridOrders.cr_grid_id c1) (active_grids s2) = Some g2
         /\ grid_levels g2 = GridOrders.cr_grid_levels c2
         /\ placed_orders g2 = []
         /\ grid_created_time g2 = clock later
         /\ List.length (active_grids s2) = List.length (active_grids later).
Proof.
  intros symbol1 side1 q1 lo1 up1 n1 ty1 ps1 symbol2 side2 q2 lo2 up2 n2 ty2
    ps2 s s1 later s2 c1 c2 g1 H1 Hstill Hsec H2 Hsym.
  apply create_grid_strategy_cases in H1 as (l1 & _ & Hc1).
  destruct Hc1 as [(e & He & _) | (st1 & lv1 & [= ->] & _)];
    [discriminate |].
  apply create_grid_strategy_cases in H2 as (l2 & _ & Hc2).
  destruct Hc2 as [(e & He & _) | (st2 & lv2 & [= ->] & -> & _)];
    [discriminate |].
  cbn [GridOrders.cr_grid_id GridOrders.cr_grid_levels] in *.
  assert (Hid : grid_id_of symbol2 later = grid_id_of symbol1 s).
  { unfold grid_id_of. rewrite Hsec, Hsym. reflexivity. }
  rewrite Hid. split; [reflexivity |].
  eexists. cbn [active_grids with_grids with_history].
  split; [reflexivity |].
  split; [apply dict_get_set_same |].
  split; [reflexivity |]. split; [reflexivity |]. split; [reflexivity |].
  apply (dict_set_length_same _ g1). exact Hstill.
Qed.

End GridCreationCases.

(** Two grids for BTCUSDT made four tenths of a second apart, within the
    second 1700000000: one entry is left in the registry, the second
    grid. *)
Lemma create_grid_strategy_same_second_overwrites_witness :
  let s := Sim.start (fun _ => true) (fun _ => Some "NEW") 1700000000.5 in
  let r1 := GridOrders.create_grid_strategy Sim.no_log Sim.no_log
              "BTCUSDT" "BUY" 0.01 95 105 5 "LINEAR" None s in
  let later := with_clock 1700000000.9 (snd r1) in
  let r2 := GridOrders.create_grid_strategy Sim.no_log Sim.no_log
              "btcusdt" "SELL" 0.5 100 200 3 "LINEAR" None later in
  exists c1 c2 g1,
    fst r1 = inr c1 /\ fst r2 = inr c2
    /\ dict_get (GridOrders.cr_grid_id c1) (active_grids later) = Some g1
    /\ Py.int_of_float (clock later) = Py.int_of_float (clock s)
    /\ GridOrders.cr_grid_id c2 = GridOrders.cr_grid_id c1
    /\ List.length (active_grids (snd r2)) = 1%nat
    /\ exists g2,
         dict_get (GridOrders.cr_grid_id c1) (active_grids (snd r2)) = Some g2
         /\ List.length (grid_levels g1) = 5%nat
         /\ List.length (grid_levels g2) = 3%nat.
Proof.
  intros s r1 later r2.
  assert (H : exists c1 s1 c2 s2 g1,
             r1 = (inr c1, s1)
             /\ r2 = (inr c2, s2)
             /\ dict_get (GridOrders.cr_grid_id c1) (active_grids later)
                = Some g1
             /\ List.length (grid_levels g1) = 5%nat
             /\ List.length (GridOrders.cr_grid_levels c2) = 3%nat).
  { do 5 eexists.
    split; [vm_compute; reflexivity |].
    split; [vm_compute; reflexivity |].
    split; [vm_compute; reflexivity |].
    split; [vm_compute; reflexivity | vm_compute; reflexivity]. }
  destruct H as (c1 & s1 & c2 & s2 & g1 & H1 & H2 & Hg1 & Hl1 & Hl2).
  assert (Hsec : Py.int_of_float (clock later) = Py.int_of_float (clock s))
    by (vm_compute; reflexivity).
  destruct (create_grid_strategy_same_second_overwrites Sim.no_log Sim.no_log
              "BTCUSDT" "BUY" 0.01 95 105 5 "LINEAR" None
              "btcusdt" "SELL" 0.5 100 200 3 "LINEAR" None
              s s1 later s2 c1 c2 g1 H1 Hg1 Hsec H2 eq_refl)
    as (Hid & g2 & Hreg & Hg2 & Hlv & _ & _ & Hlen).
  exists c1, c2, g1. rewrite H1, H2. cbn [fst snd].
  split; [reflexivity |]. split; [reflexivity |].
  split; [exact Hg1 |]. split; [exact Hsec |]. split; [exact Hid |].
  split; [rewrite Hlen; vm_compute; reflexivity |].
  exists g2. split; [exact Hg2 |]. split; [exact Hl1 |].
  rewrite Hlv. exact Hl2.
Defined.

(** *** What the exchange sees of a grid *)

Lemma accepted_orders_app h1 h2 :
  accepted_orders (h1 ++ h2) = accepted_orders h1 ++ accepted_orders h2.
Proof. apply flat_map_app. Qed.

Lemma cancel_requests_app h1 h2 :
  cancel_requests (h1 ++ h2) = cancel_requests h1 ++ cancel_requests h2.
Proof. apply flat_map_app. Qed.

Lemma status_queries_app h1 h2 :
  status_queries (h1 ++ h2) = status_queries h1 ++ status_queries h2.
Proof. apply flat_map_app. Qed.

Lemma answered_queries_app h1 h2 :
  answered_queries (h1 ++ h2) = answered_queries h1 ++ answered_queries h2.
Proof. apply flat_map_app. Qed.

Lemma lookups_are_silent l :
  forallb is_symbol_lookup l = true ->
  order_requests l = [] /\ accepted_orders l = []
  /\ cancel_requests l = [] /\ status_queries l = [].
Proof.
  induction l as [| ev l IH]; [repeat split |].
  cbn [forallb]. intros H. apply andb_true_iff in H as [Hev Hl].
  destruct ev; try discriminate. cbn. auto.
Qed.

(** One turn of the placement loop, with what it says to the exchange. *)
Lemma place_level_trace grid_id symbol placed failed lv s g :
  dict_get grid_id (active_grids s) = Some g ->
  exists placed_now failed_now s' new,
    GridOrders.place_level grid_id symbol (placed, failed) lv s
    = (inr (placed ++ placed_now, failed ++ failed_now), s')
    /\ history s' = history s ++ new
    /\ dict_get grid_id (active_grids s') = Some (extend_placed placed_now g)
    /\ order_requests new
       = (if level_passes_checks symbol lv
          then [level_request symbol lv] else [])
    /\ accepted_orders new = map oi_order placed_now
    /\ cancel_requests new = []
    /\ status_queries new = []
    /\ (List.length placed_now + List.length failed_now = 1)%nat.
Proof.
  intros Hg. unfold GridOrders.place_level, try_except, bind,
    level_passes_checks.
  destruct (place_limit_order_cases symbol (level_side lv) (level_quantity lv)
              (level_price lv) "GTC" s)
    as [(-> & msg & lookups & Hl & ->) | (-> & _ & _ & _ & _ & _ & Heq)].
  - destruct (lookups_are_silent _ Hl) as (H1 & H2 & H3 & H4).
    eexists [], [_], _, lookups. rewrite app_nil_r.
    split; [unfold now, gets, ret; reflexivity |].
    split; [reflexivity |].
    split; [rewrite extend_placed_nil; exact Hg |]. repeat split; auto.
  - cbv zeta in Heq. rewrite Heq. clear Heq.
    destruct (cl_create_order _ _ _) as [e | order].
    + eexists [], [_], _, [symbol_lookup s; EvCreateOrder _ (inl e)].
      rewrite app_nil_r.
      split; [unfold now, gets, ret; reflexivity |].
      split; [reflexivity |].
      split; [rewrite extend_placed_nil; exact Hg |].
      repeat split.
    + unfold now, gets, ret, GridOrders.update_grid, modify, sleep.
      cbn [active_grids with_history]. rewrite Hg.
      eexists [_], [], _, [symbol_lookup s; EvCreateOrder _ (inr order)].
      rewrite app_nil_r.
      split; [reflexivity |].
      split; [reflexivity |].
      split; [cbn [active_grids with_grids with_clock];
              apply dict_get_set_same |].
      repeat split.
Qed.

Lemma place_levels_trace grid_id symbol levels :
  forall placed failed s g,
    dict_get grid_id (active_grids s) = Some g ->
    exists placed' failed' s' new,
      for_fold (GridOrders.place_level grid_id symbol) (placed, failed) levels s
      = (inr (placed ++ placed', failed ++ failed'), s')
      /\ history s' = history s ++ new
      /\ dict_get grid_id (active_grids s') = Some (extend_placed placed' g)
      /\ order_requests new
         = map (level_request symbol)
               (filter (level_passes_checks symbol) levels)
      /\ accepted_orders new = map oi_order placed'
      /\ cancel_requests new = []
      /\ status_queries new = []
      /\ (List.length placed' + List.length failed' = List.length levels)%nat.
Proof.
  induction levels as [| lv levels IH]; intros placed failed s g Hg.
  - exists [], [], s, []. cbn. rewrite !app_nil_r, extend_placed_nil.
    repeat split. exact Hg.
  - cbn [for_fold]. unfold bind at 1.
    destruct (place_level_trace grid_id symbol placed failed lv s g Hg)
      as (p1 & f1 & s1 & new1 & -> & Hh1 & Hg1 & Hr1 & Ha1 & Hc1 & Hq1 & Hn1).
    destruct (IH (placed ++ p1) (failed ++ f1) s1 _ Hg1)
      as (p2 & f2 & s2 & new2 & -> & Hh2 & Hg2 & Hr2 & Ha2 & Hc2 & Hq2 & Hn2).
    exists (p1 ++ p2), (f1 ++ f2), s2, (new1 ++ new2).
    rewrite <- !app_assoc.
    split; [reflexivity |].
    split; [rewrite Hh2, Hh1, <- app_assoc; reflexivity |].
    split.
    { rewrite Hg2. f_equal. unfold extend_placed. cbn.
      rewrite <- app_assoc. reflexivity. }
    rewrite order_requests_app, accepted_orders_app, cancel_requests_app,
      status_queries_app, Hr1, Hr2, Ha1, Ha2, Hc1, Hc2, Hq1, Hq2, map_app.
    split.
    { cbn [filter]. destruct (level_passes_checks symbol lv); reflexivity. }
    repeat split. rewrite !length_app. cbn [List.length]. lia.
Qed.

(** The whole of [execute_grid_orders] on a registered grid. *)
Lemma execute_grid_orders_trace grid_id s g :
  dict_get grid_id (active_grids s) = Some g ->
  exists (placed : list OrderInfo) (failed : list FailedLevel) s' new,
    GridOrders.execute_grid_orders grid_id s
    = (inr (GridOrders.mkExecuted grid_id "ACTIVE"
              (Z.of_nat (List.length placed)) (Z.of_nat (List.length failed))
              placed), s')
    /\ history s' = history s ++ new
    /\ dict_get grid_id (active_grids s')
       = Some (GridOrders.set_status "ACTIVE"
                 (extend_placed placed (GridOrders.set_status "EXECUTING" g)))
    /\ order_requests new
       = map (level_request (grid_symbol g))
             (filter (level_passes_checks (grid_symbol g)) (grid_levels g))
    /\ accepted_orders new = map oi_order placed
    /\ cancel_requests new = []
    /\ status_queries new = []
    /\ (List.length placed + List.length failed
        = List.length (grid_levels g))%nat.
Proof.
  intros Hg.
  unfold GridOrders.execute_grid_orders, bind, gets, try_except.
  rewrite Hg, (update_grid_spec _ _ _ _ Hg).
  set (s0 := with_grids _ s).
  assert (Hg0 : dict_get grid_id (active_grids s0)
                = Some (GridOrders.set_status "EXECUTING" g))
    by apply dict_get_set_same.
  destruct (place_levels_trace grid_id (grid_symbol g) (grid_levels g)
              [] [] s0 _ Hg0)
    as (placed' & failed' & s' & new & -> & Hh & Hg' & Hr & Ha & Hc & Hq & Hn).
  cbn [app]. rewrite (update_grid_spec _ _ _ _ Hg').
  exists placed', failed'. do 2 eexists. split; [reflexivity |].
  cbn [history active_grids with_grids].
  split; [exact Hh |]. split; [apply dict_get_set_same |].
  repeat split; assumption.
Qed.

(** C10.  [execute_grid_orders] looks at the registry only to find the
    grid: whatever the grid's status when it is called, it runs the whole
    placement loop once more, asking the exchange for a limit order at
    every level that passes the checks of [place_limit_order], in the
    order of the levels; it appends the new placements, which are the
    orders the exchange accepted, after the ones already in
    [placed_orders], and leaves the status ACTIVE.  Run twice on the grid
    of the example, it requests and places each of the five levels twice;
    run once more after the grid was cancelled, it places them a third
    time and makes the grid ACTIVE again. *)
Theorem execute_grid_orders_ignores_status :
  (forall (grid_id : string) (s : State) (g : GridData),
      dict_get grid_id (active_grids s) = Some g ->
      exists report s' g',
        GridOrders.execute_grid_orders grid_id s = (inr report, s')
        /\ dict_get grid_id (active_grids s') = Some g'
        /\ grid_status g' = "ACTIVE"
        /\ GridOrders.er_status report = "ACTIVE"
        /\ placed_orders g' = placed_orders g ++ GridOrders.er_orders report
        /\ GridOrders.er_placed_orders report
           = Z.of_nat (List.length (GridOrders.er_orders report))
        /\ GridOrders.er_placed_orders report + GridOrders.er_failed_orders report
           = Z.of_nat (List.length (grid_levels g))
        /\ incl (map oi_grid_level (GridOrders.er_orders report))
                (map level (grid_levels g))
        /\ grid_levels g' = grid_levels g
        /\ order_requests (history s')
           = order_requests (history s)
             ++ map (level_request (grid_symbol g))
                    (filter (level_passes_checks (grid_symbol g))
                            (grid_levels g))
        /\ accepted_orders (history s')
           = accepted_orders (history s)
             ++ map oi_order (GridOrders.er_orders report))
  /\ (let s := Sim.start (fun _ => true) (fun _ => Some "NEW") 1700000000.5 in
      let grid_id := "GRID_BTCUSDT_1700000000" in
      let s1 := snd (GridOrders.create_grid_strategy Sim.no_log Sim.no_log
                       "BTCUSDT" "BUY" 0.01 95 105 5 "LINEAR" None s) in
      let s2 := snd (GridOrders.execute_grid_orders grid_id s1) in
      let s3 := snd (GridOrders.execute_grid_orders grid_id s2) in
      let s4 := snd (GridOrders.cancel_grid_orders grid_id s3) in
      let s5 := snd (GridOrders.execute_grid_orders grid_id s4) in
      let placed_levels s :=
        option_map (fun g => (grid_status g, map oi_grid_level (placed_orders g)))
                   (dict_get grid_id (active_grids s)) in
      let requested s := map req_price (order_requests (history s)) in
      placed_levels s1 = Some ("CONFIGURED", [])
      /\ placed_levels s2 = Some ("ACTIVE", [1; 2; 3; 4; 5])
      /\ placed_levels s3 = Some ("ACTIVE", [1; 2; 3; 4; 5; 1; 2; 3; 4; 5])
      /\ placed_levels s4 = Some ("CANCELED", [1; 2; 3; 4; 5; 1; 2; 3; 4; 5])
      /\ placed_levels s5
         = Some ("ACTIVE", [1; 2; 3; 4; 5; 1; 2; 3; 4; 5; 1; 2; 3; 4; 5])
      /\ requested s1 = []
      /\ requested s2 = [Some 95; Some 97.5; Some 100; Some 102.5; Some 105]%float
      /\ requested s3 = (requested s2 ++ requested s2)
      /\ requested s5 = (requested s3 ++ requested s2)).
Proof.
  split.
  - intros grid_id s g Hg.
    destruct (place_levels_spec grid_id (grid_symbol g) (grid_levels g) [] []
                (with_grids
                   (dict_set grid_id (GridOrders.set_status "EXECUTING" g)
                             (active_grids s)) s)
                _ (dict_get_set_same _ _ _))
      as (placed0 & failed0 & s0 & Hloop0 & _ & _ & Hincl).
    destruct (execute_grid_orders_trace grid_id s g Hg)
      as (placed & failed & s' & new & Hrun & Hh & Hg' & Hr & Ha & _ & _ & Hn).
    assert (Hsame : placed0 = placed).
    { revert Hrun.
      unfold GridOrders.execute_grid_orders, bind, gets, try_except.
      rewrite Hg, (update_grid_spec _ _ _ _ Hg), Hloop0. cbn [app].
      destruct (GridOrders.update_grid grid_id _ s0) as [[e | []] s1];
        [discriminate |].
      unfold ret. intros [= _ _ Hp _]. exact Hp. }
    subst placed0.
    do 3 eexists. split; [exact Hrun |].
    split; [exact Hg' |].
    cbn [GridOrders.er_status GridOrders.er_orders GridOrders.er_placed_orders
         GridOrders.er_failed_orders grid_status placed_orders grid_levels
         GridOrders.set_status extend_placed].
    split; [reflexivity |]. split; [reflexivity |].
    split; [reflexivity |]. split; [reflexivity |].
    split; [lia |]. split; [exact Hincl |]. split; [reflexivity |].
    rewrite Hh, order_requests_app, accepted_orders_app, Hr, Ha.
    split; reflexivity.
  - cbv zeta. repeat split; vm_compute; reflexivity.
Qed.

(** A grid that is already ACTIVE is executed again, and its five levels
    are requested again. *)
Lemma execute_grid_orders_ignores_status_witness :
  let s := Sim.start (fun _ => true) (fun _ => Some "NEW") 1700000000.5 in
  let grid_id := "GRID_BTCUSDT_1700000000" in
  let s1 := snd (GridOrders.create_grid_strategy Sim.no_log Sim.no_log
                   "BTCUSDT" "BUY" 0.01 95 105 5 "LINEAR" None s) in
  let s2 := snd (GridOrders.execute_grid_orders grid_id s1) in
  option_map grid_status (dict_get grid_id (active_grids s2)) = Some "ACTIVE"
  /\ List.length (order_requests (history s2)) = 5%nat
  /\ exists report s3 g3,
       GridOrders.execute_grid_orders grid_id s2 = (inr report, s3)
       /\ dict_get grid_id (active_grids s3) = Some g3
       /\ grid_status g3 = "ACTIVE"
       /\ List.length (order_requests (history s3)) = 10%nat.
Proof.
  cbv zeta. split; [vm_compute; reflexivity |].
  split; [vm_compute; reflexivity |].
  set (s2 := snd (GridOrders.execute_grid_orders _ _)).
  destruct (dict_get "GRID_BTCUSDT_1700000000" (active_grids s2)) as [g |] eqn:Hg;
    [| vm_compute in Hg; discriminate Hg].
  destruct (proj1 execute_grid_orders_ignores_status _ s2 g Hg)
    as (report & s3 & g3 & Hrun & Hg3 & Hst & _ & _ & _ & _ & _ & _ & Hreq & _).
  exists report, s3, g3. split; [exact Hrun |]. split; [exact Hg3 |].
  split; [exact Hst |].
  rewrite Hreq, length_app, length_map.
  vm_compute in Hg. injection Hg as <-. vm_compute. reflexivity.
Defined.

(** X10.  [execute_grid_orders] asks the exchange for one limit order per
    level that passes the checks of [place_limit_order], in the order of
    the levels, and for nothing else (no cancellation, no status query);
    the orders in its report are exactly the ones the exchange accepted,
    in that order. *)
Theorem execute_grid_orders_report_matches_exchange :
  forall (grid_id : string) (s : State) (g : GridData),
    dict_get grid_id (active_grids s) = Some g ->
    exists report s',
      GridOrders.execute_grid_orders grid_id s = (inr report, s')
      /\ order_requests (history s')
         = order_requests (history s)
           ++ map (level_request (grid_symbol g))
                  (filter (level_passes_checks (grid_symbol g)) (grid_levels g))
      /\ accepted_orders (history s')
         = accepted_orders (history s)
           ++ map oi_order (GridOrders.er_orders report)
      /\ cancel_requests (history s') = cancel_requests (history s)
      /\ status_queries (history s') = status_queries (history s).
Proof.
  intros grid_id s g Hg.
  destruct (execute_grid_orders_trace grid_id s g Hg)
    as (placed & failed & s' & new & Hrun & Hh & _ & Hr & Ha & Hc & Hq & _).
  do 2 eexists. split; [exact Hrun |].
  cbn [GridOrders.er_orders]. rewrite Hh.
  rewrite order_requests_app, accepted_orders_app, cancel_requests_app,
    status_queries_app, Hr, Ha, Hc, Hq, !app_nil_r.
  repeat split.
Qed.

Lemma execute_grid_orders_report_matches_exchange_witness :
  let s := Sim.start (fun k => negb (Nat.eqb k 1)) (fun _ => Some "NEW")
             1700000000.5 in
  let grid_id := "GRID_BTCUSDT_1700000000" in
  let s1 := snd (GridOrders.create_grid_strategy Sim.no_log Sim.no_log
                   "BTCUSDT" "BUY" 0.01 95 105 3 "LINEAR" None s) in
  exists g report s',
    dict_get grid_id (active_grids s1) = Some g
    /\ GridOrders.execute_grid_orders grid_id s1 = (inr report, s')
    /\ map req_price (order_requests (history s'))
       = [Some 95; Some 100; Some 105]%float
    /\ map orderId (accepted_orders (history s')) = [1000; 1002]
    /\ map oi_grid_level (GridOrders.er_orders report) = [1; 3].
Proof.
  intros s grid_id s1.
  assert (Hg : exists g, dict_get grid_id (active_grids s1) = Some g).
  { eexists. vm_compute. reflexivity. }
  destruct Hg as [g Hg].
  destruct (execute_grid_orders_report_matches_exchange grid_id s1 g Hg)
    as (report & s' & Hrun & Hreq & Hacc & _).
  exists g, report, s'. split; [exact Hg |]. split; [exact Hrun |].
  assert (Hrun' : GridOrders.execute_grid_orders grid_id s1
                  = (inr report, s')) by exact Hrun.
  vm_compute in Hrun'. injection Hrun' as <- <-.
  repeat split; vm_compute; reflexivity.
Defined.

(** *** Cancelling a grid *)

Lemma cancel_level_trace symbol canceled failed oi s :
  let reply := cl_cancel_order (client s) (history s) symbol
                 (orderId (oi_order oi)) in
  let ev := EvCancelOrder symbol (orderId (oi_order oi)) reply in
  exists canceled' failed',
    GridOrders.cancel_level symbol (canceled, failed) oi s
    = (inr (canceled', failed'), with_history (history s ++ [ev]) s)
    /\ canceled' = canceled + Z.of_nat (List.length (canceled_ids [ev]))
    /\ canceled' + failed' = canceled + failed + 1
    /\ failed <= failed'.
Proof.
  cbv zeta.
  unfold GridOrders.cancel_level, try_except, bind, BasicBot.cancel_order,
    try_except, futures_cancel_order, raise, ret.
  destruct (cl_cancel_order _ _ _ _) as [e | o];
    cbn [canceled_ids flat_map app List.length];
    do 2 eexists; (split; [reflexivity |]); lia.
Qed.

Lemma cancel_levels_trace symbol ois :
  forall canceled failed s,
    exists new canceled' failed',
      for_fold (GridOrders.cancel_level symbol) (canceled, failed) ois s
      = (inr (canceled', failed'), with_history (history s ++ new) s)
      /\ canceled' = canceled + Z.of_nat (List.length (canceled_ids new))
      /\ canceled' + failed'
         = canceled + failed + Z.of_nat (List.length ois)
      /\ failed <= failed'
      /\ cancel_requests new = map (cancel_request_of symbol) ois
      /\ order_requests new = []
      /\ status_queries new = [].
Proof.
  induction ois as [| oi ois IH]; intros canceled failed s.
  - exists [], canceled, failed. cbn [for_fold ret].
    rewrite app_nil_r, with_history_same.
    split; [reflexivity |]. cbn. repeat split; lia.
  - cbn [for_fold]. unfold bind at 1.
    destruct (cancel_level_trace symbol canceled failed oi s)
      as (c1 & f1 & -> & Hc1 & Hs1 & Hf1).
    destruct (IH c1 f1
                (with_history
                   (history s
                    ++ [EvCancelOrder symbol (orderId (oi_order oi))
                          (cl_cancel_order (client s) (history s) symbol
                             (orderId (oi_order oi)))]) s))
      as (new & c2 & f2 & -> & Hc2 & Hs2 & Hf2 & Hq & Hr & Hst).
    eexists (_ :: new), c2, f2.
    cbn [history with_history]. rewrite with_history_twice, <- app_assoc.
    split; [reflexivity |].
    change (?ev :: new) with ([ev] ++ new).
    unfold canceled_ids in *. rewrite flat_map_app, length_app.
    split; [lia |]. split; [cbn [List.length]; lia |]. split; [lia |].
    split; [cbn; rewrite <- Hq; reflexivity |].
    split; [exact Hr | exact Hst].
Qed.

(** X11.  [cancel_grid_orders] asks the exchange to cancel every order in
    [placed_orders], in order and whatever became of it, goes on when a
    cancellation is refused, and never raises for a registered grid.  The
    grid is then CANCELED and otherwise unchanged (its [placed_orders] are
    kept); the report counts the cancellations the exchange agreed to, and
    its two counters add up to the number of placed orders. *)
Theorem cancel_grid_orders_cancels_every_placed_order :
  forall (grid_id : string) (s : State) (g : GridData),
    dict_get grid_id (active_grids s) = Some g ->
    exists report new,
      GridOrders.cancel_grid_orders grid_id s
      = (inr report,
         with_grids
           (dict_set grid_id (GridOrders.set_status "CANCELED" g)
                     (active_grids s))
           (with_history (history s ++ new) s))
      /\ cancel_requests new
         = map (cancel_request_of (grid_symbol g)) (placed_orders g)
      /\ order_requests new = []
      /\ status_queries new = []
      /\ GridOrders.cc_status report = "CANCELED"
      /\ GridOrders.cc_canceled_orders report
         = Z.of_nat (List.length (canceled_ids new))
      /\ 0 <= GridOrders.cc_failed_cancellations report
      /\ GridOrders.cc_canceled_orders report
         + GridOrders.cc_failed_cancellations report
         = Z.of_nat (List.length (placed_orders g)).
Proof.
  intros grid_id s g Hg.
  unfold GridOrders.cancel_grid_orders, bind, gets, try_except.
  rewrite Hg.
  destruct (cancel_levels_trace (grid_symbol g) (placed_orders g) 0 0 s)
    as (new & c' & f' & -> & Hc & Hs & Hf & Hq & Hr & Hst).
  rewrite (update_grid_spec _ _ _ g) by exact Hg.
  do 2 eexists. split; [reflexivity |].
  cbn [GridOrders.cc_status GridOrders.cc_canceled_orders
       GridOrders.cc_failed_cancellations].
  repeat split; try assumption; lia.
Qed.

Lemma cancel_grid_orders_cancels_every_placed_order_witness :
  let s := Sim.start (fun k => negb (Nat.eqb k 1)) (fun _ => Some "NEW")
             1700000000.5 in
  let grid_id := "GRID_BTCUSDT_1700000000" in
  let s1 := snd (GridOrders.create_grid_strategy Sim.no_log Sim.no_log
                   "BTCUSDT" "BUY" 0.01 95 105 3 "LINEAR" None s) in
  let s2 := snd (GridOrders.execute_grid_orders grid_id s1) in
  exists g report new,
    dict_get grid_id (active_grids s2) = Some g
    /\ GridOrders.cancel_grid_orders grid_id s2
       = (inr report,
          with_grids
            (dict_set grid_id (GridOrders.set_status "CANCELED" g)
                      (active_grids s2))
            (with_history (history s2 ++ new) s2))
    /\ cancel_requests new = [("BTCUSDT", 1000); ("BTCUSDT", 1002)]
    /\ GridOrders.cc_canceled_orders report = 2
    /\ GridOrders.cc_failed_cancellations report = 0.
Proof.
  intros s grid_id s1 s2.
  assert (Hg : exists g, dict_get grid_id (active_grids s2) = Some g).
  { eexists. vm_compute. reflexivity. }
  destruct Hg as [g Hg].
  destruct (cancel_grid_orders_cancels_every_placed_order grid_id s2 g Hg)
    as (report & new & Hrun & Hq & _).
  exists g, report, new. split; [exact Hg |]. split; [exact Hrun |].
  assert (Hr : fst (GridOrders.cancel_grid_orders grid_id s2) = inr report)
    by (rewrite Hrun; reflexivity).
  vm_compute in Hg. injection Hg as <-.
  vm_compute in Hr. injection Hr as <-.
  split; [rewrite Hq; vm_compute; reflexivity |].
  split; reflexivity.
Defined.

(** *** The counters of [get_grid_status] *)

Lemma count_status_app p os1 os2 :
  count_status p (os1 ++ os2) = count_status p os1 + count_status p os2.
Proof.
  unfold count_status. rewrite filter_app, length_app. lia.
Qed.

Lemma count_status_one p o :
  count_status p [o] = if p (ord_status o) then 1 else 0.
Proof.
  unfold count_status. cbn [filter]. destruct (p (ord_status o)); reflexivity.
Qed.

Lemma count_status_nil p : count_status p [] = 0.
Proof. reflexivity. Qed.

Lemma status_sorted st :
  (if is_open st then 1 else 0) + (if is_filled st then 1 else 0)
  + (if is_canceled st then 1 else 0) = 1.
Proof.
  unfold is_open, is_filled, is_canceled.
  destruct (String.eqb st "FILLED") eqn:Hf.
  - apply String.eqb_eq in Hf. subst st. reflexivity.
  - destruct (String.eqb st "CANCELED" || String.eqb st "EXPIRED");
      reflexivity.
Qed.

Lemma count_status_partition os :
  count_status is_open os + count_status is_filled os
  + count_status is_canceled os
  = Z.of_nat (List.length os).
Proof.
  induction os as [| o os IH]; [reflexivity |].
  change (o :: os) with ([o] ++ os).
  rewrite !count_status_app, !count_status_one, length_app, Nat2Z.inj_add,
    <- IH.
  pose proof (status_sorted (ord_status o)). cbn [List.length]. lia.
Qed.

(** One turn of the refresh loop, with its counters and its query. *)
Lemma refresh_order_trace grid_id active filled canceled oi s g :
  dict_get grid_id (active_grids s) = Some g ->
  let reply := cl_get_order (client s) (history s) (grid_symbol g)
                 (orderId (oi_order oi)) in
  let ev := EvGetOrder (grid_symbol g) (orderId (oi_order oi)) reply in
  exists s' l,
    GridOrders.refresh_order grid_id (grid_symbol g)
      (active, filled, canceled) oi s
    = (inr (active + count_status is_open (answered_queries [ev]),
            filled + count_status is_filled (answered_queries [ev]),
            canceled + count_status is_canceled (answered_queries [ev])),
       s')
    /\ history s' = history s ++ [ev]
    /\ dict_get grid_id (active_grids s')
       = Some (with_filled (filled_orders g ++ l) g)
    /\ incl l [oi].
Proof.
  intros Hg. cbv zeta.
  unfold GridOrders.refresh_order, try_except, bind,
    BasicBot.get_order_status, try_except, futures_get_order, raise.
  destruct (cl_get_order (client s) (history s) (grid_symbol g)
              (orderId (oi_order oi))) as [e | o].
  - exists (with_history
              (history s ++ [EvGetOrder (grid_symbol g) (orderId (oi_order oi))
                               (inl e)]) s), [].
    split.
    { unfold ret. cbn [answered_queries flat_map app].
      unfold count_status. cbn. rewrite !Z.add_0_r. reflexivity. }
    split; [reflexivity |].
    split; [| apply incl_nil_l].
    cbn [active_grids with_history]. rewrite app_nil_r, with_filled_same.
    exact Hg.
  - cbn [answered_queries flat_map app].
    unfold count_status, is_open, is_filled, is_canceled. cbn [filter].
    destruct (String.eqb (ord_status o) "FILLED") eqn:Hf.
    + assert (Hc : String.eqb (ord_status o) "CANCELED"
                   || String.eqb (ord_status o) "EXPIRED" = false).
      { apply String.eqb_eq in Hf. rewrite Hf. reflexivity. }
      rewrite Hc. cbn [negb andb List.length Z.of_nat].
      unfold gets. cbn [active_grids with_history]. rewrite Hg.
      destruct (py_in oi (filled_orders g)); cbn [negb].
      * eexists _, []. split.
        { unfold ret. rewrite !Z.add_0_r. reflexivity. }
        split; [reflexivity |]. split; [| apply incl_nil_l].
        cbn [active_grids with_history]. rewrite app_nil_r, with_filled_same.
        exact Hg.
      * unfold GridOrders.update_grid, modify, ret.
        cbn [active_grids with_history]. rewrite Hg.
        eexists _, [oi]. split.
        { rewrite !Z.add_0_r. reflexivity. }
        split; [reflexivity |]. split; [| apply incl_refl].
        cbn [active_grids with_grids]. apply dict_get_set_same.
    + cbn [negb andb].
      destruct (String.eqb (ord_status o) "CANCELED"
                || String.eqb (ord_status o) "EXPIRED");
        cbn [negb List.length Z.of_nat];
        (eexists _, []; split;
         [unfold ret; rewrite !Z.add_0_r; reflexivity |];
         split; [reflexivity |]; split; [| apply incl_nil_l];
         cbn [active_grids with_history]; rewrite app_nil_r, with_filled_same;
         exact Hg).
Qed.

Lemma with_filled_twice l l' g :
  with_filled l' (with_filled l g) = with_filled l' g.
Proof. reflexivity. Qed.

Lemma refresh_orders_trace grid_id symbol placed :
  forall active filled canceled s g,
    dict_get grid_id (active_grids s) = Some g ->
    grid_symbol g = symbol ->
    exists s' new l,
      for_fold (GridOrders.refresh_order grid_id symbol)
               (active, filled, canceled) placed s
      = (inr (active + count_status is_open (answered_queries new),
              filled + count_status is_filled (answered_queries new),
              canceled + count_status is_canceled (answered_queries new)),
         s')
      /\ history s' = history s ++ new
      /\ dict_get grid_id (active_grids s')
         = Some (with_filled (filled_orders g ++ l) g)
      /\ incl l placed
      /\ status_queries new = map (cancel_request_of symbol) placed
      /\ order_requests new = []
      /\ cancel_requests new = []
      /\ (List.length (answered_queries new) <= List.length placed)%nat.
Proof.
  induction placed as [| oi placed IH];
    intros active filled canceled s g Hg Hsym.
  - exists s, [], []. cbn [for_fold answered_queries flat_map].
    unfold count_status. cbn [filter List.length Z.of_nat].
    rewrite !Z.add_0_r, !app_nil_r, with_filled_same.
    repeat split; try assumption. apply incl_refl. lia.
  - cbn [for_fold]. unfold bind at 1. subst symbol.
    destruct (refresh_order_trace grid_id active filled canceled oi s g Hg)
      as (s1 & l1 & -> & Hh1 & Hg1 & Hl1).
    match goal with
    | |- context [for_fold _ (?a, ?f, ?c) placed s1] =>
        destruct (IH a f c s1 _ Hg1 eq_refl)
          as (s2 & new2 & l2 & -> & Hh2 & Hg2 & Hl2 & Hq2 & Hr2 & Hc2 & Hle2)
    end.
    eexists s2, (_ :: new2), (l1 ++ l2).
    split.
    { change (?ev :: new2) with ([ev] ++ new2).
      rewrite answered_queries_app, !count_status_app, !Z.add_assoc.
      reflexivity. }
    split; [rewrite Hh2, Hh1, <- app_assoc; reflexivity |].
    split.
    { rewrite Hg2. cbn [filled_orders with_filled].
      rewrite with_filled_twice, <- app_assoc. reflexivity. }
    split.
    { intros x Hx. apply in_app_or in Hx as [Hx | Hx].
      - apply Hl1 in Hx. destruct Hx as [<- | []]. now left.
      - right. now apply Hl2. }
    split; [cbn; rewrite <- Hq2; reflexivity |].
    split; [exact Hr2 |]. split; [exact Hc2 |].
    change (?ev :: new2) with ([ev] ++ new2).
    rewrite answered_queries_app, length_app.
    destruct (cl_get_order _ _ _ _); cbn; lia.
Qed.

(** X12.  [get_grid_status] asks the exchange for the status of every
    placed order, in order, and for nothing else.  Its counters sort the
    answers it got: FILLED ones, CANCELED or EXPIRED ones, and all the
    others as active; an order whose query fails is counted nowhere, so
    the three add up to the number of answers.  The grid keeps its
    status, which the report repeats, and its placed orders; its filled
    list only grows, by placed orders. *)
Theorem get_grid_status_counts_answers :
  forall (grid_id : string) (s : State) (g : GridData),
    dict_get grid_id (active_grids s) = Some g ->
    exists report s' new l,
      GridOrders.get_grid_status grid_id s = (inr report, s')
      /\ history s' = history s ++ new
      /\ status_queries new
         = map (cancel_request_of (grid_symbol g)) (placed_orders g)
      /\ order_requests new = []
      /\ cancel_requests new = []
      /\ GridOrders.sr_active_orders report
         = count_status is_open (answered_queries new)
      /\ GridOrders.sr_filled_orders report
         = count_status is_filled (answered_queries new)
      /\ GridOrders.sr_canceled_orders report
         = count_status is_canceled (answered_queries new)
      /\ GridOrders.sr_active_orders report
         + GridOrders.sr_filled_orders report
         + GridOrders.sr_canceled_orders report
         = Z.of_nat (List.length (answered_queries new))
      /\ (List.length (answered_queries new)
          <= List.length (placed_orders g))%nat
      /\ GridOrders.sr_status report = grid_status g
      /\ dict_get grid_id (active_grids s')
         = Some (with_filled (filled_orders g ++ l) g)
      /\ incl l (placed_orders g).
Proof.
  intros grid_id s g Hg.
  unfold GridOrders.get_grid_status, bind, gets. rewrite Hg.
  destruct (refresh_orders_trace grid_id (grid_symbol g) (placed_orders g)
              0 0 0 s g Hg eq_refl)
    as (s' & new & l & -> & Hh & Hg' & Hl & Hq & Hr & Hc & Hle).
  rewrite Hg'. eexists _, s', new, l.
  split; [reflexivity |].
  cbn [GridOrders.sr_active_orders GridOrders.sr_filled_orders
       GridOrders.sr_canceled_orders GridOrders.sr_status].
  rewrite !Z.add_0_l, count_status_partition.
  repeat split; assumption.
Qed.

Lemma get_grid_status_counts_answers_witness :
  let s := Sim.start (fun _ => true)
             (fun id => if id =? 1000 then Some "FILLED"
                        else if id =? 1001 then Some "REJECTED"
                        else if id =? 1002 then None
                        else Some "EXPIRED")
             1700000000.5 in
  let grid_id := "GRID_BTCUSDT_1700000000" in
  let s1 := snd (GridOrders.create_grid_strategy Sim.no_log Sim.no_log
                   "BTCUSDT" "BUY" 0.01 95 105 5 "LINEAR" None s) in
  let s2 := snd (GridOrders.execute_grid_orders grid_id s1) in
  exists g report s3,
    dict_get grid_id (active_grids s2) = Some g
    /\ GridOrders.get_grid_status grid_id s2 = (inr report, s3)
    /\ List.length (placed_orders g) = 5%nat
    /\ (GridOrders.sr_active_orders report,
        GridOrders.sr_filled_orders report,
        GridOrders.sr_canceled_orders report) = (1, 1, 2)
    /\ GridOrders.sr_status report = "ACTIVE".
Proof.
  intros s grid_id s1 s2.
  assert (Hg : exists g, dict_get grid_id (active_grids s2) = Some g).
  { eexists. vm_compute. reflexivity. }
  destruct Hg as [g Hg].
  destruct (get_grid_status_counts_answers grid_id s2 g Hg)
    as (report & s3 & new & l & Hrun & _).
  exists g, report, s3. split; [exact Hg |]. split; [exact Hrun |].
  vm_compute in Hg. injection Hg as <-.
  vm_compute in Hrun. injection Hrun as <- <-.
  repeat split.
Defined.

(** *** The DCA grid *)

Lemma SFcompare_refl x : x <> S754_nan -> SFcompare x x = Some Eq.
Proof.
  destruct x as [s | s | | s m e]; intros H; try reflexivity.
  - destruct s; reflexivity.
  - congruence.
  - cbn. rewrite Z.compare_refl, Pos.compare_cont_refl.
    destruct s; reflexivity.
Qed.

Lemma leb_refl x : PrimFloat.is_nan x = false -> PrimFloat.leb x x = true.
Proof.
  intros H. rewrite leb_spec. unfold SFleb. rewrite SFcompare_refl.
  - reflexivity.
  - intros Hn. apply is_nan_Prim2SF in Hn. congruence.
Qed.

(** Zero times a finite number is a zero. *)
Lemma mul_zero_finite d :
  PrimFloat.is_finite d = true ->
  exists sg, Prim2SF (PrimFloat.mul 0 d) = S754_zero sg.
Proof.
  intros H. rewrite mul_spec. change (Prim2SF 0) with (S754_zero false).
  destruct (Prim2SF_finite_cases d H) as [[sg ->] | (sg & m & e & ->)];
    eexists; reflexivity.
Qed.

(** Taking a zero off a number that passed [validate_price] and is not
    NaN changes nothing. *)
Lemma sub_zero_positive x z sg :
  PrimFloat.leb x 0 = false -> PrimFloat.is_nan x = false ->
  Prim2SF z = S754_zero sg -> PrimFloat.sub x z = x.
Proof.
  intros Hx Hn Hz.
  rewrite <- (SF2Prim_Prim2SF (PrimFloat.sub x z)), sub_spec, Hz.
  rewrite <- (SF2Prim_Prim2SF x) at 2. f_equal.
  rewrite leb_spec in Hx. change (Prim2SF 0) with (S754_zero false) in Hx.
  destruct (Prim2SF x) as [s | s | | s m e] eqn:Hp.
  - discriminate.
  - reflexivity.
  - apply is_nan_Prim2SF in Hp. congruence.
  - reflexivity.
Qed.

Section DcaGrid.

Variable math_log : float -> Py.result float.
Variable math_exp : float -> Py.result float.

Lemma create_dca_grid_single_cases symbol side total start dec s :
  PrimFloat.is_nan start = false ->
  PrimFloat.is_finite dec = true ->
  exists msg lookups,
    forallb is_symbol_lookup lookups = true
    /\ GridOrders.create_dca_grid math_log math_exp symbol side total start
         dec 1 s
       = (inl (Py.ValueError msg), with_history (history s ++ lookups) s).
Proof.
  intros Hnan Hfin.
  unfold GridOrders.create_dca_grid.
  destruct (String.length symbol <? 3)%nat eqn:Hlen.
  { exists "Invalid symbol format", []. split; [reflexivity |].
    apply bind_validate_symbol_short, Hlen. }
  apply Nat.ltb_ge in Hlen. rewrite bind_validate_symbol by exact Hlen.
  set (s1 := with_history (history s ++ [symbol_lookup s]) s).
  unfold bind at 1. unfold lift at 1. rewrite validate_side_checked.
  destruct (String.eqb (Py.upper side) "BUY"
            || String.eqb (Py.upper side) "SELL") eqn:Hv.
  2:{ eexists _, [symbol_lookup s]. split; reflexivity. }
  unfold bind at 1. unfold lift at 1. unfold BasicBot.validate_quantity at 1.
  destruct (PrimFloat.leb total 0) eqn:Ht.
  { eexists _, [symbol_lookup s]. split; reflexivity. }
  unfold bind at 1. unfold lift at 1. unfold BasicBot.validate_price at 1.
  destruct (PrimFloat.leb start 0) eqn:Hs.
  { eexists _, [symbol_lookup s]. split; reflexivity. }
  unfold bind at 1. unfold lift at 1. unfold BasicBot.validate_price at 1.
  destruct (PrimFloat.leb dec 0) eqn:Hd.
  { eexists _, [symbol_lookup s]. split; reflexivity. }
  cbn [Py.ret Z.leb Z.compare].
  unfold bind at 1. unfold lift at 1.
  change (Py.truediv_int total 1)
    with (@inr Py.exn float (PrimFloat.div total (Py.float_of_int 1))).
  change (Py.float_of_int (1 - 1)) with 0%float.
  destruct (mul_zero_finite dec Hfin) as [sg Hz].
  rewrite (sub_zero_positive start _ sg Hs Hnan Hz), Hs.
  unfold GridOrders.create_grid_strategy.
  rewrite bind_validate_symbol by (rewrite upper_length; exact Hlen).
  unfold bind at 1. unfold lift at 1.
  rewrite validate_side_checked, upper_idempotent, Hv.
  unfold bind at 1. unfold lift at 1. unfold BasicBot.validate_quantity at 1.
  destruct (PrimFloat.leb (PrimFloat.div total (Py.float_of_int 1)) 0).
  { eexists _, [symbol_lookup s; symbol_lookup s1]. split; [reflexivity |].
    cbn [Py.raise]. subst s1. cbn [history with_history].
    rewrite with_history_twice, <- app_assoc. reflexivity. }
  unfold bind at 1. unfold lift at 1. unfold BasicBot.validate_price at 1.
  rewrite Hs.
  unfold bind at 1. unfold lift at 1. unfold BasicBot.validate_price at 1.
  rewrite Hs. cbn [Py.ret].
  rewrite (leb_refl start Hnan).
  eexists _, [symbol_lookup s; symbol_lookup s1]. split; [reflexivity |].
  unfold raise. subst s1. cbn [history with_history].
  rewrite with_history_twice, <- app_assoc. reflexivity.
Qed.

(** X13.  A DCA grid of one order cannot be made: its lowest price is the
    start price minus no decrement, and [create_grid_strategy] wants the
    lower price strictly below the upper one.  For a start price that is
    a number and a finite decrement, [create_dca_grid] with one order
    raises [ValueError] whatever the other arguments, registers nothing
    and sends no order; so does [dca_grid] of the facade, which passes
    the error on. *)
Theorem create_dca_grid_single_order_rejected :
  forall (symbol side : string) (total start_price price_decrement : float)
         (s : State),
    PrimFloat.is_nan start_price = false ->
    PrimFloat.is_finite price_decrement = true ->
    let r := GridOrders.create_dca_grid math_log math_exp symbol side total
               start_price price_decrement 1 s in
    exists msg,
      fst r = inl (Py.ValueError msg)
      /\ BinanceTradingBot.dca_grid math_log math_exp symbol side total
           start_price price_decrement 1 s
         = (inl (Py.ValueError msg), snd r)
      /\ active_grids (snd r) = active_grids s
      /\ order_requests (history (snd r)) = order_requests (history s).
Proof.
  intros symbol side total start dec s Hnan Hfin r. subst r.
  unfold BinanceTradingBot.dca_grid, bind.
  destruct (create_dca_grid_single_cases symbol side total start dec s
              Hnan Hfin) as (msg & lookups & Hl & ->).
  exists msg. cbn [fst snd]. split; [reflexivity |]. split; [reflexivity |].
  split; [reflexivity |].
  rewrite with_history_history, order_requests_app,
    (order_requests_lookups _ Hl), app_nil_r. reflexivity.
Qed.




End DcaGrid.

Lemma create_dca_grid_single_order_rejected_witness :
  let s := Sim.start (fun _ => true) (fun _ => Some "NEW") 1700000000.5 in
  let r := GridOrders.create_dca_grid Sim.no_log Sim.no_log "BTCUSDT" "BUY"
             1 100 5 1 s in
  (PrimFloat.is_nan 100 = false /\ PrimFloat.is_finite 5 = true)
  /\ fst r = inl (Py.ValueError "lower_price must be < upper_price")
  /\ active_grids (snd r) = active_grids s
  /\ order_requests (history (snd r)) = order_requests (history s).
Proof.
  intros s r.
  split; [split; reflexivity |].
  split; [vm_compute; reflexivity |].
  destruct (create_dca_grid_single_order_rejected Sim.no_log Sim.no_log
              "BTCUSDT" "BUY" 1 100 5 s eq_refl eq_refl)
    as (msg & _ & _ & H1 & H2).
  split; assumption.
Defined.


(* ===================================================================== *)
(** ** Further properties: the OCO engine                                 *)
(* ===================================================================== *)

Lemma dict_get_set_other {V} k k' (v : V) d :
  k <> k' -> dict_get k (dict_set k' v d) = dict_get k d.
Proof.
  intros Hk. induction d as [| [k0 v0] d IH]; cbn.
  - destruct (String.eqb_spec k k'); [contradiction | reflexivity].
  - destruct (String.eqb_spec k' k0) as [-> | Hk0]; cbn.
    + destruct (String.eqb_spec k k0); [contradiction | reflexivity].
    + destruct (String.eqb_spec k k0); [reflexivity | exact IH].
Qed.

Lemma dict_get_discard_same {V} k (d : dict V) :
  dict_get k (OCOOrders.dict_discard k d) = None.
Proof.
  induction d as [| [k0 v0] d IH]; [reflexivity |].
  cbn. destruct (String.eqb_spec k k0) as [-> | Hk]; cbn.
  - exact IH.
  - destruct (String.eqb_spec k k0); [contradiction | exact IH].
Qed.

Lemma dict_get_discard_other {V} k k' (d : dict V) :
  k <> k' -> dict_get k (OCOOrders.dict_discard k' d) = dict_get k d.
Proof.
  intros Hk. induction d as [| [k0 v0] d IH]; [reflexivity |].
  cbn. destruct (String.eqb_spec k' k0) as [-> | Hk0]; cbn.
  - destruct (String.eqb_spec k k0); [contradiction | exact IH].
  - destruct (String.eqb_spec k k0); [reflexivity | exact IH].
Qed.

Lemma get_order_status_raw symbol order_id s :
  BasicBot.get_order_status symbol order_id s
  = (cl_get_order (client s) (history s) symbol order_id,
     with_history
       (history s
        ++ [EvGetOrder symbol order_id
              (cl_get_order (client s) (history s) symbol order_id)]) s).
Proof.
  unfold BasicBot.get_order_status, try_except, futures_get_order, raise.
  destruct (cl_get_order _ _ _ _); reflexivity.
Qed.

Lemma cancel_order_raw symbol order_id s :
  BasicBot.cancel_order symbol order_id s
  = (cl_cancel_order (client s) (history s) symbol order_id,
     with_history
       (history s
        ++ [EvCancelOrder symbol order_id
              (cl_cancel_order (client s) (history s) symbol order_id)]) s).
Proof.
  unfold BasicBot.cancel_order, try_except, futures_cancel_order, raise.
  destruct (cl_cancel_order _ _ _ _); reflexivity.
Qed.

Lemma try_cancel_raw symbol order_id s :
  OCOOrders.try_cancel symbol order_id s
  = (inr tt,
     with_history
       (history s
        ++ [EvCancelOrder symbol order_id
              (cl_cancel_order (client s) (history s) symbol order_id)]) s).
Proof.
  unfold OCOOrders.try_cancel, try_except, bind. rewrite cancel_order_raw.
  destruct (cl_cancel_order _ _ _ _); reflexivity.
Qed.

Lemma cancel_leg_raw name symbol order_id s :
  OCOOrders.cancel_leg name symbol order_id s
  = (inr (OCOOrders.mkCancellation name
            (cancel_outcome
               (cl_cancel_order (client s) (history s) symbol order_id))),
     with_history
       (history s
        ++ [EvCancelOrder symbol order_id
              (cl_cancel_order (client s) (history s) symbol order_id)]) s).
Proof.
  unfold OCOOrders.cancel_leg, try_except, bind. rewrite cancel_order_raw.
  destruct (cl_cancel_order _ _ _ _); reflexivity.
Qed.

Lemma oco_data_of_some oco_id s d :
  dict_get oco_id (active_oco_orders s) = Some d ->
  OCOOrders.oco_data_of oco_id s = (inr d, s).
Proof.
  intros H. unfold OCOOrders.oco_data_of, bind, gets. rewrite H. reflexivity.
Qed.

Lemma set_oco_status_some oco_id st s d :
  dict_get oco_id (active_oco_orders s) = Some d ->
  OCOOrders.set_oco_status oco_id st s
  = (inr tt,
     with_oco (dict_set oco_id (OCOOrders.with_oco_status st d)
                        (active_oco_orders s)) s).
Proof.
  intros H. unfold OCOOrders.set_oco_status, bind.
  rewrite (oco_data_of_some _ _ _ H). reflexivity.
Qed.

Lemma bind_lift_inr {A B} (a : A) (k : A -> M B) s :
  bind (lift (inr a)) k s = k a s.
Proof. reflexivity. Qed.



(** X16.  [cancel_oco_order] on a registered pair never raises: it asks
    the exchange to cancel the take-profit order and then the stop-loss
    order, the second whatever the first answered, reports the two
    answers (an error as its text), and marks the pair CANCELED even when
    both cancellations were refused.  The pair stays registered and its
    monitor is not stopped. *)
Theorem cancel_oco_order_cancels_both_legs :
  forall (oco_id : string) (s : State) (d : OCOData),
    dict_get oco_id (active_oco_orders s) = Some d ->
    let symbol := oco_symbol d in
    let tp := orderId (take_profit_order d) in
    let sl := orderId (stop_loss_order d) in
    let r_tp := cl_cancel_order (client s) (history s) symbol tp in
    let ev_tp := EvCancelOrder symbol tp r_tp in
    let r_sl := cl_cancel_order (client s) (history s ++ [ev_tp]) symbol sl in
    let ev_sl := EvCancelOrder symbol sl r_sl in
    OCOOrders.cancel_oco_order oco_id s
    = (inr (OCOOrders.mkCanceledOCO oco_id
              [OCOOrders.mkCancellation "take_profit" (cancel_outcome r_tp);
               OCOOrders.mkCancellation "stop_loss" (cancel_outcome r_sl)]),
       with_oco
         (dict_set oco_id (OCOOrders.with_oco_status "CANCELED" d)
                   (active_oco_orders s))
         (with_history (history s ++ [ev_tp; ev_sl]) s)).
Proof.
  intros oco_id s d Hd symbol tp sl r_tp ev_tp r_sl ev_sl.
  unfold OCOOrders.cancel_oco_order.
  unfold bind at 1. unfold gets at 1. rewrite Hd.
  unfold try_except.
  unfold bind at 1. rewrite cancel_leg_raw.
  unfold bind at 1. rewrite cancel_leg_raw.
  cbn [history client with_history].
  fold symbol tp sl r_tp. fold ev_tp. fold r_sl. fold ev_sl.
  unfold bind at 1.
  rewrite (set_oco_status_some oco_id "CANCELED" _ d) by exact Hd.
  unfold ret. rewrite with_history_twice, <- app_assoc. reflexivity.
Qed.

Lemma cancel_oco_order_cancels_both_legs_witness :
  let s := with_oco_registered deaf_exchange in
  exists d,
    dict_get oco_id (active_oco_orders s) = Some d
    /\ exists s',
         OCOOrders.cancel_oco_order oco_id s
         = (inr (OCOOrders.mkCanceledOCO oco_id
                   [OCOOrders.mkCancellation "take_profit"
                      (inl "Unknown order sent.");
                    OCOOrders.mkCancellation "stop_loss"
                      (inl "Unknown order sent.")]),
            s')
         /\ cancel_requests (history s') = [("BTCUSDT", 1000); ("BTCUSDT", 1001)]
         /\ option_map oco_status (dict_get oco_id (active_oco_orders s'))
            = Some "CANCELED"
         /\ monitoring_threads s' = [oco_id].
Proof.
  intros s. eexists. split; [reflexivity |].
  eexists. split.
  { apply (cancel_oco_order_cancels_both_legs oco_id s). reflexivity. }
  repeat split.
Defined.

(** *** The monitor of an OCO pair *)

Lemma is_open_inv st :
  is_open st = true ->
  String.eqb st "FILLED" = false /\ OCOOrders.canceled_or_expired st = false.
Proof.
  unfold is_open, is_filled, is_canceled, OCOOrders.canceled_or_expired.
  intros H. apply andb_true_iff in H as [H1 H2].
  apply negb_true_iff in H1, H2. auto.
Qed.

Section MonitorPoll.

Variables (oco_id : string) (s : State) (d : OCOData).

Hypothesis registered : dict_get oco_id (active_oco_orders s) = Some d.

Local Abbreviation symbol := (oco_symbol d).
Local Abbreviation tp := (orderId (take_profit_order d)).
Local Abbreviation sl := (orderId (stop_loss_order d)).
Local Abbreviation r_tp := (cl_get_order (client s) (history s) symbol tp).
Local Abbreviation ev_tp := (EvGetOrder symbol tp r_tp).
Local Abbreviation r_sl :=
  (cl_get_order (client s) (history s ++ [ev_tp]) symbol sl).
Local Abbreviation ev_sl := (EvGetOrder symbol sl r_sl).

(** The two queries of a round, when both are answered. *)
Lemma monitor_poll_answered o_tp o_sl :
  r_tp = inr o_tp -> r_sl = inr o_sl ->
  OCOOrders.monitor_poll oco_id s
  = try_except
      (if String.eqb (ord_status o_tp) "FILLED"
       then
         OCOOrders.try_cancel symbol sl ;;
         OCOOrders.set_oco_status oco_id "TAKE_PROFIT_FILLED" ;;
         ret Break
       else if String.eqb (ord_status o_sl) "FILLED"
       then
         OCOOrders.try_cancel symbol tp ;;
         OCOOrders.set_oco_status oco_id "STOP_LOSS_FILLED" ;;
         ret Break
       else if OCOOrders.canceled_or_expired (ord_status o_tp)
               && OCOOrders.canceled_or_expired (ord_status o_sl)
       then
         OCOOrders.set_oco_status oco_id "CANCELED" ;;
         ret Break
       else
         sleep 1 ;;
         ret Next)
      (fun _ => sleep 5 ;; ret Next)
      (with_history (history s ++ [ev_tp; ev_sl]) s).
Proof.
  intros Htp Hsl.
  unfold OCOOrders.monitor_poll, try_except.
  unfold bind at 1. rewrite (oco_data_of_some _ _ _ registered).
  unfold bind at 1. rewrite get_order_status_raw, Htp.
  rewrite Htp in Hsl.
  unfold bind at 1. rewrite get_order_status_raw.
  cbn [history client with_history]. rewrite Hsl.
  rewrite with_history_twice, <- app_assoc. reflexivity.
Qed.

Lemma monitor_poll_quiet o_tp o_sl :
  r_tp = inr o_tp -> r_sl = inr o_sl ->
  is_open (ord_status o_tp) = true ->
  is_open (ord_status o_sl) = true ->
  OCOOrders.monitor_poll oco_id s
  = (inr Next,
     with_clock (PrimFloat.add (clock s) 1)
       (with_history (history s ++ [ev_tp; ev_sl]) s)).
Proof.
  intros Htp Hsl Ho1 Ho2.
  rewrite (monitor_poll_answered o_tp o_sl Htp Hsl).
  apply is_open_inv in Ho1 as [Hf1 Hc1]. apply is_open_inv in Ho2 as [Hf2 _].
  rewrite Hf1, Hf2, Hc1. reflexivity.
Qed.

Lemma monitor_poll_take_profit_filled o_tp o_sl :
  r_tp = inr o_tp -> r_sl = inr o_sl ->
  ord_status o_tp = "FILLED" ->
  OCOOrders.monitor_poll oco_id s
  = (inr Break,
     with_oco
       (dict_set oco_id (OCOOrders.with_oco_status "TAKE_PROFIT_FILLED" d)
                 (active_oco_orders s))
       (with_history
          (history s
           ++ [ev_tp; ev_sl;
               EvCancelOrder symbol sl
                 (cl_cancel_order (client s) (history s ++ [ev_tp; ev_sl])
                    symbol sl)]) s)).
Proof.
  intros Htp Hsl Hf.
  rewrite (monitor_poll_answered o_tp o_sl Htp Hsl), Hf.
  change (String.eqb "FILLED" "FILLED") with true. cbv iota.
  unfold try_except. unfold bind at 1. rewrite try_cancel_raw.
  unfold bind at 1.
  rewrite (set_oco_status_some oco_id "TAKE_PROFIT_FILLED" _ d)
    by exact registered.
  cbn [history client with_history active_oco_orders].
  unfold ret. rewrite with_history_twice, <- app_assoc. reflexivity.
Qed.

Lemma monitor_poll_stop_loss_filled o_tp o_sl :
  r_tp = inr o_tp -> r_sl = inr o_sl ->
  String.eqb (ord_status o_tp) "FILLED" = false ->
  ord_status o_sl = "FILLED" ->
  OCOOrders.monitor_poll oco_id s
  = (inr Break,
     with_oco
       (dict_set oco_id (OCOOrders.with_oco_status "STOP_LOSS_FILLED" d)
                 (active_oco_orders s))
       (with_history
          (history s
           ++ [ev_tp; ev_sl;
               EvCancelOrder symbol tp
                 (cl_cancel_order (client s) (history s ++ [ev_tp; ev_sl])
                    symbol tp)]) s)).
Proof.
  intros Htp Hsl Hnf Hf.
  rewrite (monitor_poll_answered o_tp o_sl Htp Hsl), Hnf, Hf.
  change (String.eqb "FILLED" "FILLED") with true. cbv iota.
  unfold try_except. unfold bind at 1. rewrite try_cancel_raw.
  unfold bind at 1.
  rewrite (set_oco_status_some oco_id "STOP_LOSS_FILLED" _ d)
    by exact registered.
  cbn [history client with_history active_oco_orders].
  unfold ret. rewrite with_history_twice, <- app_assoc. reflexivity.
Qed.

Lemma monitor_poll_no_answer e :
  r_tp = inl e ->
  OCOOrders.monitor_poll oco_id s
  = (inr Next,
     with_clock (PrimFloat.add (clock s) 5)
       (with_history (history s ++ [ev_tp]) s)).
Proof.
  intros Htp.
  unfold OCOOrders.monitor_poll, try_except.
  unfold bind at 1. rewrite (oco_data_of_some _ _ _ registered).
  unfold bind at 1. rewrite get_order_status_raw, Htp. reflexivity.
Qed.

Lemma monitor_loop_step fuel :
  OCOOrders.monitor_loop (S fuel) oco_id s
  = match OCOOrders.monitor_poll oco_id s with
    | (inl e, s') => (inl e, s')
    | (inr Break, s') => (inr true, s')
    | (inr Next, s') => OCOOrders.monitor_loop fuel oco_id s'
    end.
Proof.
  cbn [OCOOrders.monitor_loop]. unfold bind at 1. unfold gets at 1.
  rewrite registered. unfold bind.
  destruct (OCOOrders.monitor_poll oco_id s) as [[e | []] s']; reflexivity.
Qed.

End MonitorPoll.

Lemma monitor_cleanup_spec oco_id s :
  OCOOrders.monitor_cleanup oco_id s
  = (inr tt,
     with_threads
       (filter (fun k => negb (String.eqb oco_id k)) (monitoring_threads s))
       (with_oco (OCOOrders.dict_discard oco_id (active_oco_orders s)) s)).
Proof. reflexivity. Qed.

Lemma not_in_discarded oco_id l :
  ~ In oco_id (filter (fun k => negb (String.eqb oco_id k)) l).
Proof.
  intros H. apply filter_In in H as [_ H].
  rewrite String.eqb_refl in H. discriminate.
Qed.

(** X17.  When the take-profit order is reported FILLED, the monitor
    cancels the stop-loss order and never the take-profit order, whatever
    the stop-loss order reports (FILLED as well, say): the take-profit
    order is looked at first.  The thread then ends and removes the pair
    from the registry and itself from the monitors, so the status it has
    just set cannot be read: [get_oco_status] raises for the pair.  The
    other pairs are untouched. *)
Theorem monitor_oco_take_profit_first :
  forall (fuel : nat) (oco_id : string) (s : State) (d : OCOData)
         (o_tp o_sl : Order),
    dict_get oco_id (active_oco_orders s) = Some d ->
    let symbol := oco_symbol d in
    let tp := orderId (take_profit_order d) in
    let sl := orderId (stop_loss_order d) in
    let ev_tp := EvGetOrder symbol tp (inr o_tp) in
    let ev_sl := EvGetOrder symbol sl (inr o_sl) in
    cl_get_order (client s) (history s) symbol tp = inr o_tp ->
    ord_status o_tp = "FILLED" ->
    cl_get_order (client s) (history s ++ [ev_tp]) symbol sl = inr o_sl ->
    exists s' reply,
      OCOOrders.monitor_oco (S fuel) oco_id s = (inr true, s')
      /\ history s'
         = history s ++ [ev_tp; ev_sl; EvCancelOrder symbol sl reply]
      /\ dict_get oco_id (active_oco_orders s') = None
      /\ ~ In oco_id (monitoring_threads s')
      /\ fst (OCOOrders.get_oco_status oco_id s')
         = inl (Py.ValueError "OCO order not found")
      /\ (forall other,
             other <> oco_id ->
             dict_get other (active_oco_orders s')
             = dict_get other (active_oco_orders s)).
Proof.
  intros fuel oco_id s d o_tp o_sl Hd symbol tp sl ev_tp ev_sl Htp Hf Hsl.
  subst symbol tp sl ev_tp ev_sl.
  unfold OCOOrders.monitor_oco. unfold bind at 1.
  rewrite (monitor_loop_step oco_id s d Hd).
  assert (Hsl' : cl_get_order (client s)
                   (history s
                    ++ [EvGetOrder (oco_symbol d) (orderId (take_profit_order d))
                          (cl_get_order (client s) (history s) (oco_symbol d)
                             (orderId (take_profit_order d)))])
                   (oco_symbol d) (orderId (stop_loss_order d)) = inr o_sl).
  { rewrite Htp. exact Hsl. }
  rewrite (monitor_poll_take_profit_filled oco_id s d Hd o_tp o_sl Htp Hsl' Hf).
  rewrite Htp, Hsl.
  unfold bind at 1. rewrite monitor_cleanup_spec. unfold ret.
  do 2 eexists. split; [reflexivity |].
  cbn [history active_oco_orders monitoring_threads with_threads with_oco
       with_history].
  split; [reflexivity |].
  assert (Hnone : forall V (dd : dict V),
             dict_get oco_id (OCOOrders.dict_discard oco_id dd) = None)
    by (intros; apply dict_get_discard_same).
  split; [apply Hnone |].
  split; [apply not_in_discarded |].
  split.
  { unfold OCOOrders.get_oco_status, bind, gets.
    cbn [active_oco_orders with_threads with_oco]. rewrite Hnone.
    reflexivity. }
  intros other Hother.
  rewrite dict_get_discard_other, dict_get_set_other by exact Hother.
  reflexivity.
Qed.

Lemma monitor_oco_take_profit_first_witness :
  let s := with_oco_registered
             (Sim.exchange (fun _ => true) (fun _ => Some "FILLED")) in
  exists s',
    OCOOrders.monitor_oco 1 oco_id s = (inr true, s')
    /\ cancel_requests (history s') = [("BTCUSDT", 1001)]
    /\ active_oco_orders s' = []
    /\ monitoring_threads s' = []
    /\ fst (OCOOrders.get_oco_status oco_id s')
       = inl (Py.ValueError "OCO order not found").
Proof.
  intros s.
  destruct (monitor_oco_take_profit_first 0 oco_id s
              (mkOCO "BTCUSDT" "SELL" (mkOrder 1000 "NEW" None)
                     (mkOrder 1001 "NEW" None) "ACTIVE")
              (mkOrder 1000 "FILLED" None) (mkOrder 1001 "FILLED" None)
              eq_refl eq_refl eq_refl eq_refl)
    as (s' & reply & Hrun & Hh & _ & _ & Hstatus & _).
  exists s'. split; [exact Hrun |].
  vm_compute in Hrun. injection Hrun as <-.
  repeat split.
Defined.

Lemma after_sleeps_succ n d t :
  after_sleeps (S n) d t = after_sleeps n d (PrimFloat.add t d).
Proof.
  unfold after_sleeps. induction n as [| n IH]; [reflexivity |].
  change (Nat.iter (S (S n)) ?f t) with (f (Nat.iter (S n) f t)).
  rewrite IH. reflexivity.
Qed.

Lemma state_same s :
  with_clock (clock s) (with_history (history s ++ []) s) = s.
Proof. rewrite app_nil_r. destruct s; reflexivity. Qed.

Lemma poll_queries_length d n :
  List.length (List.concat (repeat (poll_queries d) n)) = (2 * n)%nat.
Proof.
  induction n as [| n IH]; [reflexivity |].
  cbn [repeat List.concat]. rewrite length_app, IH. cbn. lia.
Qed.

Lemma concat_repeat_snoc {A} (x : list A) n :
  List.concat (repeat x n) ++ x = List.concat (repeat x (S n)).
Proof.
  induction n as [| n IH]; cbn [repeat List.concat] in *.
  - rewrite app_nil_r. reflexivity.
  - rewrite <- app_assoc, IH. reflexivity.
Qed.

(** As long as both legs are reported open, the monitor goes round:
    [n] rounds of two queries and a second of sleep each. *)
Lemma monitor_loop_quiet_rounds oco_id d c (n : nat) :
  forall (fuel : nat) (s : State),
    client s = c ->
    dict_get oco_id (active_oco_orders s) = Some d ->
    (forall new order_id,
        (List.length (status_queries new) < 2 * n)%nat ->
        order_id = orderId (take_profit_order d)
        \/ order_id = orderId (stop_loss_order d) ->
        exists o,
          cl_get_order c (history s ++ new) (oco_symbol d) order_id = inr o
          /\ is_open (ord_status o) = true) ->
    exists new,
      status_queries new = List.concat (repeat (poll_queries d) n)
      /\ order_requests new = []
      /\ cancel_requests new = []
      /\ OCOOrders.monitor_loop (n + fuel) oco_id s
         = OCOOrders.monitor_loop fuel oco_id
             (with_clock (after_sleeps n 1 (clock s))
                (with_history (history s ++ new) s)).
Proof.
  induction n as [| n IH]; intros fuel s Hc Hd Hquiet.
  - exists []. repeat split. cbn [Nat.add].
    change (after_sleeps 0 1 (clock s)) with (clock s).
    rewrite state_same. reflexivity.
  - destruct (Hquiet [] (orderId (take_profit_order d)))
      as (o_tp & Htp & Hotp); [cbn; lia | now left |].
    rewrite app_nil_r, <- Hc in Htp.
    destruct (Hquiet [EvGetOrder (oco_symbol d) (orderId (take_profit_order d))
                        (inr o_tp)] (orderId (stop_loss_order d)))
      as (o_sl & Hsl0 & Hosl); [cbn; lia | now right |].
    rewrite <- Hc in Hsl0.
    assert (Hsl : cl_get_order (client s)
                    (history s
                     ++ [EvGetOrder (oco_symbol d)
                           (orderId (take_profit_order d))
                           (cl_get_order (client s) (history s)
                              (oco_symbol d) (orderId (take_profit_order d)))])
                    (oco_symbol d) (orderId (stop_loss_order d)) = inr o_sl)
      by (rewrite Htp; exact Hsl0).
    cbn [Nat.add]. rewrite (monitor_loop_step oco_id s d Hd).
    rewrite (monitor_poll_quiet oco_id s d Hd o_tp o_sl Htp Hsl Hotp Hosl).
    rewrite Htp, Hsl0.
    set (polls := [EvGetOrder (oco_symbol d) (orderId (take_profit_order d))
                     (inr o_tp);
                   EvGetOrder (oco_symbol d) (orderId (stop_loss_order d))
                     (inr o_sl)]).
    set (s1 := with_clock _ _).
    destruct (IH fuel s1) as (new & Hq & Hr & Hcn & Hrun).
    + subst s1. cbn [client with_clock with_history]. exact Hc.
    + subst s1. cbn [active_oco_orders with_clock with_history]. exact Hd.
    + intros new order_id Hlen Hid. subst s1.
      cbn [history with_clock with_history]. rewrite <- app_assoc.
      apply Hquiet; [| exact Hid].
      rewrite status_queries_app, length_app. cbn. lia.
    + exists (polls ++ new).
      rewrite status_queries_app, order_requests_app, cancel_requests_app,
        Hq, Hr, Hcn.
      repeat split. rewrite Hrun. f_equal.
      subst s1. cbn [history clock with_clock with_history].
      rewrite after_sleeps_succ, <- app_assoc. reflexivity.
Qed.

(** X18.  The monitor of a pair whose two orders are reported open for
    [n] rounds, and whose stop-loss order is then reported FILLED while
    the take-profit order is not, ends in round [n + 1]: it has asked for
    the two statuses [n + 1] times and slept a second [n] times, cancels
    the take-profit order, once, and removes the pair and itself from the
    registries. *)
Theorem monitor_oco_stop_loss_fills :
  forall (n fuel : nat) (oco_id : string) (s : State) (d : OCOData),
    dict_get oco_id (active_oco_orders s) = Some d ->
    let symbol := oco_symbol d in
    let tp := orderId (take_profit_order d) in
    let sl := orderId (stop_loss_order d) in
    (forall new order_id,
        (List.length (status_queries new) < 2 * n)%nat ->
        order_id = tp \/ order_id = sl ->
        exists o,
          cl_get_order (client s) (history s ++ new) symbol order_id = inr o
          /\ is_open (ord_status o) = true) ->
    (forall new,
        List.length (status_queries new) = (2 * n)%nat ->
        exists o,
          cl_get_order (client s) (history s ++ new) symbol tp = inr o
          /\ is_filled (ord_status o) = false) ->
    (forall new,
        List.length (status_queries new) = (2 * n + 1)%nat ->
        exists o,
          cl_get_order (client s) (history s ++ new) symbol sl = inr o
          /\ ord_status o = "FILLED") ->
    (n < fuel)%nat ->
    exists s' new,
      OCOOrders.monitor_oco fuel oco_id s = (inr true, s')
      /\ history s' = history s ++ new
      /\ status_queries new = List.concat (repeat (poll_queries d) (S n))
      /\ cancel_requests new = [(symbol, tp)]
      /\ order_requests new = []
      /\ clock s' = after_sleeps n 1 (clock s)
      /\ dict_get oco_id (active_oco_orders s') = None
      /\ ~ In oco_id (monitoring_threads s').
Proof.
  intros n fuel oco_id s d Hd symbol tp sl Hquiet Htp Hsl Hfuel.
  subst symbol tp sl.
  destruct (monitor_loop_quiet_rounds oco_id d (client s) n (fuel - n) s
              eq_refl Hd Hquiet)
    as (new & Hq & Hr & Hcn & Hrun).
  replace (n + (fuel - n))%nat with fuel in Hrun by lia.
  destruct (fuel - n)%nat as [| fuel'] eqn:Hf; [lia |].
  set (s1 := with_clock _ _) in Hrun.
  assert (Hd1 : dict_get oco_id (active_oco_orders s1) = Some d) by exact Hd.
  assert (Hlen : List.length (status_queries new) = (2 * n)%nat).
  { rewrite Hq. apply poll_queries_length. }
  destruct (Htp new Hlen) as (o_tp & Hotp & Hnf).
  destruct (Hsl (new ++ [EvGetOrder (oco_symbol d)
                           (orderId (take_profit_order d)) (inr o_tp)]))
    as (o_sl & Hosl & Hfilled).
  { rewrite status_queries_app, length_app, Hlen. cbn. lia. }
  rewrite app_assoc in Hosl.
  assert (Hotp1 : cl_get_order (client s1) (history s1) (oco_symbol d)
                    (orderId (take_profit_order d)) = inr o_tp) by exact Hotp.
  assert (Hosl1 : cl_get_order (client s1)
                    (history s1
                     ++ [EvGetOrder (oco_symbol d)
                           (orderId (take_profit_order d))
                           (cl_get_order (client s1) (history s1)
                              (oco_symbol d) (orderId (take_profit_order d)))])
                    (oco_symbol d) (orderId (stop_loss_order d)) = inr o_sl).
  { rewrite Hotp1. exact Hosl. }
  rewrite (monitor_loop_step oco_id s1 d Hd1) in Hrun.
  rewrite (monitor_poll_stop_loss_filled oco_id s1 d Hd1 o_tp o_sl Hotp1 Hosl1
             Hnf Hfilled) in Hrun.
  rewrite Hotp1 in Hrun. rewrite Hotp1 in Hosl1. rewrite Hosl1 in Hrun.
  unfold OCOOrders.monitor_oco. unfold bind at 1. rewrite Hrun.
  unfold bind at 1. rewrite monitor_cleanup_spec. unfold ret.
  eexists _, (new ++ [_; _; _]).
  split; [reflexivity |].
  subst s1.
  cbn [history clock active_oco_orders monitoring_threads with_threads
       with_oco with_history with_clock].
  split; [rewrite <- app_assoc; reflexivity |].
  rewrite status_queries_app, cancel_requests_app, order_requests_app,
    Hq, Hr, Hcn.
  split.
  { cbn [status_queries flat_map app]. fold (poll_queries d).
    apply concat_repeat_snoc. }
  repeat split.
  - apply dict_get_discard_same.
  - apply not_in_discarded.
Qed.

Lemma filling_exchange_open n filled h symbol order_id :
  (List.length (status_queries h) < n)%nat ->
  exists o,
    cl_get_order (filling_exchange n filled) h symbol order_id = inr o
    /\ is_open (ord_status o) = true.
Proof.
  intros H. eexists. split; [reflexivity |].
  cbn [ord_status]. apply Nat.leb_gt in H. rewrite H. reflexivity.
Qed.

Lemma monitor_oco_stop_loss_fills_witness :
  let s := with_oco_registered (filling_exchange 4 1001) in
  exists s',
    OCOOrders.monitor_oco 5 oco_id s = (inr true, s')
    /\ List.length (status_queries (history s')) = 6%nat
    /\ cancel_requests (history s') = [("BTCUSDT", 1000)]
    /\ clock s' = 1700000002.5%float
    /\ active_oco_orders s' = []
    /\ monitoring_threads s' = [].
Proof.
  intros s.
  destruct (monitor_oco_stop_loss_fills 2 5 oco_id s
              (mkOCO "BTCUSDT" "SELL" (mkOrder 1000 "NEW" None)
                     (mkOrder 1001 "NEW" None) "ACTIVE") eq_refl)
    as (s' & new & Hrun & _).
  - intros new order_id Hlen _. apply filling_exchange_open. exact Hlen.
  - intros new Hlen. eexists. split; [reflexivity |].
    cbn [ord_status]. rewrite andb_false_r. reflexivity.
  - intros new Hlen. eexists. split; [reflexivity |].
    cbn [ord_status]. change (history s) with (@nil Event). cbn [app].
    replace (4 <=? List.length (status_queries new))%nat with true
      by (symmetry; apply Nat.leb_le; lia).
    reflexivity.
  - lia.
  - exists s'. split; [exact Hrun |].
    vm_compute in Hrun. injection Hrun as <-.
    repeat split.
Defined.

(** *** A monitor that gets no answer *)

Lemma monitor_loop_no_answer oco_id d c (fuel : nat) :
  forall (s : State),
    client s = c ->
    dict_get oco_id (active_oco_orders s) = Some d ->
    (forall h, exists e,
        cl_get_order c h (oco_symbol d) (orderId (take_profit_order d))
        = inl e) ->
    exists new,
      status_queries new
      = repeat (oco_symbol d, orderId (take_profit_order d)) fuel
      /\ order_requests new = []
      /\ cancel_requests new = []
      /\ OCOOrders.monitor_loop fuel oco_id s
         = (inr false,
            with_clock (after_sleeps fuel 5 (clock s))
              (with_history (history s ++ new) s)).
Proof.
  induction fuel as [| fuel IH]; intros s Hc Hd Hdeaf.
  - exists []. repeat split.
    cbn [OCOOrders.monitor_loop].
    change (after_sleeps 0 5 (clock s)) with (clock s).
    unfold bind, gets. rewrite Hd, state_same. reflexivity.
  - destruct (Hdeaf (history s)) as [e He]. rewrite <- Hc in He.
    rewrite (monitor_loop_step oco_id s d Hd).
    rewrite (monitor_poll_no_answer oco_id s d Hd e He), He.
    set (s1 := with_clock _ _).
    destruct (IH s1) as (new & Hq & Hr & Hcn & ->).
    + exact Hc.
    + exact Hd.
    + exact Hdeaf.
    + exists (EvGetOrder (oco_symbol d) (orderId (take_profit_order d))
                (inl e) :: new).
      rewrite after_sleeps_succ.
      split.
      { cbn [status_queries flat_map app repeat].
        fold (status_queries new). rewrite Hq. reflexivity. }
      split; [exact Hr |]. split; [exact Hcn |].
      subst s1. cbn [history clock with_clock with_history].
      rewrite <- app_assoc. reflexivity.
Qed.

(** X19.  A monitor that gets no answer never gives up: when every
    status query for the take-profit order fails, each round asks once,
    sleeps five seconds and starts again, so after any number of rounds
    the thread is still running, the pair is still registered as it was,
    and nothing was cancelled. *)
Theorem monitor_oco_never_gives_up :
  forall (fuel : nat) (oco_id : string) (s : State) (d : OCOData),
    dict_get oco_id (active_oco_orders s) = Some d ->
    (forall h, exists e,
        cl_get_order (client s) h (oco_symbol d)
          (orderId (take_profit_order d)) = inl e) ->
    exists new,
      OCOOrders.monitor_oco fuel oco_id s
      = (inr false,
         with_clock (after_sleeps fuel 5 (clock s))
           (with_history (history s ++ new) s))
      /\ status_queries new
         = repeat (oco_symbol d, orderId (take_profit_order d)) fuel
      /\ cancel_requests new = []
      /\ order_requests new = [].
Proof.
  intros fuel oco_id s d Hd Hdeaf.
  destruct (monitor_loop_no_answer oco_id d (client s) fuel s eq_refl Hd Hdeaf)
    as (new & Hq & Hr & Hcn & Hrun).
  exists new. unfold OCOOrders.monitor_oco, bind. rewrite Hrun.
  repeat split; assumption.
Qed.

Lemma monitor_oco_never_gives_up_witness :
  let s := with_oco_registered deaf_exchange in
  exists s',
    OCOOrders.monitor_oco 3 oco_id s = (inr false, s')
    /\ status_queries (history s')
       = [("BTCUSDT", 1000); ("BTCUSDT", 1000); ("BTCUSDT", 1000)]
    /\ clock s' = 1700000015.5%float
    /\ active_oco_orders s' = active_oco_orders s
    /\ monitoring_threads s' = [oco_id].
Proof.
  intros s.
  destruct (monitor_oco_never_gives_up 3 oco_id s
              (mkOCO "BTCUSDT" "SELL" (mkOrder 1000 "NEW" None)
                     (mkOrder 1001 "NEW" None) "ACTIVE") eq_refl)
    as (new & Hrun & Hq & _).
  - intros h. eexists. reflexivity.
  - eexists. split; [exact Hrun |].
    cbn [history clock active_oco_orders monitoring_threads with_clock
         with_history].
    split; [exact Hq |].
    split; [vm_compute; reflexivity |].
    split; reflexivity.
Defined.

(** *** A pair whose orders are gone *)

Lemma is_canceled_not_filled st :
  is_canceled st = true ->
  String.eqb st "FILLED" = false /\ OCOOrders.canceled_or_expired st = true.
Proof.
  unfold is_canceled, OCOOrders.canceled_or_expired. intros H.
  split; [| exact H].
  apply orb_true_iff in H as [H | H]; apply String.eqb_eq in H; subst st;
    reflexivity.
Qed.

Lemma monitor_poll_both_canceled oco_id s d o_tp o_sl :
  dict_get oco_id (active_oco_orders s) = Some d ->
  let ev_tp := EvGetOrder (oco_symbol d) (orderId (take_profit_order d))
                 (inr o_tp) in
  let ev_sl := EvGetOrder (oco_symbol d) (orderId (stop_loss_order d))
                 (inr o_sl) in
  cl_get_order (client s) (history s) (oco_symbol d)
    (orderId (take_profit_order d)) = inr o_tp ->
  cl_get_order (client s) (history s ++ [ev_tp]) (oco_symbol d)
    (orderId (stop_loss_order d)) = inr o_sl ->
  is_canceled (ord_status o_tp) = true ->
  is_canceled (ord_status o_sl) = true ->
  OCOOrders.monitor_poll oco_id s
  = (inr Break,
     with_oco
       (dict_set oco_id (OCOOrders.with_oco_status "CANCELED" d)
                 (active_oco_orders s))
       (with_history (history s ++ [ev_tp; ev_sl]) s)).
Proof.
  intros Hd ev_tp ev_sl Htp Hsl Hc1 Hc2. subst ev_tp ev_sl.
  assert (Hsl' : cl_get_order (client s)
                   (history s
                    ++ [EvGetOrder (oco_symbol d) (orderId (take_profit_order d))
                          (cl_get_order (client s) (history s) (oco_symbol d)
                             (orderId (take_profit_order d)))])
                   (oco_symbol d) (orderId (stop_loss_order d)) = inr o_sl).
  { rewrite Htp. exact Hsl. }
  rewrite (monitor_poll_answered oco_id s d Hd o_tp o_sl Htp Hsl').
  rewrite Htp, Hsl.
  apply is_canceled_not_filled in Hc1 as [Hf1 Hx1].
  apply is_canceled_not_filled in Hc2 as [Hf2 Hx2].
  rewrite Hf1, Hf2, Hx1, Hx2. cbn [andb].
  unfold try_except. unfold bind at 1.
  rewrite (set_oco_status_some oco_id "CANCELED" _ d) by exact Hd.
  reflexivity.
Qed.

(** X25.  A pair whose two orders are reported CANCELED or EXPIRED is
    forgotten: the monitor marks it CANCELED, sends no cancellation, ends
    and removes the pair from the registry, so that [get_oco_status] no
    longer finds it.  This is what becomes of a pair after a successful
    [cancel_oco_order]: the call leaves the pair registered as CANCELED,
    and the monitor then removes it. *)
Theorem monitor_oco_forgets_cancelled_pair :
  forall (fuel : nat) (oco_id : string) (s : State) (d : OCOData)
         (o_tp o_sl : Order),
    dict_get oco_id (active_oco_orders s) = Some d ->
    let symbol := oco_symbol d in
    let tp := orderId (take_profit_order d) in
    let sl := orderId (stop_loss_order d) in
    let ev_tp := EvGetOrder symbol tp (inr o_tp) in
    let ev_sl := EvGetOrder symbol sl (inr o_sl) in
    cl_get_order (client s) (history s) symbol tp = inr o_tp ->
    cl_get_order (client s) (history s ++ [ev_tp]) symbol sl = inr o_sl ->
    is_canceled (ord_status o_tp) = true ->
    is_canceled (ord_status o_sl) = true ->
    exists s',
      OCOOrders.monitor_oco (S fuel) oco_id s = (inr true, s')
      /\ history s' = history s ++ [ev_tp; ev_sl]
      /\ dict_get oco_id (active_oco_orders s') = None
      /\ ~ In oco_id (monitoring_threads s')
      /\ fst (OCOOrders.get_oco_status oco_id s')
         = inl (Py.ValueError "OCO order not found").
Proof.
  intros fuel oco_id s d o_tp o_sl Hd symbol tp sl ev_tp ev_sl Htp Hsl Hc1 Hc2.
  subst symbol tp sl ev_tp ev_sl.
  unfold OCOOrders.monitor_oco. unfold bind at 1.
  rewrite (monitor_loop_step oco_id s d Hd).
  rewrite (monitor_poll_both_canceled oco_id s d o_tp o_sl Hd Htp Hsl Hc1 Hc2).
  unfold bind at 1. rewrite monitor_cleanup_spec. unfold ret.
  eexists. split; [reflexivity |].
  cbn [history active_oco_orders monitoring_threads with_threads with_oco
       with_history].
  split; [reflexivity |].
  assert (Hnone : forall V (dd : dict V),
             dict_get oco_id (OCOOrders.dict_discard oco_id dd) = None)
    by (intros; apply dict_get_discard_same).
  split; [apply Hnone |].
  split; [apply not_in_discarded |].
  unfold OCOOrders.get_oco_status, bind, gets.
  cbn [active_oco_orders with_threads with_oco]. rewrite Hnone.
  reflexivity.
Qed.

Lemma monitor_oco_forgets_cancelled_pair_witness :
  let s := with_oco_registered
             (Sim.exchange (fun _ => true) (fun _ => Some "CANCELED")) in
  let s1 := snd (OCOOrders.cancel_oco_order oco_id s) in
  option_map oco_status (dict_get oco_id (active_oco_orders s1))
  = Some "CANCELED"
  /\ exists s2,
       OCOOrders.monitor_oco 1 oco_id s1 = (inr true, s2)
       /\ cancel_requests (history s2) = cancel_requests (history s1)
       /\ active_oco_orders s2 = []
       /\ fst (OCOOrders.get_oco_status oco_id s2)
          = inl (Py.ValueError "OCO order not found").
Proof.
  intros s s1.
  split; [vm_compute; reflexivity |].
  destruct (monitor_oco_forgets_cancelled_pair 0 oco_id s1
              (mkOCO "BTCUSDT" "SELL" (mkOrder 1000 "NEW" None)
                     (mkOrder 1001 "NEW" None) "CANCELED")
              (mkOrder 1000 "CANCELED" None) (mkOrder 1001 "CANCELED" None))
    as (s2 & Hrun & _ & _ & _ & Hstatus);
    try (vm_compute; reflexivity).
  exists s2. split; [exact Hrun |].
  vm_compute in Hrun. injection Hrun as <-.
  repeat split.
Defined.

(* ===================================================================== *)
(** ** Further properties: the TWAP engine                                *)
(* ===================================================================== *)

(** The order of one slice, with what it says to the exchange. *)
Lemma place_slice_trace d q s :
  exists new,
    snd (TWAPStrategy.place_slice d q s) = with_history (history s ++ new) s
    /\ accepted_orders new
       = match fst (TWAPStrategy.place_slice d q s) with
         | inr o => [o]
         | inl _ => []
         end
    /\ (List.length (order_requests new) <= 1)%nat
    /\ cancel_requests new = []
    /\ status_queries new = [].
Proof.
  unfold TWAPStrategy.place_slice.
  destruct (String.eqb (twap_order_type d) "MARKET").
  - destruct (place_market_order_cases (twap_symbol d) (twap_side d) q s)
      as [(msg & lookups & Hl & ->) | (_ & _ & _ & Heq)].
    + destruct (lookups_are_silent _ Hl) as (H1 & H2 & H3 & H4).
      exists lookups. cbn [fst snd]. rewrite H1.
      repeat split; auto.
    + cbv zeta in Heq. rewrite Heq. eexists [_; _]. cbn [fst snd].
      split; [reflexivity |].
      destruct (cl_create_order _ _ _); repeat split; cbn; lia.
  - destruct (twap_price d) as [p |].
    + destruct (place_limit_order_cases (twap_symbol d) (twap_side d) q p
                  (twap_time_in_force d) s)
        as [(_ & msg & lookups & Hl & ->) | (_ & _ & _ & _ & _ & _ & Heq)].
      * destruct (lookups_are_silent _ Hl) as (H1 & H2 & H3 & H4).
        exists lookups. cbn [fst snd]. rewrite H1.
        repeat split; auto.
      * cbv zeta in Heq. rewrite Heq. eexists [_; _]. cbn [fst snd].
        split; [reflexivity |].
        destruct (cl_create_order _ _ _); repeat split; cbn; lia.
    + exists []. cbn [fst snd raise]. rewrite app_nil_r, with_history_same.
      repeat split. cbn. lia.
Qed.

(** The entries one attempted slice adds to the two lists. *)
Lemma slice_recorded_lists res k q t d :
  executed_orders (slice_recorded res k q t d)
  = executed_orders d
    ++ match res with
       | inr o => [mkExecuted (k + 1) q o t]
       | inl _ => []
       end
  /\ failed_orders (slice_recorded res k q t d)
     = failed_orders d
       ++ match res with
          | inr _ => []
          | inl e => [mkFailed (k + 1) q (str_of_exn e) t]
          end
  /\ remaining_quantity (slice_recorded res k q t d)
     = match res with
       | inr _ => PrimFloat.sub (remaining_quantity d) q
       | inl _ => remaining_quantity d
       end
  /\ num_slices (slice_recorded res k q t d) = num_slices d.
Proof.
  destruct res as [e | o]; cbn; rewrite ?app_nil_r; repeat split.
Qed.

Lemma after_interrupt_lists b t d :
  executed_orders (after_interrupt b t d) = executed_orders d
  /\ failed_orders (after_interrupt b t d) = failed_orders d
  /\ remaining_quantity (after_interrupt b t d) = remaining_quantity d
  /\ num_slices (after_interrupt b t d) = num_slices d.
Proof. destruct b; repeat split. Qed.

(** One turn of the slicing loop, with its trace. *)
Lemma twap_slice_trace cancels twap_id k s d :
  dict_get twap_id (active_twap_orders s) = Some d ->
  exists f s' d' new ex fl,
    TWAPStrategy.twap_slice cancels twap_id k s = (inr f, s')
    /\ client s' = client s
    /\ history s' = history s ++ new
    /\ dict_get twap_id (active_twap_orders s') = Some d'
    /\ executed_orders d' = executed_orders d ++ ex
    /\ failed_orders d' = failed_orders d ++ fl
    /\ num_slices d' = num_slices d
    /\ remaining_quantity d'
       = fold_left PrimFloat.sub (map ex_quantity ex) (remaining_quantity d)
    /\ accepted_orders new = map ex_order ex
    /\ (List.length (order_requests new) <= 1)%nat
    /\ (List.length ex + List.length fl <= 1)%nat
    /\ cancel_requests new = []
    /\ status_queries new = []
    /\ Forall (fun e => ex_slice_num e = k + 1) ex
    /\ Forall (fun x => fs_slice_num x = k + 1) fl
    /\ (cancels k = true -> f = Next -> twap_status d' = "CANCELED").
Proof.
  intros Hd.
  destruct (String.eqb_spec (twap_status d) "ACTIVE") as [Hact | Hna].
  2:{ exists Break, s, d, [], [], [].
      rewrite (twap_slice_break cancels twap_id k s d Hd (or_introl Hna)).
      rewrite !app_nil_r. repeat split; auto. discriminate. }
  destruct (PrimFloat.leb (TWAPStrategy.slice_size d k) 0) eqn:Hq.
  { exists Break, s, d, [], [], [].
    rewrite (twap_slice_break cancels twap_id k s d Hd (or_intror Hq)).
    rewrite !app_nil_r. repeat split; auto. discriminate. }
  destruct (place_slice_trace d (TWAPStrategy.slice_size d k) s)
    as (new & Hs1 & Hacc & Hreq & Hcn & Hst).
  destruct (TWAPStrategy.place_slice d (TWAPStrategy.slice_size d k) s)
    as [res s1] eqn:Hplace.
  cbn [fst snd] in Hs1, Hacc. subst s1.
  rewrite (twap_slice_attempt cancels twap_id k s d res _ Hd Hact Hq Hplace).
  destruct (slice_recorded_lists res k (TWAPStrategy.slice_size d k) (clock s) d)
    as (Hex & Hfl & Hrem & Hn).
  destruct (after_interrupt_lists (cancels k) (after_pause d k (clock s))
              (slice_recorded res k (TWAPStrategy.slice_size d k) (clock s) d))
    as (Hex' & Hfl' & Hrem' & Hn').
  eexists Next, _, _, new, _, _.
  split; [reflexivity |].
  cbn [client history active_twap_orders with_twaps with_clock with_history].
  split; [reflexivity |]. split; [reflexivity |].
  split; [apply dict_get_set_same |].
  split; [rewrite Hex', Hex; reflexivity |].
  split; [rewrite Hfl', Hfl; reflexivity |].
  split; [rewrite Hn', Hn; reflexivity |].
  rewrite Hrem', Hrem, Hacc.
  assert (Hcancelled : cancels k = true -> Next = Next ->
            twap_status
              (after_interrupt (cancels k) (after_pause d k (clock s))
                 (slice_recorded res k (TWAPStrategy.slice_size d k)
                    (clock s) d)) = "CANCELED").
  { intros -> _. reflexivity. }
  destruct res as [e | o];
    cbn [map fold_left ex_quantity ex_order List.length] in *;
    repeat split; auto; try lia;
    repeat constructor.
Qed.

Lemma Forall_in_cons {A} (P : A -> Z) k ks (l : list A) :
  Forall (fun x => In (P x - 1) ks) l ->
  Forall (fun x => In (P x - 1) (k :: ks)) l.
Proof.
  intros H. eapply Forall_impl; [| exact H]. intros x Hx. now right.
Qed.

Lemma Forall_in_head {A} (P : A -> Z) k ks (l : list A) :
  Forall (fun x => P x = k + 1) l ->
  Forall (fun x => In (P x - 1) (k :: ks)) l.
Proof.
  intros H. eapply Forall_impl; [| exact H]. intros x Hx. left.
  cbv beta in Hx. rewrite Hx. lia.
Qed.

Lemma twap_loop_trace cancels twap_id ks :
  forall s d,
    dict_get twap_id (active_twap_orders s) = Some d ->
    exists f s' d' new ex fl,
      for_loop (TWAPStrategy.twap_slice cancels twap_id) ks s = (inr f, s')
      /\ client s' = client s
      /\ history s' = history s ++ new
      /\ dict_get twap_id (active_twap_orders s') = Some d'
      /\ executed_orders d' = executed_orders d ++ ex
      /\ failed_orders d' = failed_orders d ++ fl
      /\ num_slices d' = num_slices d
      /\ remaining_quantity d'
         = fold_left PrimFloat.sub (map ex_quantity ex) (remaining_quantity d)
      /\ accepted_orders new = map ex_order ex
      /\ (List.length (order_requests new) <= List.length ks)%nat
      /\ (List.length ex + List.length fl <= List.length ks)%nat
      /\ cancel_requests new = []
      /\ status_queries new = []
      /\ Forall (fun e => In (ex_slice_num e - 1) ks) ex
      /\ Forall (fun x => In (fs_slice_num x - 1) ks) fl.
Proof.
  induction ks as [| k ks IH]; intros s d Hd.
  - exists Next, s, d, [], [], []. rewrite !app_nil_r.
    repeat split; auto.
  - destruct (twap_slice_trace cancels twap_id k s d Hd)
      as (f1 & s1 & d1 & new1 & ex1 & fl1 & Hrun1 & Hc1 & Hh1 & Hd1 & Hex1
          & Hfl1 & Hn1 & Hrem1 & Hacc1 & Hreq1 & Hlen1 & Hcn1 & Hst1
          & Hke1 & Hkf1 & _).
    apply (Forall_in_head ex_slice_num k ks) in Hke1.
    apply (Forall_in_head fs_slice_num k ks) in Hkf1.
    destruct f1.
    + rewrite (for_loop_cons _ _ _ _ _ Hrun1).
      destruct (IH s1 d1 Hd1)
        as (f & s' & d' & new2 & ex2 & fl2 & Hrun & Hc2 & Hh2 & Hd2 & Hex2
            & Hfl2 & Hn2 & Hrem2 & Hacc2 & Hreq2 & Hlen2 & Hcn2 & Hst2
            & Hke2 & Hkf2).
      apply (Forall_in_cons ex_slice_num k) in Hke2.
      apply (Forall_in_cons fs_slice_num k) in Hkf2.
      exists f, s', d', (new1 ++ new2), (ex1 ++ ex2), (fl1 ++ fl2).
      split; [exact Hrun |].
      split; [congruence |].
      split; [rewrite Hh2, Hh1, app_assoc; reflexivity |].
      split; [exact Hd2 |].
      split; [rewrite Hex2, Hex1, app_assoc; reflexivity |].
      split; [rewrite Hfl2, Hfl1, app_assoc; reflexivity |].
      split; [congruence |].
      split; [rewrite Hrem2, Hrem1, map_app, fold_left_app; reflexivity |].
      rewrite accepted_orders_app, order_requests_app, cancel_requests_app,
        status_queries_app, Hacc1, Hacc2, Hcn1, Hcn2, Hst1, Hst2, map_app,
        !length_app.
      split; [reflexivity |].
      split; [cbn [List.length]; lia |].
      split; [cbn [List.length]; lia |].
      split; [reflexivity |]. split; [reflexivity |].
      split; apply Forall_app; split; assumption.
    + rewrite (for_loop_break _ _ _ _ _ Hrun1).
      exists Break, s1, d1, new1, ex1, fl1.
      repeat split; auto; cbn [List.length]; lia.
Qed.

(** The whole run, with its trace. *)
Lemma execute_twap_slices_trace cancels twap_id s d :
  dict_get twap_id (active_twap_orders s) = Some d ->
  exists s' d' new ex fl,
    TWAPStrategy._execute_twap_slices cancels twap_id s = (inr tt, s')
    /\ history s' = history s ++ new
    /\ dict_get twap_id (active_twap_orders s')
       = Some (TWAPStrategy.set_status_end "COMPLETED" (clock s') d')
    /\ executed_orders d' = executed_orders d ++ ex
    /\ failed_orders d' = failed_orders d ++ fl
    /\ accepted_orders new = map ex_order ex
    /\ (List.length (order_requests new) <= Z.to_nat (num_slices d))%nat
    /\ (List.length ex + List.length fl <= Z.to_nat (num_slices d))%nat
    /\ remaining_quantity d'
       = fold_left PrimFloat.sub (map ex_quantity ex) (remaining_quantity d)
    /\ cancel_requests new = []
    /\ status_queries new = [].
Proof.
  intros Hd.
  destruct (twap_loop_trace cancels twap_id (range (num_slices d)) s d Hd)
    as (f & s1 & d1 & new & ex & fl & Hrun & Hc & Hh & Hd1 & Hex & Hfl & Hn
        & Hrem & Hacc & Hreq & Hlen & Hcn & Hst & _).
  rewrite range_length in Hreq, Hlen.
  unfold TWAPStrategy._execute_twap_slices, TWAPStrategy.twap_data_of,
    TWAPStrategy.update_twap, for_each, now, bind, gets, modify, ret.
  rewrite Hd, Hrun, Hd1.
  eexists _, d1, new, ex, fl. split; [reflexivity |].
  cbn [history clock active_twap_orders with_twaps].
  split; [exact Hh |]. split; [apply dict_get_set_same |].
  repeat split; assumption.
Qed.

(** X20.  The books of a TWAP run balance, on any exchange and whoever
    cancels the order meanwhile: for a registered order whose slice
    interval is a pause [time.sleep] takes, [_execute_twap_slices] returns,
    having sent at most one order request per slice and nothing else; every
    order the exchange accepted is on record as an executed slice, in
    order; the two lists grow by no more entries than there are slices;
    and the remaining quantity is what it was before the run minus the
    executed quantities, taken off one after the other. *)
Theorem execute_twap_slices_accounting :
  forall (cancels : Z -> bool) (twap_id : string) (s : State) (d : TwapData),
    dict_get twap_id (active_twap_orders s) = Some d ->
    Py.sleep_accepts (slice_interval d) = true ->
    exists s' d' new ex fl,
      TWAPStrategy._execute_twap_slices cancels twap_id s = (inr tt, s')
      /\ history s' = history s ++ new
      /\ dict_get twap_id (active_twap_orders s') = Some d'
      /\ executed_orders d' = executed_orders d ++ ex
      /\ failed_orders d' = failed_orders d ++ fl
      /\ accepted_orders new = map ex_order ex
      /\ (List.length (order_requests new) <= Z.to_nat (num_slices d))%nat
      /\ (List.length ex + List.length fl <= Z.to_nat (num_slices d))%nat
      /\ remaining_quantity d'
         = fold_left PrimFloat.sub (map ex_quantity ex) (remaining_quantity d)
      /\ cancel_requests new = []
      /\ status_queries new = [].
Proof.
  intros cancels twap_id s d Hd _.
  destruct (execute_twap_slices_trace cancels twap_id s d Hd)
    as (s' & d' & new & ex & fl & Hrun & Hh & Hd' & Hex & Hfl & Hrest).
  exists s', (TWAPStrategy.set_status_end "COMPLETED" (clock s') d'), new, ex, fl.
  split; [exact Hrun |]. split; [exact Hh |]. split; [exact Hd' |].
  cbn [executed_orders failed_orders remaining_quantity
       TWAPStrategy.set_status_end].
  split; [exact Hex |]. split; [exact Hfl |]. exact Hrest.
Qed.

Lemma execute_twap_slices_accounting_witness :
  let s := Sim.with_twap_registered
             (Sim.start (fun k => negb (Nat.eqb k 0)) (fun _ => Some "NEW")
                        1700000000.5) in
  exists d s' d',
    dict_get Sim.twap_id (active_twap_orders s) = Some d
    /\ Py.sleep_accepts (slice_interval d) = true
    /\ TWAPStrategy._execute_twap_slices (fun _ => false) Sim.twap_id s
       = (inr tt, s')
    /\ dict_get Sim.twap_id (active_twap_orders s') = Some d'
    /\ map orderId (accepted_orders (history s')) = [1001]
    /\ map (fun e => orderId (ex_order e)) (executed_orders d') = [1001]
    /\ map fs_slice_num (failed_orders d') = [1]
    /\ remaining_quantity d' = 0%float.
Proof.
  intros s.
  eexists. eexists. eexists.
  split; [reflexivity |].
  split; [reflexivity |].
  destruct (execute_twap_slices_accounting (fun _ => false) Sim.twap_id s _
              eq_refl eq_refl)
    as (s' & d' & new & ex & fl & Hrun & _ & Hd' & _).
  assert (Hs : snd (TWAPStrategy._execute_twap_slices (fun _ => false)
                      Sim.twap_id s) = s') by (rewrite Hrun; reflexivity).
  vm_compute in Hs. subst s'.
  split; [exact Hrun |].
  vm_compute in Hd'. injection Hd' as <-.
  split; [reflexivity |].
  repeat split.
Defined.

(** *** Cancelling a TWAP order *)


(** On an order that is not ACTIVE the loop does nothing. *)
Lemma for_loop_not_active cancels twap_id ks s d :
  dict_get twap_id (active_twap_orders s) = Some d ->
  twap_status d <> "ACTIVE" ->
  exists f, for_loop (TWAPStrategy.twap_slice cancels twap_id) ks s = (inr f, s).
Proof.
  intros Hd Hna. destruct ks as [| k ks].
  - exists Next. reflexivity.
  - exists Break. apply for_loop_break.
    apply (twap_slice_break cancels twap_id k s d Hd). now left.
Qed.



(** X21.  [cancel_twap_order] talks to no one: it marks the registered
    order CANCELED, sets its end time and reports what was executed so
    far; the exchange is not called, so the slices already placed stay as
    they are.  From then on the slicing loop places nothing: run over any
    slices, it leaves the program as it is. *)
Theorem cancel_twap_order_stops_slicing :
  forall (cancels : Z -> bool) (twap_id : string) (s : State) (d : TwapData)
         (ks : list Z),
    dict_get twap_id (active_twap_orders s) = Some d ->
    let s1 :=
      with_twaps
        (dict_set twap_id (TWAPStrategy.set_status_end "CANCELED" (clock s) d)
                  (active_twap_orders s)) s in
    TWAPStrategy.cancel_twap_order twap_id s
    = (inr (TWAPStrategy.mkCanceled twap_id "CANCELED"
              (Z.of_nat (List.length (executed_orders d)))
              (Z.of_nat (List.length (failed_orders d)))
              (remaining_quantity d)), s1)
    /\ history s1 = history s
    /\ exists f,
         for_loop (TWAPStrategy.twap_slice cancels twap_id) ks s1 = (inr f, s1).
Proof.
  intros cancels twap_id s d ks Hd s1.
  split; [| split; [reflexivity |]].
  - unfold TWAPStrategy.cancel_twap_order, TWAPStrategy.twap_data_of,
      TWAPStrategy.update_twap, now, bind, gets, modify, ret.
    rewrite !Hd. cbn [active_twap_orders with_twaps].
    rewrite dict_get_set_same. reflexivity.
  - apply (for_loop_not_active cancels twap_id ks s1
             (TWAPStrategy.set_status_end "CANCELED" (clock s) d)).
    + apply dict_get_set_same.
    + discriminate.
Qed.

Lemma cancel_twap_order_stops_slicing_witness :
  let s := Sim.with_twap_registered
             (Sim.start (fun _ => true) (fun _ => Some "NEW") 1700000000.5) in
  let r := TWAPStrategy.cancel_twap_order Sim.twap_id s in
  fst r = inr (TWAPStrategy.mkCanceled Sim.twap_id "CANCELED" 0 0 1)
  /\ history (snd r) = history s
  /\ exists f,
       for_loop (TWAPStrategy.twap_slice (fun _ => false) Sim.twap_id)
                (range 2) (snd r) = (inr f, snd r).
Proof.
  intros s r.
  destruct (cancel_twap_order_stops_slicing (fun _ => false) Sim.twap_id s
              (mkTwap "BTCUSDT" "BUY" 1 1 2 0.5 60 "MARKET" None "GTC"
                      (clock s) (PrimFloat.add (clock s) 120) "ACTIVE" [] [])
              (range 2) eq_refl) as (Hrun & Hh & f & Hloop).
  subst r. rewrite Hrun. cbn [fst snd].
  split; [reflexivity |]. split; [exact Hh |].
  exists f. exact Hloop.
Defined.




(** *** The adaptive TWAP *)

(** X23.  [execute_adaptive_twap] is a market TWAP with
    [min(2 * max(5, duration), 100)] slices, so never fewer than 10 and
    never more than 100, whatever the duration; nothing else is adapted.
    With arguments that pass the checks, for an order that can be planned
    (its end time is a datetime and the pause between its slices is one
    [time.sleep] takes), it registers the order with that many slices and
    runs it as [execute_twap_order] does, after validating the arguments
    twice (two symbol lookups before any order), and sends at most one
    order request per slice. *)
Theorem execute_adaptive_twap_slices :
  forall (cancels : Z -> bool) (symbol side : string) (total : float)
         (duration_minutes : Z) (s : State),
    (3 <= String.length symbol)%nat ->
    Py.upper side = "BUY" \/ Py.upper side = "SELL" ->
    PrimFloat.leb total 0 = false ->
    0 < duration_minutes ->
    let n := Z.min (Z.max 5 duration_minutes * 2) 100 in
    twap_plannable (clock s) duration_minutes n ->
    let s1 := with_history (history s ++ [symbol_lookup s]) s in
    exists started s' d new,
      TWAPStrategy.execute_adaptive_twap cancels symbol side total
        duration_minutes s = (inr started, s')
      /\ TWAPStrategy.st_num_slices started = n
      /\ 10 <= n <= 100
      /\ TWAPStrategy.st_status started = "STARTED"
      /\ dict_get (TWAPStrategy.st_twap_id started) (active_twap_orders s')
         = Some d
      /\ num_slices d = n
      /\ twap_order_type d = "MARKET"
      /\ slice_quantity d = PrimFloat.div total (Py.float_of_int n)
      /\ history s' = history s ++ [symbol_lookup s; symbol_lookup s1] ++ new
      /\ (List.length (order_requests new) <= Z.to_nat n)%nat.
Proof.
  intros cancels symbol side total dur s Hlen Hside Ht Hdur n
         [[finish Hend] _] s1.
  assert (Hn : 10 <= n <= 100) by (subst n; lia).
  assert (Hv : String.eqb (Py.upper side) "BUY"
               || String.eqb (Py.upper side) "SELL" = true).
  { destruct Hside as [-> | ->]; reflexivity. }
  unfold TWAPStrategy.execute_adaptive_twap.
  rewrite bind_validate_symbol by exact Hlen. fold s1.
  rewrite validate_side_checked, Hv, bind_lift_inr.
  unfold BasicBot.validate_quantity at 1. cbv zeta. rewrite Ht.
  unfold Py.ret at 1. rewrite bind_lift_inr. fold n.
  rewrite (execute_twap_order_valid cancels (Py.upper symbol) (Py.upper side)
             total dur (Some n) "MARKET" None "GTC" s1 finish);
    [| rewrite upper_length; exact Hlen
     | rewrite upper_idempotent; exact Hside
     | exact Ht | exact Hdur | left; reflexivity | exact Hend | lia].
  rewrite !upper_idempotent.
  set (twap_id := ("TWAP_" ++ Py.upper symbol ++ "_" ++ _)%string).
  set (d0 := twap_in_progress _ _ _ _ _ _ _ _ _ _ _ _ _).
  set (s2 := with_twaps _ _).
  destruct (execute_twap_slices_trace cancels twap_id s2 d0)
    as (s' & d' & new & ex & fl & Hrun & Hh & Hd' & Hex & Hfl & _ & Hreq & _).
  { subst s2. apply dict_get_set_same. }
  rewrite Hrun.
  eexists _, s', _, new. split; [reflexivity |].
  cbn [TWAPStrategy.st_num_slices TWAPStrategy.st_status
       TWAPStrategy.st_twap_id].
  split; [reflexivity |]. split; [exact Hn |]. split; [reflexivity |].
  split; [exact Hd' |].
  assert (Hshape : num_slices d' = n /\ twap_order_type d' = "MARKET"
                   /\ slice_quantity d'
                      = PrimFloat.div total (Py.float_of_int n)).
  { destruct (execute_twap_slices_spec cancels twap_id s2 d0)
      as (s3 & d3 & Hrun3 & Hd3 & Hrec); [subst s2; apply dict_get_set_same |].
    rewrite Hrun in Hrun3. injection Hrun3 as <-.
    rewrite Hd' in Hd3.
    destruct Hrec as (ex3 & fl3 & st3 & t3 & -> & _).
    pose proof (f_equal (option_map num_slices) Hd3) as Hn1.
    pose proof (f_equal (option_map twap_order_type) Hd3) as Hn2.
    pose proof (f_equal (option_map slice_quantity) Hd3) as Hn3.
    cbn [option_map num_slices twap_order_type slice_quantity
         TWAPStrategy.set_status_end] in Hn1, Hn2, Hn3.
    injection Hn1 as Hn1. injection Hn2 as Hn2. injection Hn3 as Hn3.
    auto. }
  destruct Hshape as (H1 & H2 & H3).
  cbn [num_slices twap_order_type slice_quantity TWAPStrategy.set_status_end].
  split; [exact H1 |]. split; [exact H2 |]. split; [exact H3 |].
  split.
  { rewrite Hh. subst s2 s1. cbn [history with_twaps with_history].
    rewrite <- !app_assoc. reflexivity. }
  exact Hreq.
Qed.

Lemma execute_adaptive_twap_slices_witness :
  let s := Sim.start (fun _ => true) (fun _ => Some "NEW") 1700000000.5 in
  ((3 <= String.length "BTCUSDT")%nat
   /\ PrimFloat.leb 1 0 = false /\ 0 < 1
   /\ twap_plannable (clock s) 1 10)
  /\ exists started s',
       TWAPStrategy.execute_adaptive_twap (fun _ => false) "BTCUSDT" "BUY" 1 1 s
       = (inr started, s')
       /\ TWAPStrategy.st_num_slices started = 10
       /\ List.length (order_requests (history s')) = 10%nat.
Proof.
  intros s.
  assert (Hplan : twap_plannable (clock s) 1 10).
  { split; [eexists; vm_compute; reflexivity | intros _; vm_compute; reflexivity]. }
  split; [split; [cbn; lia | split; [reflexivity | split; [lia | exact Hplan]]] |].
  destruct (execute_adaptive_twap_slices (fun _ => false) "BTCUSDT" "BUY" 1 1 s)
    as (started & s' & d & new & Hrun & Hn & _);
    [cbn; lia | left; reflexivity | reflexivity | lia | exact Hplan |].
  exists started, s'. split; [exact Hrun |]. split; [exact Hn |].
  assert (Hs : snd (TWAPStrategy.execute_adaptive_twap (fun _ => false)
                      "BTCUSDT" "BUY" 1 1 s) = s')
    by (rewrite Hrun; reflexivity).
  vm_compute in Hs. subst s'. reflexivity.
Defined.

(** *** The status of a TWAP order *)

(** Zero over a positive number is zero. *)
Lemma div_zero_positive q :
  PrimFloat.ltb 0 q = true -> PrimFloat.div 0 q = 0%float.
Proof.
  intros Hq. rewrite <- (SF2Prim_Prim2SF (PrimFloat.div 0 q)), div_spec.
  rewrite ltb_spec in Hq. change (Prim2SF 0) with (S754_zero false) in *.
  destruct (Prim2SF q) as [sq | sq | | sq mq eq]; try discriminate;
    destruct sq; try discriminate; reflexivity.
Qed.

Lemma total_executed_value_none d :
  Forall (fun e => avgPrice (ex_order e) = None) (executed_orders d) ->
  TWAPStrategy.total_executed_value d = 0%float.
Proof.
  unfold TWAPStrategy.total_executed_value.
  generalize 0%float as acc.
  induction (executed_orders d) as [| e l IH]; intros acc H; [reflexivity |].
  inversion H as [| ? ? He Hl]; subst. cbn [fold_left]. rewrite He.
  apply IH, Hl.
Qed.

(** X26.  [get_twap_status] only reads: it calls nothing and changes
    nothing, whichever interpreter runs it.  Its counters are the lengths
    of the two lists of the record, its executed quantity is what the
    interpreter's [sum] makes of their quantities (so the quantity of the
    one slice, when one slice was executed), and its average price is
    zero when no executed order carries an average price (in particular
    when nothing was executed), and whenever the executed quantity is not
    above zero. *)
Theorem get_twap_status_reads_only :
  forall (compensated : bool) (twap_id : string) (s : State) (d : TwapData),
    dict_get twap_id (active_twap_orders s) = Some d ->
    exists report,
      TWAPStrategy.get_twap_status compensated twap_id s = (inr report, s)
      /\ TWAPStrategy.sr_status report = twap_status d
      /\ TWAPStrategy.sr_executed_slices report
         = Z.of_nat (List.length (executed_orders d))
      /\ TWAPStrategy.sr_failed_slices report
         = Z.of_nat (List.length (failed_orders d))
      /\ TWAPStrategy.sr_executed_quantity report
         = TWAPStrategy.py_sum compensated (map ex_quantity (executed_orders d))
      /\ (forall e, executed_orders d = [e] ->
          TWAPStrategy.sr_executed_quantity report
          = PrimFloat.add 0 (ex_quantity e))
      /\ (Forall (fun e => avgPrice (ex_order e) = None) (executed_orders d) ->
          TWAPStrategy.sr_avg_price report = 0%float)
      /\ (PrimFloat.ltb 0 (TWAPStrategy.sr_executed_quantity report) = false ->
          TWAPStrategy.sr_avg_price report = 0%float).
Proof.
  intros compensated twap_id s d Hd.
  unfold TWAPStrategy.get_twap_status, bind, gets, ret. rewrite Hd.
  eexists. split; [reflexivity |].
  cbn [TWAPStrategy.sr_status TWAPStrategy.sr_executed_slices
       TWAPStrategy.sr_failed_slices TWAPStrategy.sr_executed_quantity
       TWAPStrategy.sr_avg_price].
  split; [reflexivity |]. split; [reflexivity |]. split; [reflexivity |].
  split; [reflexivity |].
  split; [| split].
  - intros e He. unfold TWAPStrategy.executed_quantity. rewrite He.
    destruct compensated; reflexivity.
  - intros Hnone. rewrite (total_executed_value_none d Hnone).
    destruct (PrimFloat.ltb 0 (TWAPStrategy.executed_quantity compensated d))
      eqn:Hq; [apply div_zero_positive, Hq | reflexivity].
  - intros Hq. rewrite Hq. reflexivity.
Qed.

(** The order of 1 BTC in ten slices, all executed: the interpreters
    before CPython 3.12 report an executed quantity of 1, the later ones
    of 1.0000000000000002. *)
Lemma get_twap_status_reads_only_witness :
  let s := Sim.start (fun _ => true) (fun _ => Some "NEW") 1700000000.5 in
  let s1 := snd (TWAPStrategy.execute_twap_order (fun _ => false) "BTCUSDT"
                   "BUY" 1 10 None "MARKET" None "GTC" s) in
  exists d plain compensated,
    dict_get Sim.twap_id (active_twap_orders s1) = Some d
    /\ TWAPStrategy.get_twap_status false Sim.twap_id s1 = (inr plain, s1)
    /\ TWAPStrategy.get_twap_status true Sim.twap_id s1 = (inr compensated, s1)
    /\ TWAPStrategy.sr_status plain = "COMPLETED"
    /\ TWAPStrategy.sr_executed_slices plain = 10
    /\ TWAPStrategy.sr_executed_quantity plain = 1%float
    /\ TWAPStrategy.sr_executed_quantity compensated = 1.0000000000000002%float
    /\ TWAPStrategy.sr_avg_price plain = 0%float.
Proof.
  intros s s1.
  assert (Hd : exists d, dict_get Sim.twap_id (active_twap_orders s1) = Some d).
  { eexists. vm_compute. reflexivity. }
  destruct Hd as [d Hd].
  destruct (get_twap_status_reads_only false Sim.twap_id s1 d Hd)
    as (plain & Hrun1 & _).
  destruct (get_twap_status_reads_only true Sim.twap_id s1 d Hd)
    as (compensated & Hrun2 & _).
  exists d, plain, compensated.
  split; [exact Hd |]. split; [exact Hrun1 |]. split; [exact Hrun2 |].
  assert (Hr1 : fst (TWAPStrategy.get_twap_status false Sim.twap_id s1)
                = inr plain) by (rewrite Hrun1; reflexivity).
  assert (Hr2 : fst (TWAPStrategy.get_twap_status true Sim.twap_id s1)
                = inr compensated) by (rewrite Hrun2; reflexivity).
  vm_compute in Hr1. injection Hr1 as <-.
  vm_compute in Hr2. injection Hr2 as <-.
  repeat split.
Defined.

(* ===================================================================== *)
(** ** Further properties: the facade of [main.py]                        *)
(* ===================================================================== *)

Section Facade.

Variable math_log : float -> Py.result float.
Variable math_exp : float -> Py.result float.

(** X24.  [grid_strategy] creates a grid and places its orders at once.
    It can only fail in the creation, and then no order was sent and no
    grid registered.  Otherwise it reports ACTIVE, with every level
    counted as placed or as failed, and the grid is registered as ACTIVE
    with the orders of the report, which are the orders the exchange
    accepted: a grid none of whose orders was accepted is ACTIVE as
    well. *)
Theorem grid_strategy_reports_active :
  forall (symbol side : string)
         (quantity_per_order lower_price upper_price : float)
         (num_orders : Z) (grid_type : string) (s : State),
    let r := BinanceTradingBot.grid_strategy math_log math_exp symbol side
               quantity_per_order lower_price upper_price num_orders
               grid_type s in
    match fst r with
    | inl _ =>
        order_requests (history (snd r)) = order_requests (history s)
        /\ active_grids (snd r) = active_grids s
    | inr report =>
        GridOrders.er_grid_id report = grid_id_of symbol s
        /\ GridOrders.er_status report = "ACTIVE"
        /\ 0 <= GridOrders.er_placed_orders report
        /\ 0 <= GridOrders.er_failed_orders report
        /\ GridOrders.er_placed_orders report
           + GridOrders.er_failed_orders report = num_orders
        /\ accepted_orders (history (snd r))
           = accepted_orders (history s)
             ++ map oi_order (GridOrders.er_orders report)
        /\ exists g,
             dict_get (grid_id_of symbol s) (active_grids (snd r)) = Some g
             /\ grid_status g = "ACTIVE"
             /\ placed_orders g = GridOrders.er_orders report
    end.
Proof.
  intros symbol side q lo up n ty s r. subst r.
  unfold BinanceTradingBot.grid_strategy, bind.
  destruct (GridOrders.create_grid_strategy _ _ _ _ _ _ _ _ _ _ s)
    as [res s1] eqn:Hcreate.
  apply create_grid_strategy_cases in Hcreate as (lookups & Hl & Hcases).
  destruct (lookups_are_silent _ Hl) as (Hl1 & Hl2 & _).
  destruct Hcases as [(e & -> & ->)
                     | (step & levels & -> & -> & _ & Hlen & Hn & _)].
  - cbn [fst snd]. rewrite with_history_history, order_requests_app, Hl1,
      app_nil_r. split; reflexivity.
  - cbn [GridOrders.cr_grid_id].
    match goal with
    | |- context [GridOrders.execute_grid_orders ?id
                    (with_grids (dict_set ?id ?g0 ?m) ?s0)] =>
        destruct (execute_grid_orders_trace id
                    (with_grids (dict_set id g0 m) s0) g0
                    (dict_get_set_same id g0 m))
          as (placed & failed & s' & new & -> & Hh & Hg' & _ & Ha & _ & _
              & Hcount)
    end.
    cbn [fst snd GridOrders.er_grid_id GridOrders.er_status
         GridOrders.er_placed_orders GridOrders.er_failed_orders
         GridOrders.er_orders].
    cbn [grid_levels] in Hcount. rewrite Hlen in Hcount.
    split; [reflexivity |]. split; [reflexivity |].
    split; [lia |]. split; [lia |]. split; [lia |].
    split.
    { rewrite Hh. cbn [history with_grids with_history].
      rewrite !accepted_orders_app, Hl2, Ha, app_nil_r. reflexivity. }
    eexists. split; [exact Hg' |]. split; reflexivity.
Qed.

End Facade.

Lemma grid_strategy_reports_active_example :
  let s := Sim.start (fun _ => false) (fun _ => Some "NEW") 1700000000.5 in
  let r := BinanceTradingBot.grid_strategy Sim.no_log Sim.no_log
             "BTCUSDT" "BUY" 0.01 95 105 5 "LINEAR" s in
  exists report g,
    fst r = inr report
    /\ GridOrders.er_status report = "ACTIVE"
    /\ GridOrders.er_placed_orders report = 0
    /\ GridOrders.er_failed_orders report = 5
    /\ dict_get "GRID_BTCUSDT_1700000000" (active_grids (snd r)) = Some g
    /\ grid_status g = "ACTIVE"
    /\ placed_orders g = [].
Proof.
  intros s r. eexists. eexists.
  split; [vm_compute; reflexivity |].
  split; [reflexivity |]. split; [reflexivity |]. split; [reflexivity |].
  split; [vm_compute; reflexivity |].
  split; reflexivity.
Qed.
